(** * walletchecker: the STX balance checker of [checker.py]

    A shallow embedding of [check_stx_balances] and [main] together with
    the Python builtins they rely on ([str.strip], [str.replace],
    [str.startswith], [int], [dict.get], integer true division), followed
    by the properties of the program.

    Conventions of the embedding
    - a Python [str] is a [string] whose characters are code points below
      256 (Latin-1); on that domain the whitespace and digit tables below
      are the ones of CPython;
    - a Python [int] is a [Z]; a Python [float] is an IEEE-754 binary64
      value, a [spec_float] with [prec = 53] and [emax = 1024];
    - a Python [dict] is an insertion-ordered association list;
    - the exceptions are the subclasses of [Exception]; the text carried
      by an exception is not modelled;
    - effects (HTTP requests, [print], [time.sleep], file access) are
      recorded in a trace of events, in program order. *)

From Stdlib Require Import ZArith List String Ascii Bool Arith Lia.
From Stdlib Require Import QArith Qabs.
From Stdlib Require Import Floats.SpecFloat.
Import ListNotations.

Local Open Scope string_scope.
Local Open Scope list_scope.
Local Open Scope Z_scope.

(** ** Exceptions and outcomes *)

Inductive exn : Type :=
| ValueError
| TypeError
| AttributeError
| OverflowError
| JSONDecodeError
| RequestException
| FileNotFoundError
| OSError
| NameError
| OtherException (cls : string).

Inductive outcome (A : Type) : Type :=
| Ok (a : A)
| Raise (e : exn).

Arguments Ok {A} a.
Arguments Raise {A} e.

(** ** Python floats (binary64) *)

Definition float : Type := spec_float.

Module PyFloat.

Definition prec : Z := 53.
Definition emax : Z := 1024.

Definition valid (x : float) : bool := valid_binary prec emax x.

(** [x < y] and [x > y] on floats; a comparison with NaN is false. *)
Definition lt (x y : float) : bool := SFltb x y.
Definition gt (x y : float) : bool := SFltb y x.
Definition le (x y : float) : bool := SFleb x y.

(** [a / b] on two Python ints ([long_true_divide]): the quotient
    rounded to the nearest binary64, ties to even. *)
Definition int_true_divide (a b : Z) : outcome float :=
  match a, b with
  | _, Z0 => Raise (OtherException "ZeroDivisionError")
  | Z0, _ => Ok (S754_zero false)
  | Zpos p, Zpos q =>
      match SFdiv prec emax (S754_finite false p 0) (S754_finite false q 0) with
      | S754_infinity _ => Raise OverflowError
      | r => Ok r
      end
  | Zneg p, Zneg q =>
      match SFdiv prec emax (S754_finite true p 0) (S754_finite true q 0) with
      | S754_infinity _ => Raise OverflowError
      | r => Ok r
      end
  | Zpos p, Zneg q =>
      match SFdiv prec emax (S754_finite false p 0) (S754_finite true q 0) with
      | S754_infinity _ => Raise OverflowError
      | r => Ok r
      end
  | Zneg p, Zpos q =>
      match SFdiv prec emax (S754_finite true p 0) (S754_finite false q 0) with
      | S754_infinity _ => Raise OverflowError
      | r => Ok r
      end
  end.

(** [int(x)] on a float: truncation towards zero. *)
Definition trunc (x : float) : outcome Z :=
  match x with
  | S754_nan => Raise ValueError
  | S754_infinity _ => Raise OverflowError
  | S754_zero _ => Ok 0
  | S754_finite s m e =>
      let a := match e with
               | Zneg k => Z.shiftr (Zpos m) (Zpos k)
               | _ => Z.shiftl (Zpos m) e
               end in
      Ok (if s then - a else a)
  end.

(** The rational number denoted by a finite float. *)
Definition to_Q (x : float) : Q :=
  match x with
  | S754_finite s m e =>
      let v := match e with
               | Zneg k => Qmake (Zpos m) (Pos.shiftl 1 (Npos k))
               | _ => inject_Z (Z.shiftl (Zpos m) e)
               end in
      if s then Qopp v else v
  | _ => 0%Q
  end.

End PyFloat.

(** ** Python values, as [json] produces them *)

#[warnings="-register-all"]
Inductive pyval : Type :=
| PyNone
| PyBool (b : bool)
| PyInt (n : Z)
| PyFloat (f : float)
| PyStr (s : string)
| PyList (l : list pyval)
| PyDict (d : list (string * pyval)).

(** ** Insertion-ordered dictionaries with string keys *)

Module Dict.

Section WithValue.
Context {V : Type}.

Definition t : Type := list (string * V).

Fixpoint get (k : string) (d : t) : option V :=
  match d with
  | [] => None
  | (k', v) :: d' => if String.eqb k k' then Some v else get k d'
  end.

(** [d[k] = v]: an existing key keeps its place, a new key goes last. *)
Fixpoint set (k : string) (v : V) (d : t) : t :=
  match d with
  | [] => [(k, v)]
  | (k', v') :: d' =>
      if String.eqb k k' then (k, v) :: d' else (k', v') :: set k v d'
  end.

Definition keys (d : t) : list string := map fst d.

Definition mem (k : string) (d : t) : bool :=
  match get k d with Some _ => true | None => false end.

End WithValue.

Arguments t V : clear implicits.

End Dict.

(** ** Strings *)

Module Str.

Definition quote : ascii := ascii_of_nat 34.
Definition apostrophe : ascii := ascii_of_nat 39.
Definition underscore : ascii := ascii_of_nat 95.

Definition of_char (c : ascii) : string := String c EmptyString.

Definition between (lo hi n : nat) : bool :=
  (Nat.leb lo n && Nat.leb n hi)%bool.

(** [str.isspace] on one character (code points below 256). *)
Definition isspace (c : ascii) : bool :=
  let n := nat_of_ascii c in
  (between 9 13 n || between 28 32 n || Nat.eqb n 133 || Nat.eqb n 160)%bool.

Fixpoint lstrip (s : string) : string :=
  match s with
  | EmptyString => EmptyString
  | String c s' => if isspace c then lstrip s' else s
  end.

Fixpoint rstrip (s : string) : string :=
  match s with
  | EmptyString => EmptyString
  | String c s' =>
      match rstrip s' with
      | EmptyString => if isspace c then EmptyString else of_char c
      | r => String c r
      end
  end.

(** [s.strip()] *)
Definition strip (s : string) : string := rstrip (lstrip s).

(** [s.startswith(p)] *)
Definition startswith (s p : string) : bool := String.prefix p s.

Fixpoint replace_from (old new : string) (skip : nat) (s : string) : string :=
  match s with
  | EmptyString => EmptyString
  | String c s' =>
      match skip with
      | S k => replace_from old new k s'
      | O =>
          if String.prefix old s
          then new ++ replace_from old new (Nat.pred (String.length old)) s'
          else String c (replace_from old new O s')
      end
  end.

Fixpoint interleave (new s : string) : string :=
  match s with
  | EmptyString => new
  | String c s' => new ++ String c (interleave new s')
  end.

(** [s.replace(old, new)]: every occurrence, left to right, without
    overlap; an empty [old] matches between all characters. *)
Definition replace (s old new : string) : string :=
  match old with
  | EmptyString => interleave new s
  | _ => replace_from old new O s
  end.

(** Every character is white space. *)
Fixpoint all_space (s : string) : bool :=
  match s with
  | EmptyString => true
  | String c s' => isspace c && all_space s'
  end.

(** The first, the last character is white space. *)
Definition head_space (s : string) : bool :=
  match s with
  | EmptyString => false
  | String c _ => isspace c
  end.

Fixpoint last_space (s : string) : bool :=
  match s with
  | EmptyString => false
  | String c EmptyString => isspace c
  | String _ s' => last_space s'
  end.

(** [c in s], for a character [c]. *)
Fixpoint contains (c : ascii) (s : string) : bool :=
  match s with
  | EmptyString => false
  | String a s' => Ascii.eqb a c || contains c s'
  end.

(** [s] without the occurrences of [c]. *)
Fixpoint remove_char (c : ascii) (s : string) : string :=
  match s with
  | EmptyString => EmptyString
  | String a s' =>
      if Ascii.eqb a c then remove_char c s' else String a (remove_char c s')
  end.

End Str.

(** ** [int(...)] *)

Module PyInt.

(** White space as [int] skips it: [Py_ISSPACE] on ASCII, and the
    non-ASCII white space that is first rewritten to a blank. *)
Definition isspace (c : ascii) : bool :=
  let n := nat_of_ascii c in
  (Str.between 9 13 n || Nat.eqb n 32 || Nat.eqb n 133 || Nat.eqb n 160)%bool.

(** [_PyLong_DigitValue]: 37 marks a character that is no digit. *)
Definition digit_value (c : ascii) : Z :=
  let n := nat_of_ascii c in
  if Str.between 48 57 n then Z.of_nat (n - 48)
  else if Str.between 97 122 n then Z.of_nat (n - 87)
  else if Str.between 65 90 n then Z.of_nat (n - 55)
  else 37.

Fixpoint skip_spaces (s : string) : string :=
  match s with
  | EmptyString => EmptyString
  | String c s' => if isspace c then skip_spaces s' else s
  end.

(** The digit loop: digits of the base, single underscores between
    them.  Returns the value read, the number of digits and the
    unread rest; [None] on a doubled or trailing underscore. *)
Fixpoint scan (base : Z) (prev_underscore : bool) (acc : Z) (digits : nat)
         (s : string) : option (Z * nat * string) :=
  match s with
  | EmptyString => if prev_underscore then None else Some (acc, digits, s)
  | String c s' =>
      if Ascii.eqb c Str.underscore then
        if prev_underscore then None else scan base true acc digits s'
      else if digit_value c <? base then
        scan base false (acc * base + digit_value c) (S digits) s'
      else if prev_underscore then None else Some (acc, digits, s)
  end.

(** The integer that a list of digits denotes in a base, most
    significant digit first: the sum of [d * base ^ position]. *)
Fixpoint positional (base : Z) (ds : list Z) : Z :=
  match ds with
  | [] => 0
  | d :: ds' => d * base ^ Z.of_nat (List.length ds') + positional base ds'
  end.

Fixpoint digit_values (s : string) : list Z :=
  match s with
  | EmptyString => []
  | String c s' => digit_value c :: digit_values s'
  end.

(** Every character is a digit of the base. *)
Fixpoint all_digits (base : Z) (s : string) : bool :=
  match s with
  | EmptyString => true
  | String c s' => (digit_value c <? base) && all_digits base s'
  end.

Definition is_pow2 (base : Z) : bool :=
  (base =? 2) || (base =? 4) || (base =? 8) || (base =? 16) || (base =? 32).

Definition has_prefix (base : Z) (s : string) : bool :=
  match s with
  | String "0" (String c _) =>
      ((base =? 16) && (Ascii.eqb c "x" || Ascii.eqb c "X"))
      || ((base =? 8) && (Ascii.eqb c "o" || Ascii.eqb c "O"))
      || ((base =? 2) && (Ascii.eqb c "b" || Ascii.eqb c "B"))
  | _ => false
  end.

Section Parse.
(** [sys.get_int_max_str_digits()]; [0] switches the limit off. *)
Variable int_max_str_digits : nat.

(** The limit concerns the bases that are no power of two. *)
Definition over_limit (base : Z) (digits : nat) : bool :=
  negb (is_pow2 base)
  && negb (Nat.eqb int_max_str_digits 0)
  && Nat.ltb int_max_str_digits digits.

(** [PyLong_FromString] for an explicit base between 2 and 36. *)
Definition of_str (s : string) (base : Z) : outcome Z :=
  let s := skip_spaces s in
  let '(negative, s) :=
    match s with
    | String "+" s' => (false, s')
    | String "-" s' => (true, s')
    | _ => (false, s)
    end in
  let s :=
    if has_prefix base s then
      match s with
      | String _ (String _ (String c s')) =>
          if Ascii.eqb c Str.underscore then s' else String c s'
      | String _ (String _ EmptyString) => EmptyString
      | _ => s
      end
    else s in
  match s with
  | String c _ =>
      if Ascii.eqb c Str.underscore then Raise ValueError
      else
        match scan base false 0 O s with
        | None => Raise ValueError
        | Some (v, digits, rest) =>
            if Nat.eqb digits 0 then Raise ValueError
            else if over_limit base digits then Raise ValueError
            else
              match skip_spaces rest with
              | EmptyString => Ok (if negative then - v else v)
              | _ => Raise ValueError
              end
        end
  | EmptyString => Raise ValueError
  end.

(** [int(x)] *)
Definition int1 (x : pyval) : outcome Z :=
  match x with
  | PyInt n => Ok n
  | PyBool b => Ok (if b then 1 else 0)
  | PyFloat f => PyFloat.trunc f
  | PyStr s => of_str s 10
  | PyNone | PyList _ | PyDict _ => Raise TypeError
  end.

(** [int(x, base)]: only a string may come with a base. *)
Definition int2 (x : pyval) (base : Z) : outcome Z :=
  match x with
  | PyStr s => of_str s base
  | _ => Raise TypeError
  end.

End Parse.

End PyInt.

(** ** Effects: state, exceptions and a trace of events *)

(** The value stored under a name in the result:
    [{"address": ..., "balance": ...}]. *)
Record balance_record : Type := {
  address : string;
  balance : float
}.

Definition qdict : Type := Dict.t balance_record.

(** One constructor per [print] call of the program; the arguments are
    the values its f-string formats. *)
Inductive message : Type :=
| MsgChecking (n : nat) (min_balance : float)
| MsgBalance (name clean_address : string) (balance_stx : float)
| MsgBalanceFallback (name clean_address : string) (balance_stx : float)
| MsgFound (name clean_address : string) (balance_stx : float)
| MsgFailed (name clean_address : string) (status : Z)
| MsgProcessed (i : nat)
| MsgError (name : string) (address : pyval) (e : exn)
| MsgFoundCount (n : nat) (min_balance : float)
| MsgFileNotFound
| MsgCreateFile
| MsgInvalidJson
| MsgLoaded (n : nat)
| MsgSampleHeader
| MsgSample (name : string) (address : pyval)
| MsgSaved
| MsgQualifyingHeader
| MsgQualifying (name address : string) (balance : float)
| MsgNoneFound.

Inductive event : Type :=
| EGet (url : string)
| EPrint (m : message)
| ESleep (seconds : Z)
| ELoad (path : string)
| EDump (path : string) (d : qdict) (indent : nat).

Module Eff.

Section WithState.
Context {S : Type}.

(** A computation: from a state to an outcome, the state reached and
    the events emitted on the way.  A raised exception keeps both. *)
Definition M (A : Type) : Type := S -> outcome A * S * list event.

Definition ret {A} (a : A) : M A := fun s => (Ok a, s, []).

Definition bind {A B} (m : M A) (f : A -> M B) : M B :=
  fun s =>
    match m s with
    | (Ok a, s1, t1) =>
        match f a s1 with
        | (r, s2, t2) => (r, s2, t1 ++ t2)
        end
    | (Raise e, s1, t1) => (Raise e, s1, t1)
    end.

Definition raise {A} (e : exn) : M A := fun s => (Raise e, s, []).

Definition lift {A} (o : outcome A) : M A := fun s => (o, s, []).

Definition emit (ev : event) : M unit := fun s => (Ok tt, s, [ev]).

(** [try: m  except Exception as e: h e] *)
Definition try_except {A} (m : M A) (h : exn -> M A) : M A :=
  fun s =>
    match m s with
    | (Ok a, s1, t1) => (Ok a, s1, t1)
    | (Raise e, s1, t1) =>
        match h e s1 with
        | (r, s2, t2) => (r, s2, t1 ++ t2)
        end
    end.

(** Runs [m] and hands its outcome over as a value. *)
Definition attempt {A} (m : M A) : M (outcome A) :=
  fun s => match m s with (r, s1, t1) => (Ok r, s1, t1) end.

(** Reads a component of the state. *)
Definition gets {A} (f : S -> A) : M A := fun s => (Ok (f s), s, []).

Definition print (m : message) : M unit := emit (EPrint m).

Definition time_sleep (seconds : Z) : M unit := emit (ESleep seconds).

End WithState.

Arguments M S A : clear implicits.

End Eff.

Import Eff.

Notation "x <- c1 ;; c2" := (bind c1 (fun x => c2))
  (at level 61, c1 at next level, right associativity).
Notation "c1 ;; c2" := (bind c1 (fun _ => c2))
  (at level 61, right associativity).

(** ** The HTTP client *)

Record response : Type := {
  status_code : Z;
  (** what [response.json()] returns; [None] when the body is no JSON *)
  body : option pyval
}.

(** [len(x)] *)
Definition py_len (x : pyval) : outcome nat :=
  match x with
  | PyStr s => Ok (String.length s)
  | PyList l => Ok (List.length l)
  | PyDict d => Ok (List.length d)
  | _ => Raise TypeError
  end.

(** [x.items()] *)
Definition py_items (x : pyval) : outcome (list (string * pyval)) :=
  match x with
  | PyDict d => Ok d
  | _ => Raise AttributeError
  end.

(** [x.get(key, default)] *)
Definition py_get (x : pyval) (key : string) (default : pyval) : outcome pyval :=
  match x with
  | PyDict d =>
      Ok (match Dict.get key d with Some v => v | None => default end)
  | _ => Raise AttributeError
  end.

(** [isinstance(x, str) and x.startswith(p)] *)
Definition is_str_startswith (x : pyval) (p : string) : bool :=
  match x with
  | PyStr s => Str.startswith s p
  | _ => false
  end.

(** [clean_address]: [address.strip()], then [replace] of the double
    quote by the empty string, then [replace] of the apostrophe by the
    empty string. *)
Definition clean (address : pyval) : outcome string :=
  match address with
  | PyStr s =>
      Ok (Str.replace
            (Str.replace (Str.strip s) (Str.of_char Str.quote) "")
            (Str.of_char Str.apostrophe) "")
  | _ => Raise AttributeError
  end.

Definition base_url : string :=
  "https://stacks-node-api.mainnet.stacks.co/extended/v1/address/".

Definition fallback_base_url : string :=
  "https://stacks-node-api.mainnet.stacks.co/v2/accounts/".

(** The floats [5.0], [0.0] and [-1.0]. *)
Definition five : float := S754_finite false 5629499534213120 (-50).
Definition zero : float := S754_zero false.
Definition minus_one : float := S754_finite true 4503599627370496 (-52).

(** ** A small world to run the program in

    The state counts the requests made so far.  The server knows six
    addresses; any other request is answered with status 404. *)

Module Demo.

Definition World : Type := nat.

Definition json_balance (v : pyval) : response :=
  {| status_code := 200; body := Some (PyDict [("balance", v)]) |}.

Definition not_found : response :=
  {| status_code := 404; body := Some (PyDict [("error", PyStr "not found")]) |}.

Definition server : list (string * outcome response) :=
  [ (base_url ++ "SP000...1", Ok (json_balance (PyStr "0x7A1200")));
    (base_url ++ "SP000...2", Ok (json_balance (PyStr "0x100000")));
    (fallback_base_url ++ "SP3", Ok (json_balance (PyStr "9000000")));
    (base_url ++ "SP4", Ok {| status_code := 200; body := None |});
    (base_url ++ "SP5", Ok {| status_code := 200; body := Some (PyDict []) |});
    (base_url ++ "SP6", Raise RequestException) ]%string.

Definition http_get (url : string) (w : World) : outcome response * World :=
  (match Dict.get url server with
   | Some r => r
   | None => Ok not_found
   end, S w).

Definition alice_bob : Dict.t pyval :=
  [("alice", PyStr "SP000...1"); ("bob", PyStr "SP000...2")].

(** Six entries; the request for the last one, at index 5, fails. *)
Definition six : Dict.t pyval :=
  [("alice", PyStr "SP000...1"); ("bob", PyStr "SP000...2");
   ("carol", PyStr "SP3"); ("dave", PyStr "SP4"); ("erin", PyStr "SP5");
   ("frank", PyStr "SP6")].

(** Six entries again; the last one, at index 5, is answered. *)
Definition six_answered : Dict.t pyval :=
  [("alice", PyStr "SP000...1"); ("bob", PyStr "SP000...2");
   ("carol", PyStr "SP3"); ("dave", PyStr "SP4"); ("frank", PyStr "SP6");
   ("erin", PyStr "SP5")].

Definition erin : Dict.t pyval := [("erin", PyStr "SP5")].

(** The input file is missing, is no JSON, or holds [alice_bob]. *)
Definition no_file (path : string) (w : World) : outcome pyval * World :=
  (Raise FileNotFoundError, w).

Definition bad_file (path : string) (w : World) : outcome pyval * World :=
  (Raise JSONDecodeError, w).

Definition good_file (path : string) (w : World) : outcome pyval * World :=
  (Ok (PyDict alice_bob), w).

Definition dump_json (path : string) (d : qdict) (indent : nat) (w : World)
  : outcome unit * World :=
  (Ok tt, w).

(** A few of the names of the [builtins] module. *)
Definition builtins : list string :=
  ["print"; "len"; "int"; "str"; "list"; "isinstance"; "enumerate"; "open";
   "Exception"; "FileNotFoundError"; "float"; "dict"; "__name__"; "__doc__"].

End Demo.

(** More worlds: a server that gives one answer to every request, and
    files that hold a list, cannot be opened, or cannot be written. *)

Module Demo2.

Definition always (r : response) (url : string) (w : unit)
  : outcome response * unit :=
  (Ok r, w).

Definition upper_case : response :=
  Demo.json_balance (PyStr "0X4c4b40").

Definition overdrawn : response :=
  Demo.json_balance (PyInt (-7)).

Definition no_json : response :=
  {| status_code := 200; body := None |}.

Definition json_list : response :=
  {| status_code := 200; body := Some (PyList []) |}.

(** The primary endpoint answers 404, the request to the fallback
    endpoint fails. *)
Definition fallback_down (url : string) (w : unit)
  : outcome response * unit :=
  if String.prefix base_url url then (Ok Demo.not_found, w)
  else (Raise RequestException, w).

Definition list_file (path : string) (w : Demo.World)
  : outcome pyval * Demo.World :=
  (Ok (PyList [PyStr "SP000...1"]), w).

Definition locked_file (path : string) (w : Demo.World)
  : outcome pyval * Demo.World :=
  (Raise OSError, w).

Definition read_only (path : string) (d : qdict) (indent : nat)
           (w : Demo.World) : outcome unit * Demo.World :=
  (Raise OSError, w).

End Demo2.

(** ** The program *)

Section Program.

Local Set Default Proof Using "Type".

(** The interpreter's limit on decimal digits in [int(str)]. *)
Variable int_max_str_digits : nat.

(** The outside world: the network and the two files. *)
Variable World : Type.
(** [requests.get(url)]: a response, or an exception. *)
Variable http_get : string -> World -> outcome response * World.
(** [with open(path, 'r') as file: json.load(file)] *)
Variable load_json : string -> World -> outcome pyval * World.
(** [with open(path, 'w') as file: json.dump(d, file, indent=n)] *)
Variable dump_json : string -> qdict -> nat -> World -> outcome unit * World.

(** The state of a run of [check_stx_balances]: the world and the
    dictionary the loop fills. *)
Record frame : Type := {
  world : World;
  qualifying_addresses : qdict
}.

Definition requests_get (url : string) : M frame response :=
  fun s =>
    match http_get url (world s) with
    | (r, w) =>
        (r, {| world := w; qualifying_addresses := qualifying_addresses s |},
         [EGet url])
    end.

(** [response.json()] *)
Definition response_json {S} (r : response) : M S pyval :=
  match body r with
  | Some v => ret v
  | None => raise JSONDecodeError
  end.

(** [qualifying_addresses[name] = {"address": a, "balance": b}] *)
Definition store (name : string) (a : string) (b : float) : M frame unit :=
  fun s =>
    (Ok tt,
     {| world := world s;
        qualifying_addresses :=
          Dict.set name {| address := a; balance := b |} (qualifying_addresses s) |},
     []).

Definition int1 := PyInt.int1 int_max_str_digits.
Definition int2 := PyInt.int2 int_max_str_digits.

(** The body of the [try], lines 27 to 97. *)
Definition try_block (min_balance : float) (i : nat) (name : string)
           (address : pyval) : M frame unit :=
    (clean_address <- lift (clean address) ;;
     let url := (base_url ++ clean_address)%string in
     response <- requests_get url ;;
     (if status_code response =? 200 then
        data <- response_json response ;;
        balance_str <- lift (py_get data "balance" (PyStr "0")) ;;
        balance_micro_stx <-
          lift (if is_str_startswith balance_str "0x"
                then int2 balance_str 16
                else int1 balance_str) ;;
        balance_stx <- lift (PyFloat.int_true_divide balance_micro_stx 1000000) ;;
        print (MsgBalance name clean_address balance_stx) ;;
        if PyFloat.gt balance_stx min_balance then
          store name clean_address balance_stx ;;
          print (MsgFound name clean_address balance_stx)
        else ret tt
      else
        let fallback_url := (fallback_base_url ++ clean_address)%string in
        fallback_response <- requests_get fallback_url ;;
        if status_code fallback_response =? 200 then
          fallback_data <- response_json fallback_response ;;
          balance_str <- lift (py_get fallback_data "balance" (PyStr "0")) ;;
          balance_micro_stx <-
            lift (if is_str_startswith balance_str "0x"
                  then int2 balance_str 16
                  else int1 balance_str) ;;
          balance_stx <- lift (PyFloat.int_true_divide balance_micro_stx 1000000) ;;
          print (MsgBalanceFallback name clean_address balance_stx) ;;
          if PyFloat.gt balance_stx min_balance then
            store name clean_address balance_stx ;;
            print (MsgFound name clean_address balance_stx)
          else ret tt
        else
          print (MsgFailed name clean_address (status_code response))) ;;
     if (0 <? i)%nat && (i mod 5 =? 0)%nat then
       print (MsgProcessed i) ;;
       time_sleep 1
     else ret tt).

(** The body of the [for] loop, lines 26 to 101: the [try] and its
    handler; after the handler the loop goes on ([continue]). *)
Definition loop_body (min_balance : float) (i : nat) (name : string)
           (address : pyval) : M frame unit :=
  try_except
    (try_block min_balance i name address)
    (fun e => print (MsgError name address e)).

(** [for i, (name, address) in enumerate(address_dict.items())],
    entered at index [i]. *)
Fixpoint for_enumerate (min_balance : float) (i : nat)
         (items : list (string * pyval)) : M frame unit :=
  match items with
  | [] => ret tt
  | (name, address) :: rest =>
      loop_body min_balance i name address ;;
      for_enumerate min_balance (S i) rest
  end.

Definition check_body (address_dict : Dict.t pyval) (min_balance : float)
  : M frame qdict :=
  print (MsgChecking (List.length address_dict) min_balance) ;;
  for_enumerate min_balance O address_dict ;;
  result <- gets qualifying_addresses ;;
  print (MsgFoundCount (List.length result) min_balance) ;;
  ret result.

(** [check_stx_balances(address_dict, min_balance)]: the dictionary is
    created empty on entry and returned at the end. *)
Definition check_stx_balances (address_dict : Dict.t pyval) (min_balance : float)
  : M World qdict :=
  fun w =>
    match check_body address_dict min_balance
            {| world := w; qualifying_addresses := [] |} with
    | (r, s, t) => (r, world s, t)
    end.

Definition open_load (path : string) : M World pyval :=
  fun w => match load_json path w with (r, w') => (r, w', [ELoad path]) end.

Definition open_dump (path : string) (d : qdict) (indent : nat) : M World unit :=
  fun w => match dump_json path d indent w with
           | (r, w') => (r, w', [EDump path d indent])
           end.

Fixpoint print_samples (items : list (string * pyval)) : M World unit :=
  match items with
  | [] => ret tt
  | (name, address) :: rest => print (MsgSample name address) ;; print_samples rest
  end.

Fixpoint print_qualifying (items : qdict) : M World unit :=
  match items with
  | [] => ret tt
  | (name, data) :: rest =>
      print (MsgQualifying name (address data) (balance data)) ;;
      print_qualifying rest
  end.

(** [main()] *)
Definition main : M World unit :=
  loaded <- attempt (open_load "stacks_addresses.json") ;;
  match loaded with
  | Raise FileNotFoundError =>
      print MsgFileNotFound ;;
      print MsgCreateFile
  | Raise JSONDecodeError =>
      print MsgInvalidJson
  | Raise e => raise e
  | Ok address_dict =>
      n <- lift (py_len address_dict) ;;
      print (MsgLoaded n) ;;
      print MsgSampleHeader ;;
      items <- lift (py_items address_dict) ;;
      let sample_items := if (3 <? n)%nat then firstn 3 items else items in
      print_samples sample_items ;;
      let min_balance := five in
      qualifying_addresses <- check_stx_balances items min_balance ;;
      open_dump "qualifying_addresses.json" qualifying_addresses 2 ;;
      print MsgSaved ;;
      match qualifying_addresses with
      | _ :: _ =>
          print MsgQualifyingHeader ;;
          print_qualifying qualifying_addresses
      | [] => print MsgNoneFound
      end
  end.

(** ** Running the file as a script

    The statements at module level are the imports, the two [def]s and
    the guard on the last two lines.  A name is looked up among the
    module's globals, then among the builtins. *)

Inductive binding : Type :=
| BStr (s : string)
| BObject.

(** The names of the [builtins] module. *)
Variable builtins : list string.

(** The globals of the module when the guard is reached. *)
Definition script_globals : Dict.t binding :=
  [("__name__", BStr "__main__"); ("__doc__", BObject);
   ("__package__", BObject); ("__loader__", BObject); ("__spec__", BObject);
   ("__annotations__", BObject); ("__builtins__", BObject);
   ("__file__", BStr "checker.py"); ("__cached__", BObject);
   ("requests", BObject); ("json", BObject); ("time", BObject);
   ("Dict", BObject); ("Any", BObject);
   ("check_stx_balances", BObject); ("main", BObject)].

Definition load_name (name : string) : outcome binding :=
  match Dict.get name script_globals with
  | Some b => Ok b
  | None =>
      if existsb (String.eqb name) builtins then Ok BObject
      else Raise NameError
  end.

Definition binding_eqb (b : binding) (s : string) : bool :=
  match b with
  | BStr s' => String.eqb s' s
  | BObject => false
  end.

(** Lines 145 and 146, as they are spelled in the file. *)
Definition script : M World unit :=
  v <- lift (load_name "_name_") ;;
  if binding_eqb v "_main_" then main else ret tt.

(** ** The specification's reading of one entry

    Step 3 of the component design: a [balance] that is a string
    beginning with [0x] is read in base 16, anything else in base 10,
    and the integer is divided by 1,000,000. *)
Definition decode_balance (balance_field : pyval) : outcome float :=
  match
    (match balance_field with
     | PyStr str =>
         if String.prefix "0x" str
         then PyInt.of_str int_max_str_digits str 16
         else PyInt.of_str int_max_str_digits str 10
     | other => PyInt.int1 int_max_str_digits other
     end)
  with
  | Ok micro => PyFloat.int_true_divide micro 1000000
  | Raise e => Raise e
  end.

(** The [balance] field of a parsed body, ["0"] when it is absent. *)
Definition balance_field (r : response) : outcome pyval :=
  match body r with
  | None => Raise JSONDecodeError
  | Some (PyDict d) =>
      Ok (match Dict.get "balance" d with Some v => v | None => PyStr "0" end)
  | Some _ => Raise AttributeError
  end.

Definition decode_response (r : response) : outcome float :=
  match balance_field r with
  | Ok v => decode_balance v
  | Raise e => Raise e
  end.

(** The response with status 200 that an entry decodes: [r] comes
    from the primary endpoint, or ([fallback]) from the fallback
    endpoint after the primary one answered with another status;
    [w'] is the world after the requests. *)
Definition answered (fallback : bool) (c : string) (s : frame)
           (r : response) (w' : World) : Prop :=
  if fallback then
    exists r0 w0,
      http_get (base_url ++ c) (world s) = (Ok r0, w0)
      /\ status_code r0 <> 200
      /\ http_get (fallback_base_url ++ c) w0 = (Ok r, w')
      /\ status_code r = 200
  else
    http_get (base_url ++ c) (world s) = (Ok r, w')
    /\ status_code r = 200.

(** The events of the rate-limit pause after the entry at index [i]. *)
Definition pause_events (i : nat) : list event :=
  if (0 <? i)%nat && (i mod 5 =? 0)%nat
  then [EPrint (MsgProcessed i); ESleep 1]
  else [].

(** What an entry does once a response with status 200 is at hand:
    [d] is the decoded balance or the exception raised on the way,
    [pre] the events emitted so far, [fallback] tells which endpoint
    answered. *)
Definition settle (fallback : bool) (min_balance : float) (i : nat)
           (name clean_address : string) (address : pyval)
           (w : World) (q : qdict) (d : outcome float) (pre : list event)
  : outcome unit * frame * list event :=
  match d with
  | Ok b =>
      (Ok tt,
       {| world := w;
          qualifying_addresses :=
            if PyFloat.gt b min_balance
            then Dict.set name {| address := clean_address; balance := b |} q
            else q |},
       pre
         ++ [EPrint ((if fallback then MsgBalanceFallback else MsgBalance)
                       name clean_address b)]
         ++ (if PyFloat.gt b min_balance
             then [EPrint (MsgFound name clean_address b)] else [])
         ++ pause_events i)
  | Raise e =>
      (Ok tt, {| world := w; qualifying_addresses := q |},
       pre ++ [EPrint (MsgError name address e)])
  end.

(** The URLs requested, in order. *)
Fixpoint requests (tr : list event) : list string :=
  match tr with
  | [] => []
  | EGet url :: tr' => url :: requests tr'
  | _ :: tr' => requests tr'
  end.

(** The balances announced on the console: name, address, balance. *)
Fixpoint reports (tr : list event) : list (string * string * float) :=
  match tr with
  | [] => []
  | EPrint (MsgBalance n a b) :: tr' => (n, a, b) :: reports tr'
  | EPrint (MsgBalanceFallback n a b) :: tr' => (n, a, b) :: reports tr'
  | _ :: tr' => reports tr'
  end.

(** The exceptions caught by the handler of the loop, with the name
    of the entry. *)
Fixpoint errors (tr : list event) : list (string * exn) :=
  match tr with
  | [] => []
  | EPrint (MsgError n _ e) :: tr' => (n, e) :: errors tr'
  | _ :: tr' => errors tr'
  end.

(** No exception reached the handler. *)
Definition quiet (tr : list event) : bool :=
  match errors tr with
  | [] => true
  | _ :: _ => false
  end.

(** What the console shows of an entry whose response was decoded to
    [d]: the balance announced, or the exception caught. *)
Definition announces (name c : string) (d : outcome float) (tr : list event)
  : Prop :=
  match d with
  | Ok b => reports tr = [(name, c, b)] /\ errors tr = []
  | Raise e => reports tr = [] /\ errors tr = [(name, e)]
  end.

(** The pauses, in seconds. *)
Fixpoint sleeps (tr : list event) : list Z :=
  match tr with
  | [] => []
  | ESleep n :: tr' => n :: sleeps tr'
  | _ :: tr' => sleeps tr'
  end.

(** Writes of the result file. *)
Fixpoint dumps (tr : list event) : list (string * qdict * nat) :=
  match tr with
  | [] => []
  | EDump p d n :: tr' => (p, d, n) :: dumps tr'
  | _ :: tr' => dumps tr'
  end.

(** The events of each iteration of [for_enumerate], one list per
    entry, and the frame the loop ends in. *)
Fixpoint iterations (min_balance : float) (i : nat)
         (items : list (string * pyval)) (s : frame) : list (list event) :=
  match items with
  | [] => []
  | (name, address) :: rest =>
      match loop_body min_balance i name address s with
      | (_, s', tr) => tr :: iterations min_balance (S i) rest s'
      end
  end.

(** The specification's lookup of one cleaned address, steps 2 to 4 of
    the component design: the primary endpoint, the fallback endpoint
    when the primary status is not 200, and the decoding of the response
    with status 200.  [Ok (Some b)] is a decoded balance, [Ok None] the
    failure of both endpoints, [Raise e] an exception on the way; the
    world is the one the requests leave. *)
Definition lookup (c : string) (w : World) : outcome (option float) * World :=
  match http_get (base_url ++ c) w with
  | (Raise e, w1) => (Raise e, w1)
  | (Ok r, w1) =>
      if status_code r =? 200 then
        (match decode_response r with
         | Ok b => Ok (Some b)
         | Raise e => Raise e
         end, w1)
      else
        match http_get (fallback_base_url ++ c) w1 with
        | (Raise e, w2) => (Raise e, w2)
        | (Ok r2, w2) =>
            if status_code r2 =? 200 then
              (match decode_response r2 with
               | Ok b => Ok (Some b)
               | Raise e => Raise e
               end, w2)
            else (Ok None, w2)
        end
  end.

(** The lookups of a whole mapping, in its order, each in the world
    that the lookups before it left: name, cleaned address and decoded
    balance of the entries whose lookup yields a balance. *)
Fixpoint lookups (items : list (string * pyval)) (w : World)
  : list (string * string * float) :=
  match items with
  | [] => []
  | (name, a) :: rest =>
      match clean a with
      | Raise _ => lookups rest w
      | Ok c =>
          match lookup c w with
          | (Ok (Some b), w') => (name, c, b) :: lookups rest w'
          | (_, w') => lookups rest w'
          end
      end
  end.

(** A parsed body without a [balance] field: an object that has no
    such key, or a JSON value that is no object. *)
Definition lacks_balance (v : pyval) : Prop :=
  match v with
  | PyDict d => Dict.get "balance" d = None
  | _ => True
  end.

(** The pause rule as the specification words it: the iteration at
    index [k] sleeps for one second exactly when [k] is a positive
    multiple of 5. *)
Definition pauses_every_fifth (min_balance : float)
           (items : list (string * pyval)) (s : frame) : Prop :=
  forall k, (k < List.length items)%nat ->
    In (ESleep 1) (nth k (iterations min_balance O items s) [])
    <-> (0 < k)%nat /\ (k mod 5 = 0)%nat.

(** An entry is skipped by a run when its name is no key of the
    dictionary the run returns. *)
Definition skipped (name : string) (run : outcome qdict * World * list event)
  : Prop :=
  match run with
  | (Ok result, _, _) => Dict.get name result = None
  | (Raise _, _, _) => False
  end.

(** The entries given up after two answers without status 200: name,
    cleaned address and the status that is logged. *)
Fixpoint failures (tr : list event) : list (string * string * Z) :=
  match tr with
  | [] => []
  | EPrint (MsgFailed n a st) :: tr' => (n, a, st) :: failures tr'
  | _ :: tr' => failures tr'
  end.

(** The entries announced as qualifying: name, address, balance. *)
Fixpoint founds (tr : list event) : list (string * string * float) :=
  match tr with
  | [] => []
  | EPrint (MsgFound n a b) :: tr' => (n, a, b) :: founds tr'
  | _ :: tr' => founds tr'
  end.

(** The sample lines and the summary lines of [main]. *)
Fixpoint samples (tr : list event) : list (string * pyval) :=
  match tr with
  | [] => []
  | EPrint (MsgSample n a) :: tr' => (n, a) :: samples tr'
  | _ :: tr' => samples tr'
  end.

Fixpoint summary (tr : list event) : list (string * string * float) :=
  match tr with
  | [] => []
  | EPrint (MsgQualifying n a b) :: tr' => (n, a, b) :: summary tr'
  | _ :: tr' => summary tr'
  end.

(** The dictionary entry that a found line stands for. *)
Definition entry_of (r : string * string * float) : string * balance_record :=
  (fst (fst r), {| address := snd (fst r); balance := snd r |}).

(** The events of [check_stx_balances]: requests, pauses and its own
    eight lines of output. *)
Definition scan_event (ev : event) : bool :=
  match ev with
  | EGet _ | ESleep _ => true
  | EPrint (MsgChecking _ _ | MsgBalance _ _ _ | MsgBalanceFallback _ _ _
           | MsgFound _ _ _ | MsgFailed _ _ _ | MsgProcessed _
           | MsgError _ _ _ | MsgFoundCount _ _) => true
  | _ => false
  end.

(** The cleaned addresses of the entries whose address is a string, in
    the order of the entries. *)
Fixpoint cleaned (items : list (string * pyval)) : list string :=
  match items with
  | [] => []
  | (_, address) :: rest =>
      match clean address with
      | Ok c => c :: cleaned rest
      | Raise _ => cleaned rest
      end
  end.

(** The address of an entry is a string. *)
Definition has_str_address (entry : string * pyval) : bool :=
  match snd entry with
  | PyStr _ => true
  | _ => false
  end.

(** The test of line 95: a pause is due after index [k]. *)
Definition pause_due (k : nat) : bool := (0 <? k)%nat && (k mod 5 =? 0)%nat.

(** The tallies of one iteration. *)
Record tally (t : float) (i : nat) (tr : list event) : Prop := {
  tally_requests : (List.length (requests tr) <= 2)%nat;
  tally_lines :
    (List.length (reports tr) + List.length (errors tr)
     + List.length (failures tr) = 1)%nat;
  tally_founds :
    founds tr = filter (fun r => PyFloat.gt (snd r) t) (reports tr);
  tally_sleeps :
    sleeps tr = if pause_due i && quiet tr then [1] else []
}.

(** ** One iteration, case by case *)

Ltac trace_eq :=
  cbn [app world qualifying_addresses];
  rewrite ?app_nil_r, <- ?app_assoc;
  cbn [app];
  reflexivity.

Ltac unfold_eff :=
  unfold try_except, bind, lift, attempt, gets, requests_get, response_json,
    ret, raise, print, store, time_sleep, emit.

Lemma decode_balance_eq (v : pyval) :
  decode_balance v =
  match (if is_str_startswith v "0x" then int2 v 16 else int1 v) with
  | Ok micro => PyFloat.int_true_divide micro 1000000
  | Raise e => Raise e
  end.
Proof.
  unfold decode_balance, is_str_startswith, Str.startswith, int1, int2.
  destruct v; reflexivity.
Qed.

Lemma decode_response_eq (r : response) :
  decode_response r =
  match body r with
  | None => Raise JSONDecodeError
  | Some data =>
      match py_get data "balance" (PyStr "0") with
      | Ok v => decode_balance v
      | Raise e => Raise e
      end
  end.
Proof.
  unfold decode_response, balance_field, py_get.
  destruct (body r) as [[]|]; reflexivity.
Qed.

(** The lines that follow a response [r] with status 200. *)
Ltac after_200 r i :=
  rewrite (decode_response_eq r);
  destruct (body r) as [?data|]; [|trace_eq];
  destruct (py_get data "balance" (PyStr "0")) as [?v|?e]; [|trace_eq];
  rewrite (decode_balance_eq v);
  destruct (if is_str_startswith v "0x" then int2 v 16 else int1 v)
    as [?micro|?e]; [|trace_eq];
  destruct (PyFloat.int_true_divide micro 1000000) as [?b|?e]; [|trace_eq];
  match goal with
  | |- context [PyFloat.gt ?b ?t] => destruct (PyFloat.gt b t)
  end;
  destruct ((0 <? i)%nat && (i mod 5 =? 0)%nat)%bool; trace_eq.

Lemma loop_body_eq (t : float) (i : nat) (name : string) (a : pyval) (s : frame) :
  loop_body t i name a s =
  match clean a with
  | Raise e => (Ok tt, s, [EPrint (MsgError name a e)])
  | Ok c =>
      match http_get (base_url ++ c) (world s) with
      | (Raise e, w1) =>
          (Ok tt, {| world := w1; qualifying_addresses := qualifying_addresses s |},
           [EGet (base_url ++ c); EPrint (MsgError name a e)])
      | (Ok r, w1) =>
          if status_code r =? 200 then
            settle false t i name c a w1 (qualifying_addresses s)
                   (decode_response r) [EGet (base_url ++ c)]
          else
            match http_get (fallback_base_url ++ c) w1 with
            | (Raise e, w2) =>
                (Ok tt,
                 {| world := w2; qualifying_addresses := qualifying_addresses s |},
                 [EGet (base_url ++ c); EGet (fallback_base_url ++ c);
                  EPrint (MsgError name a e)])
            | (Ok r2, w2) =>
                if status_code r2 =? 200 then
                  settle true t i name c a w2 (qualifying_addresses s)
                         (decode_response r2)
                         [EGet (base_url ++ c); EGet (fallback_base_url ++ c)]
                else
                  (Ok tt,
                   {| world := w2; qualifying_addresses := qualifying_addresses s |},
                   [EGet (base_url ++ c); EGet (fallback_base_url ++ c);
                    EPrint (MsgFailed name c (status_code r))]
                     ++ pause_events i)
            end
      end
  end.
Proof.
  unfold loop_body, try_block, settle, pause_events; unfold_eff.
  destruct (clean a) as [c|e]; [|trace_eq].
  destruct (http_get (base_url ++ c) (world s)) as [[r|e] w1]; [|trace_eq].
  cbn [world qualifying_addresses].
  destruct (status_code r =? 200).
  - after_200 r i.
  - cbn [world qualifying_addresses].
    destruct (http_get (fallback_base_url ++ c) w1) as [[r2|e] w2]; [|trace_eq].
    cbn [world qualifying_addresses].
    destruct (status_code r2 =? 200).
    + after_200 r2 i.
    + destruct ((0 <? i)%nat && (i mod 5 =? 0)%nat)%bool; trace_eq.
Qed.

(** ** Dictionaries *)

Lemma get_set_same {V} (k : string) (v : V) (d : Dict.t V) :
  Dict.get k (Dict.set k v d) = Some v.
Proof.
  induction d as [|[k' v'] d IH]; simpl.
  - now rewrite String.eqb_refl.
  - destruct (String.eqb k k') eqn:E; simpl.
    + now rewrite String.eqb_refl.
    + now rewrite E.
Qed.

Lemma get_set_other {V} (k k' : string) (v : V) (d : Dict.t V) :
  k <> k' -> Dict.get k (Dict.set k' v d) = Dict.get k d.
Proof.
  intros Hne. induction d as [|[k2 v2] d IH]; simpl.
  - destruct (String.eqb_spec k k'); [contradiction|reflexivity].
  - destruct (String.eqb_spec k' k2) as [->|Hk]; simpl.
    + destruct (String.eqb_spec k k2); [contradiction|reflexivity].
    + destruct (String.eqb_spec k k2); [reflexivity|exact IH].
Qed.

Lemma in_keys_get {V} (k : string) (d : Dict.t V) :
  In k (Dict.keys d) <-> exists v, Dict.get k d = Some v.
Proof.
  unfold Dict.keys. induction d as [|[k' v'] d IH]; simpl.
  - split; [intros []|intros [v H]; discriminate].
  - destruct (String.eqb_spec k k') as [->|Hk].
    + split; [intros _; exists v'; reflexivity|intros _; now left].
    + rewrite <- IH.
      split; [intros [H|H]; [now subst|exact H]|intros H; now right].
Qed.

(** ** Traces *)

Lemma requests_app (t1 t2 : list event) :
  requests (t1 ++ t2) = requests t1 ++ requests t2.
Proof.
  induction t1 as [|[] t1 IH]; simpl; rewrite ?IH; reflexivity.
Qed.

Lemma reports_app (t1 t2 : list event) :
  reports (t1 ++ t2) = reports t1 ++ reports t2.
Proof.
  induction t1 as [|[ |[]| | | ] t1 IH]; simpl; rewrite ?IH; reflexivity.
Qed.

Lemma errors_app (t1 t2 : list event) :
  errors (t1 ++ t2) = errors t1 ++ errors t2.
Proof.
  induction t1 as [|[ |[]| | | ] t1 IH]; simpl; rewrite ?IH; reflexivity.
Qed.

Lemma sleeps_app (t1 t2 : list event) :
  sleeps (t1 ++ t2) = sleeps t1 ++ sleeps t2.
Proof.
  induction t1 as [|[] t1 IH]; simpl; rewrite ?IH; reflexivity.
Qed.

Lemma pause_events_quiet (i : nat) :
  requests (pause_events i) = [] /\ reports (pause_events i) = []
  /\ errors (pause_events i) = [].
Proof.
  unfold pause_events.
  destruct ((0 <? i)%nat && (i mod 5 =? 0)%nat)%bool; simpl; auto.
Qed.

(** What an iteration leaves behind: it never raises; either it
    announces no balance and leaves the dictionary alone, or it
    announces one balance for its own name and stores it exactly when
    it exceeds the threshold. *)
Lemma loop_body_summary (t : float) (i : nat) (name : string) (a : pyval)
      (s : frame) :
  exists s' tr,
    loop_body t i name a s = (Ok tt, s', tr)
    /\ ((reports tr = []
         /\ qualifying_addresses s' = qualifying_addresses s)
        \/ (exists c b,
              clean a = Ok c
              /\ reports tr = [(name, c, b)]
              /\ errors tr = []
              /\ qualifying_addresses s' =
                   if PyFloat.gt b t
                   then Dict.set name {| address := c; balance := b |}
                          (qualifying_addresses s)
                   else qualifying_addresses s)).
Proof.
  rewrite loop_body_eq.
  destruct (pause_events_quiet i) as (Hq1 & Hq2 & Hq3).
  destruct (clean a) as [c|e].
  2:{ eexists _, _; split; [reflexivity|left; split; reflexivity]. }
  destruct (http_get (base_url ++ c) (world s)) as [[r|e] w1].
  2:{ eexists _, _; split; [reflexivity|left; split; reflexivity]. }
  assert (Hsettle : forall fb w d pre,
             reports pre = [] -> errors pre = [] ->
             exists s' tr,
               settle fb t i name c a w (qualifying_addresses s) d pre
               = (Ok tt, s', tr)
               /\ ((reports tr = []
                    /\ qualifying_addresses s' = qualifying_addresses s)
                   \/ (exists c0 b,
                         Ok c = Ok c0
                         /\ reports tr = [(name, c0, b)]
                         /\ errors tr = []
                         /\ qualifying_addresses s' =
                              if PyFloat.gt b t
                              then Dict.set name {| address := c0; balance := b |}
                                     (qualifying_addresses s)
                              else qualifying_addresses s))).
  { intros fb w d pre Hp He. unfold settle. destruct d as [b|e].
    - eexists _, _; split; [reflexivity|right].
      exists c, b. split; [reflexivity|].
      rewrite !reports_app, !errors_app, Hp, He, Hq2, Hq3.
      destruct fb, (PyFloat.gt b t); simpl; auto.
    - eexists _, _; split; [reflexivity|left].
      rewrite reports_app, Hp. simpl. auto. }
  destruct (status_code r =? 200).
  - apply Hsettle; reflexivity.
  - destruct (http_get (fallback_base_url ++ c) w1) as [[r2|e] w2].
    2:{ eexists _, _; split; [reflexivity|left; split; reflexivity]. }
    destruct (status_code r2 =? 200).
    + apply Hsettle; reflexivity.
    + eexists _, _; split; [reflexivity|left].
      rewrite reports_app, Hq2. simpl. auto.
Qed.

(** ** The loop *)

(** The loop never raises; its trace is the concatenation of the
    traces of its iterations; names outside [items] keep their entry;
    every announced balance belongs to a name of [items]; with distinct
    names, an announced balance decides the entry of its name; and
    every entry of the final dictionary was there before or was
    announced with a balance above the threshold. *)
Lemma for_enumerate_settled (t : float) (items : list (string * pyval)) :
  forall (i : nat) (s : frame),
  exists s' tr,
    for_enumerate t i items s = (Ok tt, s', tr)
    /\ tr = List.concat (iterations t i items s)
    /\ (forall n, ~ In n (Dict.keys items) ->
          Dict.get n (qualifying_addresses s')
          = Dict.get n (qualifying_addresses s))
    /\ (forall n c b, In (n, c, b) (reports tr) -> In n (Dict.keys items))
    /\ (NoDup (Dict.keys items) ->
        forall n c b, In (n, c, b) (reports tr) ->
          Dict.get n (qualifying_addresses s')
          = if PyFloat.gt b t
            then Some {| address := c; balance := b |}
            else Dict.get n (qualifying_addresses s))
    /\ (forall n rec,
          Dict.get n (qualifying_addresses s') = Some rec ->
          Dict.get n (qualifying_addresses s) = Some rec
          \/ (In (n, address rec, balance rec) (reports tr)
              /\ PyFloat.gt (balance rec) t = true)).
Proof.
  induction items as [|[name a] rest IH]; intros i s.
  - exists s, []. simpl.
    split; [reflexivity|]. split; [reflexivity|].
    split; [reflexivity|]. split; [intros n c b []|].
    split; [intros _ n c b []|intros n rec H; now left].
  - destruct (loop_body_summary t i name a s) as (s1 & tr1 & E1 & Hcase).
    destruct (IH (S i) s1) as (s' & tr2 & E2 & Hcat & Hout & Hnames & Hdec & Hin).
    exists s', (tr1 ++ tr2).
    assert (Hq1 : forall n, n <> name ->
               Dict.get n (qualifying_addresses s1)
               = Dict.get n (qualifying_addresses s)).
    { intros n Hn.
      destruct Hcase as [[_ ->]|(c & b & _ & _ & _ & ->)]; [reflexivity|].
      destruct (PyFloat.gt b t); [|reflexivity].
      now apply get_set_other. }
    split; [|split; [|split; [|split; [|split]]]].
    + simpl. unfold bind. rewrite E1, E2. reflexivity.
    + simpl. rewrite E1. now rewrite Hcat.
    + intros n Hn. simpl in Hn.
      rewrite Hout by (intros H; apply Hn; now right).
      apply Hq1. intros ->. apply Hn. now left.
    + intros n c b. rewrite reports_app, in_app_iff. intros [H|H].
      * simpl. destruct Hcase as [[Hr _]|(c0 & b0 & _ & Hr & _)];
          rewrite Hr in H; simpl in H; [destruct H|].
        destruct H as [H|[]]. inversion H. now left.
      * simpl. right. eapply Hnames; eauto.
    + intros Hnd n c b. simpl in Hnd. inversion Hnd as [|? ? Hfresh Hnd']; subst.
      rewrite reports_app, in_app_iff. intros [H|H].
      * destruct Hcase as [[Hr _]|(c0 & b0 & _ & Hr & _ & Hq)];
          rewrite Hr in H; simpl in H; [destruct H|].
        destruct H as [H|[]]. inversion H; subst.
        rewrite Hout by exact Hfresh. rewrite Hq.
        destruct (PyFloat.gt b t); [apply get_set_same|reflexivity].
      * rewrite (Hdec Hnd' n c b H).
        rewrite Hq1; [reflexivity|].
        intros ->. apply Hfresh. eapply Hnames; eauto.
    + intros n rec Hget. rewrite reports_app.
      destruct (Hin n rec Hget) as [H1|[H1 H2]].
      2:{ right. split; [apply in_or_app; now right|exact H2]. }
      destruct Hcase as [[_ Hq]|(c & b & _ & Hr & _ & Hq)].
      * left. now rewrite <- Hq.
      * rewrite Hq in H1. destruct (PyFloat.gt b t) eqn:Hgt; [|now left].
        destruct (String.eqb_spec n name) as [->|Hne].
        -- rewrite get_set_same in H1. inversion H1; subst. simpl.
           right. split; [|exact Hgt]. apply in_or_app. left.
           rewrite Hr. now left.
        -- rewrite get_set_other in H1 by exact Hne. now left.
Qed.

(** A run of [check_stx_balances] is its loop between two lines of
    output; it returns the dictionary the loop has filled. *)
Lemma check_stx_balances_run (address_dict : Dict.t pyval) (t : float)
      (w : World) (s' : frame) (tr : list event) :
  for_enumerate t O address_dict {| world := w; qualifying_addresses := [] |}
  = (Ok tt, s', tr) ->
  check_stx_balances address_dict t w
  = (Ok (qualifying_addresses s'), world s',
     EPrint (MsgChecking (List.length address_dict) t)
       :: tr ++ [EPrint (MsgFoundCount
                            (List.length (qualifying_addresses s')) t)]).
Proof.
  intros E. unfold check_stx_balances, check_body.
  unfold bind at 1. unfold print at 1, emit at 1.
  unfold bind at 1. rewrite E.
  unfold_eff. trace_eq.
Qed.

Lemma reports_run (n : nat) (m : nat) (t : float) (tr : list event) :
  reports (EPrint (MsgChecking n t) :: tr ++ [EPrint (MsgFoundCount m t)])
  = reports tr.
Proof.
  simpl. rewrite reports_app. simpl. apply app_nil_r.
Qed.

(** ** Digit strings *)

Lemma under_limit (digits : nat) :
  int_max_str_digits = O \/ (digits <= int_max_str_digits)%nat ->
  PyInt.over_limit int_max_str_digits 10 digits = false.
Proof.
  unfold PyInt.over_limit. intros [->|H]; simpl; [reflexivity|].
  destruct (Nat.ltb_spec int_max_str_digits digits); [lia|].
  apply andb_false_r.
Qed.

(** A digit is no underscore, no white space and no sign. *)
Lemma digit_char (c : ascii) :
  PyInt.digit_value c <> 37 ->
  Ascii.eqb c Str.underscore = false
  /\ PyInt.isspace c = false
  /\ c <> "+"%char /\ c <> "-"%char.
Proof.
  destruct c as [b0 b1 b2 b3 b4 b5 b6 b7].
  destruct b0, b1, b2, b3, b4, b5, b6, b7;
    intros H;
    first [exfalso; apply H; reflexivity
          |repeat split; first [reflexivity|discriminate]].
Qed.

Lemma digit_below (base : Z) (c : ascii) :
  base <= 36 -> (PyInt.digit_value c <? base) = true ->
  PyInt.digit_value c <> 37.
Proof.
  intros Hb Hc. apply Z.ltb_lt in Hc. lia.
Qed.

Lemma digit_values_length (s : string) :
  List.length (PyInt.digit_values s) = String.length s.
Proof.
  induction s as [|c s IH]; simpl; [reflexivity|now rewrite IH].
Qed.

(** On a string of digits the digit loop reads the positional value. *)
Lemma scan_digits (base : Z) (s : string) :
  base <= 36 -> PyInt.all_digits base s = true ->
  forall acc n,
    PyInt.scan base false acc n s
    = Some (acc * base ^ Z.of_nat (String.length s)
            + PyInt.positional base (PyInt.digit_values s),
            (n + String.length s)%nat, EmptyString).
Proof.
  intros Hb. induction s as [|c s IH]; intros Hs acc n.
  - simpl. rewrite Z.mul_1_r, Z.add_0_r, Nat.add_0_r. reflexivity.
  - cbn [PyInt.all_digits] in Hs. apply andb_prop in Hs.
    destruct Hs as [Hc Hs].
    destruct (digit_char c (digit_below base c Hb Hc)) as (Hu & _).
    cbn [PyInt.scan]. rewrite Hu, Hc, (IH Hs).
    cbn [PyInt.digit_values PyInt.positional String.length].
    rewrite digit_values_length, Nat2Z.inj_succ, Z.pow_succ_r by lia.
    rewrite Nat.add_succ_comm. do 3 f_equal. ring.
Qed.

(** [int(s, 16)] on [0x] followed by hexadecimal digits. *)
Lemma of_str_hex (s : string) :
  s <> EmptyString -> PyInt.all_digits 16 s = true ->
  PyInt.of_str int_max_str_digits ("0x" ++ s) 16
  = Ok (PyInt.positional 16 (PyInt.digit_values s)).
Proof.
  intros Hne Hs. destruct s as [|c s]; [contradiction|].
  pose proof Hs as Hs'. cbn [PyInt.all_digits] in Hs'.
  apply andb_prop in Hs'. destruct Hs' as [Hc _].
  destruct (digit_char c (digit_below 16 c ltac:(lia) Hc)) as (Hu & _).
  remember (String c s) as cs eqn:Hcs.
  unfold PyInt.of_str.
  cbn [append PyInt.skip_spaces].
  replace (PyInt.isspace "0") with false by reflexivity.
  replace (PyInt.has_prefix 16 (String "0" (String "x" cs)))
    with true by reflexivity.
  cbv iota.
  replace (match String "0" (String "x" cs) with
           | String _ (String _ (String c0 s')) =>
               if Ascii.eqb c0 Str.underscore then s' else String c0 s'
           | String _ (String _ EmptyString) => EmptyString
           | _ => String "0" (String "x" cs)
           end) with cs by (subst cs; now rewrite Hu).
  rewrite (scan_digits 16 cs ltac:(lia) Hs 0 O).
  subst cs. cbn [String.length Nat.add Nat.eqb].
  replace (PyInt.over_limit int_max_str_digits 16 (S (String.length s)))
    with false by reflexivity.
  cbn [PyInt.skip_spaces]. now rewrite Hu, Z.mul_0_l, Z.add_0_l.
Qed.

(** [int(s)] on decimal digits. *)
Lemma of_str_decimal (s : string) :
  s <> EmptyString -> PyInt.all_digits 10 s = true ->
  int_max_str_digits = O \/ (String.length s <= int_max_str_digits)%nat ->
  PyInt.of_str int_max_str_digits s 10
  = Ok (PyInt.positional 10 (PyInt.digit_values s))
  /\ String.prefix "0x" s = false.
Proof.
  intros Hne Hs Hlim. destruct s as [|c s]; [contradiction|].
  pose proof Hs as Hs'. cbn [PyInt.all_digits] in Hs'.
  apply andb_prop in Hs'. destruct Hs' as [Hc Hrest].
  destruct (digit_char c (digit_below 10 c ltac:(lia) Hc))
    as (Hu & Hsp & Hplus & Hminus).
  split.
  - unfold PyInt.of_str. cbn [PyInt.skip_spaces]. rewrite Hsp.
    assert (Hsign :
              (match String c s with
               | String "+" s' => (false, s')
               | String "-" s' => (true, s')
               | _ => (false, String c s)
               end) = (false, String c s)).
    { destruct c as [[] [] [] [] [] [] [] []]; try reflexivity;
        exfalso; first [now apply Hplus|now apply Hminus]. }
    rewrite Hsign.
    assert (Hpre : PyInt.has_prefix 10 (String c s) = false).
    { unfold PyInt.has_prefix.
      destruct c as [[] [] [] [] [] [] [] []]; try reflexivity;
        destruct s; reflexivity. }
    rewrite Hpre, Hu.
    rewrite (scan_digits 10 (String c s) ltac:(lia) Hs 0 O).
    cbn [String.length Nat.add Nat.eqb].
    rewrite under_limit by exact Hlim.
    cbn [PyInt.skip_spaces]. now rewrite Z.mul_0_l, Z.add_0_l.
  - cbn [String.prefix]. destruct (ascii_dec "0" c) as [<-|]; [|reflexivity].
    destruct s as [|c2 s]; [reflexivity|]. cbn [String.prefix].
    destruct (ascii_dec "x" c2) as [<-|]; [|reflexivity].
    cbn [PyInt.all_digits] in Hrest. discriminate.
Qed.


Lemma pause_events_sleeps (i : nat) :
  sleeps (pause_events i)
  = if (0 <? i)%nat && (i mod 5 =? 0)%nat then [1] else [].
Proof.
  unfold pause_events.
  destruct ((0 <? i)%nat && (i mod 5 =? 0)%nat)%bool; reflexivity.
Qed.

(** All there is to know about [settle]. *)
Lemma settle_spec (fb : bool) (t : float) (i : nat) (name c : string)
      (a : pyval) (w : World) (q : qdict) (d : outcome float)
      (pre : list event) :
  reports pre = [] -> errors pre = [] -> sleeps pre = [] ->
  exists s' tr,
    settle fb t i name c a w q d pre = (Ok tt, s', tr)
    /\ announces name c d tr
    /\ requests tr = requests pre
    /\ world s' = w
    /\ qualifying_addresses s'
       = match d with
         | Ok b =>
             if PyFloat.gt b t
             then Dict.set name {| address := c; balance := b |} q
             else q
         | Raise _ => q
         end
    /\ sleeps tr
       = match d with
         | Ok _ => if (0 <? i)%nat && (i mod 5 =? 0)%nat then [1] else []
         | Raise _ => []
         end.
Proof.
  intros Hp He Hs. destruct (pause_events_quiet i) as (Hq1 & Hq2 & Hq3).
  pose proof (pause_events_sleeps i) as Hq4.
  unfold settle, announces. destruct d as [b|e]; eexists _, _.
  - split; [reflexivity|].
    rewrite !reports_app, !errors_app, !requests_app, !sleeps_app.
    rewrite Hp, He, Hs, Hq1, Hq2, Hq3, Hq4.
    destruct fb, (PyFloat.gt b t); simpl; rewrite ?app_nil_r; auto 10.
  - split; [reflexivity|].
    rewrite reports_app, errors_app, requests_app, sleeps_app, Hp, He, Hs.
    simpl. rewrite ?app_nil_r. auto 10.
Qed.

Lemma settle_announces (fb : bool) (t : float) (i : nat) (name c : string)
      (a : pyval) (w : World) (q : qdict) (d : outcome float)
      (pre : list event) :
  reports pre = [] -> errors pre = [] -> sleeps pre = [] ->
  exists s' tr,
    settle fb t i name c a w q d pre = (Ok tt, s', tr)
    /\ announces name c d tr.
Proof.
  intros Hp He Hs.
  destruct (settle_spec fb t i name c a w q d pre Hp He Hs)
    as (s' & tr & E & H & _).
  eauto.
Qed.

Lemma decode_response_field (r : response) (d : list (string * pyval))
      (v : pyval) :
  body r = Some (PyDict d) -> Dict.get "balance" d = Some v ->
  decode_response r = decode_balance v.
Proof.
  intros Hb Hv. unfold decode_response, balance_field. now rewrite Hb, Hv.
Qed.

(** C2. A response with status 200, from the primary or from the
    fallback endpoint, whose body is an object with a [balance] field
    [v], is decoded as the specification says: base 16 for a string
    that starts with [0x], base 10 for anything else, then division by
    1,000,000; the decoded balance is the one announced, and a failure
    to decode is the exception caught.  On [0x] followed by hexadecimal
    digits the integer is the positional value of the digits in base
    16, on decimal digits it is their positional value in base 10, and
    a JSON integer is taken as it is.  The string [0x4c4b40] decodes to
    the float 5.0, and [5000001] to the binary64 nearest to 5.000001. *)
Theorem balance_decoding :
  int_max_str_digits = O \/ (640 <= int_max_str_digits)%nat ->
  (forall t i name a c s r w1 d v,
      clean a = Ok c ->
      http_get (base_url ++ c) (world s) = (Ok r, w1) ->
      status_code r = 200 ->
      body r = Some (PyDict d) -> Dict.get "balance" d = Some v ->
      exists s' tr,
        loop_body t i name a s = (Ok tt, s', tr)
        /\ announces name c (decode_balance v) tr)
  /\ (forall t i name a c s r w1 r2 w2 d v,
        clean a = Ok c ->
        http_get (base_url ++ c) (world s) = (Ok r, w1) ->
        status_code r <> 200 ->
        http_get (fallback_base_url ++ c) w1 = (Ok r2, w2) ->
        status_code r2 = 200 ->
        body r2 = Some (PyDict d) -> Dict.get "balance" d = Some v ->
        exists s' tr,
          loop_body t i name a s = (Ok tt, s', tr)
          /\ announces name c (decode_balance v) tr)
  /\ (forall digits,
        digits <> EmptyString -> PyInt.all_digits 16 digits = true ->
        decode_balance (PyStr ("0x" ++ digits))
        = PyFloat.int_true_divide
            (PyInt.positional 16 (PyInt.digit_values digits)) 1000000)
  /\ (forall digits,
        digits <> EmptyString -> PyInt.all_digits 10 digits = true ->
        (String.length digits <= 640)%nat ->
        decode_balance (PyStr digits)
        = PyFloat.int_true_divide
            (PyInt.positional 10 (PyInt.digit_values digits)) 1000000)
  /\ (forall n, decode_balance (PyInt n) = PyFloat.int_true_divide n 1000000)
  /\ decode_balance (PyStr "0x4c4b40") = Ok five
  /\ (PyFloat.to_Q five == 5)%Q
  /\ exists x,
      decode_balance (PyStr "5000001") = Ok x
      /\ PyFloat.valid x = true
      /\ (Qabs (PyFloat.to_Q x - (5000001 # 1000000))
          <= 1 # 2251799813685248)%Q.
Proof.
  intros Hlim. split; [|split; [|split; [|split; [|split; [|split; [|split]]]]]].
  - intros t i name a c s r w1 d v Hc Hget H200 Hb Hv.
    rewrite loop_body_eq, Hc, Hget, H200. simpl (200 =? 200).
    cbv iota. rewrite (decode_response_field r d v Hb Hv).
    apply settle_announces; reflexivity.
  - intros t i name a c s r w1 r2 w2 d v Hc Hget Hn200 Hget2 H200 Hb Hv.
    rewrite loop_body_eq, Hc, Hget.
    apply Z.eqb_neq in Hn200. rewrite Hn200, Hget2, H200.
    simpl (200 =? 200). cbv iota.
    rewrite (decode_response_field r2 d v Hb Hv).
    apply settle_announces; reflexivity.
  - intros digits Hne Hd. unfold decode_balance.
    replace (String.prefix "0x" ("0x" ++ digits)) with true
      by (destruct digits; reflexivity).
    now rewrite of_str_hex.
  - intros digits Hne Hd Hlen. unfold decode_balance.
    destruct (of_str_decimal digits Hne Hd) as [Hv Hp]; [lia|].
    now rewrite Hp, Hv.
  - reflexivity.
  - vm_compute. reflexivity.
  - vm_compute. reflexivity.
  - exists (S754_finite false 5629500660113027 (-50)). split; [|split].
    + unfold decode_balance.
      cbv -[PyInt.over_limit PyFloat.int_true_divide].
      rewrite under_limit by lia. vm_compute. reflexivity.
    + vm_compute. reflexivity.
    + vm_compute. discriminate.
Qed.

(** ** Cleaning an address *)

Lemma lstrip_spec (s : string) :
  exists l,
    s = (l ++ Str.lstrip s)%string
    /\ Str.all_space l = true
    /\ Str.head_space (Str.lstrip s) = false.
Proof.
  induction s as [|c s (l & Hs & Hl & Hh)].
  - exists EmptyString. auto.
  - simpl. destruct (Str.isspace c) eqn:Hc.
    + exists (String c l). simpl. rewrite Hc, Hl, <- Hs. auto.
    + exists EmptyString. simpl. auto.
Qed.

Lemma rstrip_spec (s : string) :
  exists r,
    s = (Str.rstrip s ++ r)%string
    /\ Str.all_space r = true
    /\ Str.last_space (Str.rstrip s) = false
    /\ Str.head_space (Str.rstrip s) = Str.head_space s && negb (Str.all_space s).
Proof.
  induction s as [|c s (r & Hs & Hr & Hl & Hh)].
  - exists EmptyString. auto.
  - simpl. destruct (Str.rstrip s) as [|c2 r2] eqn:E.
    + simpl in Hs. subst r. destruct (Str.isspace c) eqn:Hc.
      * exists (String c s). simpl. rewrite Hc, Hr. auto.
      * exists s. simpl. rewrite Hc. auto.
    + exists r. simpl in Hs. simpl. rewrite <- Hs, Hr.
      repeat split; auto.
      assert (Hns : Str.all_space s = false).
      { destruct (Str.all_space s) eqn:Ha; [|reflexivity].
        exfalso. clear - E Ha.
        revert c2 r2 E. induction s as [|c s IH]; intros c2 r2 E.
        - discriminate.
        - simpl in E, Ha. apply andb_prop in Ha. destruct Ha as [Hc Ha].
          destruct (Str.rstrip s) as [|c3 r3].
          + rewrite Hc in E. discriminate.
          + eapply IH; eauto. }
      rewrite Hns, andb_false_r. simpl. now rewrite andb_true_r.
Qed.

(** [strip] drops white space at both ends and nothing else. *)
Lemma strip_spec (s : string) :
  exists l r,
    s = (l ++ Str.strip s ++ r)%string
    /\ Str.all_space l = true /\ Str.all_space r = true
    /\ Str.head_space (Str.strip s) = false
    /\ Str.last_space (Str.strip s) = false.
Proof.
  unfold Str.strip.
  destruct (lstrip_spec s) as (l & Hs & Hl & Hh).
  destruct (rstrip_spec (Str.lstrip s)) as (r & Hs' & Hr & Hlast & Hhead).
  exists l, r. rewrite <- Hs'. repeat split; auto.
  rewrite Hhead, Hh. reflexivity.
Qed.

Lemma replace_char (c : ascii) (s : string) :
  Str.replace s (Str.of_char c) "" = Str.remove_char c s.
Proof.
  unfold Str.replace, Str.of_char.
  induction s as [|a s IH]; [reflexivity|].
  cbn [Str.replace_from Str.remove_char String.prefix String.length Nat.pred].
  destruct (ascii_dec c a) as [->|Hne].
  - rewrite Ascii.eqb_refl.
    destruct s; [reflexivity|exact IH].
  - destruct (Ascii.eqb_spec a c) as [Heq|_]; [now subst|].
    now rewrite IH.
Qed.

Lemma clean_spec (str : string) :
  clean (PyStr str)
  = Ok (Str.remove_char Str.apostrophe
          (Str.remove_char Str.quote (Str.strip str))).
Proof.
  unfold clean. now rewrite !replace_char.
Qed.

(** C3. The address is cleaned first: surrounding white space is
    stripped, then both quote characters are removed.  Every request
    of the entry, the primary one and the fallback one if any, is for
    the cleaned address, and so is the record the entry may store.
    The address [  'SP2J6...' ] is cleaned to [SP2J6...]. *)
Theorem address_normalized (t : float) (i : nat) (name str : string)
        (s : frame) :
  let c := Str.remove_char Str.apostrophe
             (Str.remove_char Str.quote (Str.strip str)) in
  clean (PyStr str) = Ok c
  /\ (exists l r,
        str = (l ++ Str.strip str ++ r)%string
        /\ Str.all_space l = true /\ Str.all_space r = true
        /\ Str.head_space (Str.strip str) = false
        /\ Str.last_space (Str.strip str) = false)
  /\ (exists s' tr,
        loop_body t i name (PyStr str) s = (Ok tt, s', tr)
        /\ (requests tr = [(base_url ++ c)%string]
            \/ requests tr = [(base_url ++ c)%string;
                              (fallback_base_url ++ c)%string])
        /\ (forall n rec,
              Dict.get n (qualifying_addresses s') = Some rec ->
              Dict.get n (qualifying_addresses s) = Some rec
              \/ (n = name /\ address rec = c)))
  /\ clean (PyStr "  'SP2J6...' ") = Ok "SP2J6...".
Proof.
  intros c. split; [apply clean_spec|]. split; [apply strip_spec|].
  split; [|reflexivity].
  assert (Hstore : forall q b n rec,
             Dict.get n (if PyFloat.gt b t
                         then Dict.set name {| address := c; balance := b |} q
                         else q) = Some rec ->
             Dict.get n q = Some rec \/ (n = name /\ address rec = c)).
  { intros q b n rec. destruct (PyFloat.gt b t); [|now left].
    destruct (String.eqb_spec n name) as [->|Hne].
    - rewrite get_set_same. intros H. inversion H. now right.
    - rewrite get_set_other by exact Hne. now left. }
  rewrite loop_body_eq, clean_spec. fold c.
  destruct (http_get (base_url ++ c) (world s)) as [[r|e] w1].
  2:{ eexists _, _. split; [reflexivity|]. split; [now left|now left]. }
  destruct (status_code r =? 200).
  - destruct (settle_spec false t i name c (PyStr str) w1
                (qualifying_addresses s) (decode_response r)
                [EGet (base_url ++ c)] eq_refl eq_refl eq_refl)
      as (s' & tr & E & _ & Hreq & _ & Hq & _).
    exists s', tr. split; [exact E|]. split; [now left|].
    intros n rec. rewrite Hq.
    destruct (decode_response r); [apply Hstore|now left].
  - destruct (http_get (fallback_base_url ++ c) w1) as [[r2|e] w2].
    2:{ eexists _, _. split; [reflexivity|]. split; [now right|now left]. }
    destruct (status_code r2 =? 200).
    + destruct (settle_spec true t i name c (PyStr str) w2
                  (qualifying_addresses s) (decode_response r2)
                  [EGet (base_url ++ c); EGet (fallback_base_url ++ c)]
                  eq_refl eq_refl eq_refl)
        as (s' & tr & E & _ & Hreq & _ & Hq & _).
      exists s', tr. split; [exact E|]. split; [now right|].
      intros n rec. rewrite Hq.
      destruct (decode_response r2); [apply Hstore|now left].
    + eexists _, _. split; [reflexivity|]. split; [|now left].
      right. rewrite requests_app.
      destruct (pause_events_quiet i) as (-> & _). reflexivity.
Qed.

(** C4. When the primary endpoint answers with a status other than
    200, the entry makes exactly one more request, to the fallback
    endpoint with the same cleaned address.  A fallback response with
    status 200 is decoded by [decode_response], the function that the
    primary path applies to its own response; a fallback response with
    another status leaves the dictionary alone, logs the failure (with
    the status of the primary response) and is followed by no further
    request. *)
Theorem fallback_once (t : float) (i : nat) (name : string) (a : pyval)
        (c : string) (s : frame) (r : response) (w1 : World) :
  clean a = Ok c ->
  http_get (base_url ++ c) (world s) = (Ok r, w1) ->
  status_code r <> 200 ->
  (exists s' tr,
      loop_body t i name a s = (Ok tt, s', tr)
      /\ requests tr = [(base_url ++ c)%string; (fallback_base_url ++ c)%string]
      /\ match http_get (fallback_base_url ++ c) w1 with
         | (Ok r2, w2) =>
             world s' = w2
             /\ if status_code r2 =? 200 then
                  announces name c (decode_response r2) tr
                  /\ qualifying_addresses s'
                     = match decode_response r2 with
                       | Ok b =>
                           if PyFloat.gt b t
                           then Dict.set name {| address := c; balance := b |}
                                  (qualifying_addresses s)
                           else qualifying_addresses s
                       | Raise _ => qualifying_addresses s
                       end
                else
                  tr = [EGet (base_url ++ c); EGet (fallback_base_url ++ c);
                        EPrint (MsgFailed name c (status_code r))]
                         ++ pause_events i
                  /\ qualifying_addresses s' = qualifying_addresses s
         | (Raise e, w2) =>
             world s' = w2
             /\ errors tr = [(name, e)]
             /\ qualifying_addresses s' = qualifying_addresses s
         end)
  /\ (forall s0 r0 w0,
        http_get (base_url ++ c) (world s0) = (Ok r0, w0) ->
        status_code r0 = 200 ->
        exists s' tr,
          loop_body t i name a s0 = (Ok tt, s', tr)
          /\ requests tr = [(base_url ++ c)%string]
          /\ announces name c (decode_response r0) tr
          /\ qualifying_addresses s'
             = match decode_response r0 with
               | Ok b =>
                   if PyFloat.gt b t
                   then Dict.set name {| address := c; balance := b |}
                          (qualifying_addresses s0)
                   else qualifying_addresses s0
               | Raise _ => qualifying_addresses s0
               end).
Proof.
  intros Hc Hget Hn200. split.
  - rewrite loop_body_eq, Hc, Hget.
    apply Z.eqb_neq in Hn200. rewrite Hn200.
    destruct (http_get (fallback_base_url ++ c) w1) as [[r2|e] w2].
    2:{ eexists _, _. split; [reflexivity|]. repeat split. }
    destruct (status_code r2 =? 200).
    + destruct (settle_spec true t i name c a w2
                  (qualifying_addresses s) (decode_response r2)
                  [EGet (base_url ++ c); EGet (fallback_base_url ++ c)]
                  eq_refl eq_refl eq_refl)
        as (s' & tr & E & Hann & Hreq & Hw & Hq & _).
      exists s', tr. repeat split; assumption.
    + eexists _, _. split; [reflexivity|]. split; [|repeat split].
      rewrite requests_app.
      destruct (pause_events_quiet i) as (-> & _). reflexivity.
  - intros s0 r0 w0 Hget0 H200.
    rewrite loop_body_eq, Hc, Hget0, H200. simpl (200 =? 200). cbv iota.
    destruct (settle_spec false t i name c a w0
                (qualifying_addresses s0) (decode_response r0)
                [EGet (base_url ++ c)] eq_refl eq_refl eq_refl)
      as (s' & tr & E & Hann & Hreq & Hw & Hq & _).
    exists s', tr. repeat split; assumption.
Qed.

(** ** Exceptions *)




Lemma loop_body_caught (t : float) (i : nat) (name : string) (a : pyval)
      (s : frame) (e : exn) (s1 : frame) (tr1 : list event) :
  try_block t i name a s = (Raise e, s1, tr1) ->
  loop_body t i name a s = (Ok tt, s1, tr1 ++ [EPrint (MsgError name a e)]).
Proof.
  intros E. unfold loop_body, try_except. rewrite E. reflexivity.
Qed.

Lemma loop_body_passed (t : float) (i : nat) (name : string) (a : pyval)
      (s : frame) (u : unit) (s1 : frame) (tr1 : list event) :
  try_block t i name a s = (Ok u, s1, tr1) ->
  loop_body t i name a s = (Ok u, s1, tr1).
Proof.
  intros E. unfold loop_body, try_except. rewrite E. reflexivity.
Qed.


(** ** A response without a balance *)

Lemma loop_body_answered (fb : bool) (t : float) (i : nat) (name : string)
      (a : pyval) (c : string) (s : frame) (r : response) (w' : World) :
  clean a = Ok c ->
  answered fb c s r w' ->
  loop_body t i name a s
  = settle fb t i name c a w' (qualifying_addresses s) (decode_response r)
           (if fb
            then [EGet (base_url ++ c); EGet (fallback_base_url ++ c)]
            else [EGet (base_url ++ c)]).
Proof.
  intros Hc Ha. rewrite loop_body_eq, Hc. destruct fb; unfold answered in Ha.
  - destruct Ha as (r0 & w0 & H0 & Hn & H1 & H200).
    apply Z.eqb_neq in Hn. now rewrite H0, Hn, H1, H200.
  - destruct Ha as (H0 & H200). now rewrite H0, H200.
Qed.

Lemma decode_zero : decode_balance (PyStr "0") = Ok zero.
Proof.
  unfold decode_balance.
  cbv -[PyInt.over_limit PyFloat.int_true_divide].
  rewrite under_limit by lia. reflexivity.
Qed.

Lemma decode_response_missing (r : response) (d : list (string * pyval)) :
  body r = Some (PyDict d) -> Dict.get "balance" d = None ->
  balance_field r = Ok (PyStr "0") /\ decode_response r = Ok zero.
Proof.
  intros Hb Hd. unfold decode_response, balance_field.
  rewrite Hb, Hd. split; [reflexivity|apply decode_zero].
Qed.

(** A threshold that is at least zero is not below zero. *)
Lemma not_below_zero (t : float) :
  PyFloat.le zero t = true -> PyFloat.gt zero t = false.
Proof.
  unfold PyFloat.le, PyFloat.gt, SFleb, SFltb, zero.
  destruct t as [[]|[]| |[] m e]; simpl; intros H;
    first [reflexivity|discriminate].
Qed.

(** The thresholds below zero are minus infinity and the negative
    finite floats. *)
Lemma below_zero (t : float) :
  PyFloat.gt zero t = true
  <-> t = S754_infinity true \/ exists m e, t = S754_finite true m e.
Proof.
  unfold PyFloat.gt, SFltb, zero.
  destruct t as [[]|[]| |[] m e]; simpl; split;
    try discriminate; try (intros [H|(m' & e' & H)]; discriminate); eauto.
Qed.

(** C10, as the code has it.  A response with status 200 whose body
    is a JSON object without a [balance] field raises nothing: the
    field defaults to the string [0], which decodes to 0.0; the balance
    is announced, no error is logged, and the entry stays out of the
    result whenever the threshold is at least 0, while a threshold
    below 0 stores it with balance 0.0.  When the body is JSON but no
    object, reading the field raises [AttributeError] inside the [try]
    block: the handler logs it, no balance is announced and the
    dictionary is as it was, at every threshold.  In both cases
    [check_stx_balances] itself raises nothing. *)
Theorem missing_balance_defaults (fb : bool) (t : float) (i : nat)
        (name : string) (a : pyval) (c : string) (s : frame)
        (r : response) (w' : World) (v : pyval) :
  clean a = Ok c ->
  answered fb c s r w' ->
  body r = Some v ->
  lacks_balance v ->
  match v with
  | PyDict _ =>
      balance_field r = Ok (PyStr "0")
      /\ decode_response r = Ok zero
      /\ exists s' tr,
          try_block t i name a s = (Ok tt, s', tr)
          /\ loop_body t i name a s = (Ok tt, s', tr)
          /\ tr = (if fb
                   then [EGet (base_url ++ c); EGet (fallback_base_url ++ c)]
                   else [EGet (base_url ++ c)])
                  ++ [EPrint ((if fb then MsgBalanceFallback else MsgBalance)
                                name c zero)]
                  ++ (if PyFloat.gt zero t
                      then [EPrint (MsgFound name c zero)] else [])
                  ++ pause_events i
          /\ errors tr = []
          /\ (PyFloat.le zero t = true ->
              qualifying_addresses s' = qualifying_addresses s)
          /\ (PyFloat.lt t zero = true ->
              qualifying_addresses s'
              = Dict.set name {| address := c; balance := zero |}
                  (qualifying_addresses s))
  | _ =>
      balance_field r = Raise AttributeError
      /\ decode_response r = Raise AttributeError
      /\ exists s' tr,
          try_block t i name a s = (Raise AttributeError, s', tr)
          /\ loop_body t i name a s
             = (Ok tt, s', tr ++ [EPrint (MsgError name a AttributeError)])
          /\ tr = (if fb
                   then [EGet (base_url ++ c); EGet (fallback_base_url ++ c)]
                   else [EGet (base_url ++ c)])
          /\ errors (tr ++ [EPrint (MsgError name a AttributeError)])
             = [(name, AttributeError)]
          /\ reports (tr ++ [EPrint (MsgError name a AttributeError)]) = []
          /\ qualifying_addresses s' = qualifying_addresses s
  end
  /\ (forall address_dict w,
        exists result w1 tr,
          check_stx_balances address_dict t w = (Ok result, w1, tr)).
Proof.
  intros Hc Ha Hb Hl.
  assert (Hrun : forall address_dict w,
             exists result w1 tr,
               check_stx_balances address_dict t w = (Ok result, w1, tr)).
  { intros address_dict w.
    destruct (for_enumerate_settled t address_dict O
                {| world := w; qualifying_addresses := [] |})
      as (s' & tr & E & _).
    eexists _, _, _. apply check_stx_balances_run. exact E. }
  split; [|exact Hrun].
  pose proof (loop_body_answered fb t i name a c s r w' Hc Ha) as E.
  assert (Hother : (forall d, v <> PyDict d) ->
            balance_field r = Raise AttributeError
            /\ decode_response r = Raise AttributeError
            /\ exists s' tr,
                try_block t i name a s = (Raise AttributeError, s', tr)
                /\ loop_body t i name a s
                   = (Ok tt, s',
                      tr ++ [EPrint (MsgError name a AttributeError)])
                /\ tr = (if fb
                         then [EGet (base_url ++ c);
                               EGet (fallback_base_url ++ c)]
                         else [EGet (base_url ++ c)])
                /\ errors (tr ++ [EPrint (MsgError name a AttributeError)])
                   = [(name, AttributeError)]
                /\ reports (tr ++ [EPrint (MsgError name a AttributeError)])
                   = []
                /\ qualifying_addresses s' = qualifying_addresses s).
  { intros Hv.
    assert (Hf : balance_field r = Raise AttributeError).
    { unfold balance_field. rewrite Hb.
      destruct v; try reflexivity. exfalso. now apply (Hv d). }
    assert (Hg : py_get v "balance" (PyStr "0") = Raise AttributeError).
    { destruct v; try reflexivity. exfalso. now apply (Hv d). }
    assert (Hz : decode_response r = Raise AttributeError).
    { unfold decode_response. now rewrite Hf. }
    split; [exact Hf|]. split; [exact Hz|].
    assert (Htry : try_block t i name a s
                   = (Raise AttributeError,
                      {| world := w';
                         qualifying_addresses := qualifying_addresses s |},
                      if fb
                      then [EGet (base_url ++ c);
                            EGet (fallback_base_url ++ c)]
                      else [EGet (base_url ++ c)])).
    { unfold try_block; unfold_eff. rewrite Hc. cbv zeta.
      destruct fb; unfold answered in Ha.
      - destruct Ha as (r0 & w0 & H0 & Hn & H1 & H200).
        apply Z.eqb_neq in Hn. rewrite H0.
        cbn [world qualifying_addresses]. rewrite Hn.
        cbn [world qualifying_addresses]. rewrite H1.
        cbn [world qualifying_addresses]. rewrite H200, Hb, Hg.
        reflexivity.
      - destruct Ha as (H0 & H200). rewrite H0.
        cbn [world qualifying_addresses]. rewrite H200, Hb, Hg.
        reflexivity. }
    eexists _, _. split; [exact Htry|].
    split; [apply loop_body_caught; exact Htry|].
    split; [reflexivity|].
    rewrite errors_app, reports_app. destruct fb; repeat split. }
  destruct v as [| | | | | |d];
    try (apply Hother; intros d; discriminate).
  cbn [lacks_balance] in Hl.
  destruct (decode_response_missing r d Hb Hl) as [Hf Hz].
  split; [exact Hf|]. split; [exact Hz|].
  rewrite Hz in E. unfold settle in E.
  eexists _, _. split; [|split; [exact E|]].
  - unfold loop_body, try_except in E.
    destruct (try_block t i name a s) as [[[u|e] s1] tr1].
    + destruct u. exact E.
    + exfalso. pose proof (f_equal snd E) as Htr.
      unfold print, emit in Htr. cbn [snd] in Htr.
      assert (Herr : errors (tr1 ++ [EPrint (MsgError name a e)]) <> []).
      { rewrite errors_app. simpl. intros H.
        apply app_eq_nil in H. destruct H. discriminate. }
      apply Herr. rewrite Htr.
      destruct (pause_events_quiet i) as (_ & _ & Hq).
      rewrite !errors_app, Hq.
      destruct fb, (PyFloat.gt zero t); reflexivity.
  - split; [reflexivity|]. split; [|split].
    + destruct (pause_events_quiet i) as (_ & _ & Hq).
      rewrite !errors_app, Hq.
      destruct fb, (PyFloat.gt zero t); reflexivity.
    + intros Hle. cbn [qualifying_addresses].
      now rewrite (not_below_zero t Hle).
    + intros Hlt. cbn [qualifying_addresses].
      unfold PyFloat.lt in Hlt. unfold PyFloat.gt. now rewrite Hlt.
Qed.

(** ** The pause *)

Lemma quiet_app (t1 t2 : list event) :
  quiet (t1 ++ t2) = quiet t1 && quiet t2.
Proof.
  unfold quiet. rewrite errors_app.
  destruct (errors t1), (errors t2); reflexivity.
Qed.

(** The pause of one iteration: one second, after everything else,
    when the index is a positive multiple of 5 and the [try] block has
    run to its end. *)
Lemma loop_body_pause (t : float) (j : nat) (name : string) (a : pyval)
      (s : frame) :
  exists s' tr,
    loop_body t j name a s = (Ok tt, s', tr)
    /\ exists tr0,
        sleeps tr0 = []
        /\ tr = tr0 ++ (if quiet tr then pause_events j else []).
Proof.
  destruct (pause_events_quiet j) as (_ & _ & Hq).
  assert (Hqp : quiet (pause_events j) = true)
    by (unfold quiet; now rewrite Hq).
  assert (Hsettle : forall fb c w d pre,
             quiet pre = true -> sleeps pre = [] ->
             exists s' tr,
               settle fb t j name c a w (qualifying_addresses s) d pre
               = (Ok tt, s', tr)
               /\ exists tr0,
                   sleeps tr0 = []
                   /\ tr = tr0 ++ (if quiet tr then pause_events j else [])).
  { intros fb c w d pre Hpre Hs. unfold settle. destruct d as [b|e].
    - eexists _, _. split; [reflexivity|].
      exists (pre ++ [EPrint ((if fb then MsgBalanceFallback else MsgBalance)
                                name c b)]
                ++ (if PyFloat.gt b t
                    then [EPrint (MsgFound name c b)] else [])).
      split.
      + rewrite !sleeps_app, Hs. destruct fb, (PyFloat.gt b t); reflexivity.
      + rewrite !quiet_app, Hpre, Hqp.
        destruct fb, (PyFloat.gt b t); simpl;
          now rewrite <- ?app_assoc, ?app_nil_r.
    - eexists _, _. split; [reflexivity|].
      exists (pre ++ [EPrint (MsgError name a e)]). split.
      + rewrite sleeps_app, Hs. reflexivity.
      + rewrite quiet_app, Hpre. simpl. now rewrite app_nil_r. }
  rewrite loop_body_eq.
  destruct (clean a) as [c|e].
  2:{ eexists _, _. split; [reflexivity|].
      exists [EPrint (MsgError name a e)]. split; reflexivity. }
  destruct (http_get (base_url ++ c) (world s)) as [[r|e] w1].
  2:{ eexists _, _. split; [reflexivity|].
      exists [EGet (base_url ++ c); EPrint (MsgError name a e)].
      split; reflexivity. }
  destruct (status_code r =? 200).
  - apply Hsettle; reflexivity.
  - destruct (http_get (fallback_base_url ++ c) w1) as [[r2|e] w2].
    2:{ eexists _, _. split; [reflexivity|].
        exists [EGet (base_url ++ c); EGet (fallback_base_url ++ c);
                EPrint (MsgError name a e)].
        split; reflexivity. }
    destruct (status_code r2 =? 200).
    + apply Hsettle; reflexivity.
    + eexists _, _. split; [reflexivity|].
      exists [EGet (base_url ++ c); EGet (fallback_base_url ++ c);
              EPrint (MsgFailed name c (status_code r))].
      split; [reflexivity|].
      rewrite quiet_app, Hqp. reflexivity.
Qed.

(** The trace of the iteration at position [k] is the trace of the
    loop body at index [i + k], on the entry at that position. *)
Lemma iterations_nth (t : float) (items : list (string * pyval)) :
  forall (i : nat) (s : frame) (k : nat),
    (k < List.length items)%nat ->
    exists name a sk,
      nth_error items k = Some (name, a)
      /\ nth k (iterations t i items s) []
         = snd (loop_body t (i + k) name a sk).
Proof.
  induction items as [|[name a] rest IH]; intros i s k Hk.
  - simpl in Hk. lia.
  - simpl. destruct (loop_body t i name a s) as [[r s1] tr1] eqn:E.
    destruct k as [|k].
    + exists name, a, s. rewrite Nat.add_0_r, E. auto.
    + simpl in Hk.
      destruct (IH (S i) s1 k ltac:(lia)) as (n' & a' & sk & Hn & Hk').
      exists n', a', sk. split; [exact Hn|].
      simpl. rewrite Hk'. now rewrite Nat.add_succ_r.
Qed.

(** C7, as the code has it.  The iteration at index [k] pauses for
    one second, as its last action, exactly when [k] is a positive
    multiple of 5 and the entry raised no exception; an entry whose
    processing raised is followed by no pause.  The trace of the loop
    is the concatenation of the traces of its iterations. *)
Theorem pause_after_fifth (min_balance : float)
        (items : list (string * pyval)) (s : frame) (k : nat) :
  (k < List.length items)%nat ->
  let trk := nth k (iterations min_balance O items s) [] in
  (In (ESleep 1) trk
   <-> (0 < k)%nat /\ (k mod 5 = 0)%nat /\ quiet trk = true)
  /\ sleeps trk
     = (if (0 <? k)%nat && (k mod 5 =? 0)%nat && quiet trk then [1] else [])
  /\ (exists tr0,
        sleeps tr0 = []
        /\ trk = tr0 ++ (if quiet trk then pause_events k else []))
  /\ exists s',
      for_enumerate min_balance O items s
      = (Ok tt, s', List.concat (iterations min_balance O items s)).
Proof.
  intros Hk trk.
  destruct (iterations_nth min_balance items O s k Hk)
    as (name & a & sk & _ & Hnth).
  destruct (loop_body_pause min_balance k name a sk)
    as (s1 & tr & E & tr0 & Hs0 & Htr).
  simpl in Hnth. rewrite E in Hnth. simpl in Hnth.
  assert (Htrk : trk = tr) by exact Hnth. clearbody trk. subst trk.
  assert (Hin0 : ~ In (ESleep 1) tr0).
  { clear - Hs0. induction tr0 as [|ev tr0 IH]; [intros []|].
    destruct ev; simpl in Hs0 |- *; try discriminate;
      intros [H|H]; try discriminate; exact (IH Hs0 H). }
  assert (Hsl : sleeps tr
                = if (0 <? k)%nat && (k mod 5 =? 0)%nat && quiet tr
                  then [1] else []).
  { rewrite Htr at 1. rewrite sleeps_app, Hs0. simpl.
    destruct (quiet tr); [|now rewrite andb_false_r].
    rewrite andb_true_r. apply pause_events_sleeps. }
  split; [|split; [exact Hsl|split]].
  - split.
    + intros Hin. rewrite Htr in Hin. apply in_app_or in Hin.
      destruct Hin as [Hin|Hin]; [contradiction|].
      destruct (quiet tr); [|contradiction].
      unfold pause_events in Hin.
      destruct (0 <? k)%nat eqn:Hpos; cbn [andb In] in Hin; [|contradiction].
      destruct (k mod 5 =? 0)%nat eqn:Hmod; cbn [In] in Hin; [|contradiction].
      apply Nat.ltb_lt in Hpos. apply Nat.eqb_eq in Hmod. auto.
    + intros (Hpos & Hmod & Hq). rewrite Htr, Hq.
      apply in_or_app. right. unfold pause_events.
      apply Nat.ltb_lt in Hpos. apply Nat.eqb_eq in Hmod.
      rewrite Hpos, Hmod. cbn [andb In]. auto.
  - exists tr0. auto.
  - destruct (for_enumerate_settled min_balance items O s)
      as (s' & tr' & E' & Hcat & _).
    exists s'. now rewrite <- Hcat.
Qed.

(** ** The driver *)

(** C8. When the input file is absent, or is no JSON, [main] prints
    the message of that condition and returns: it makes no request and
    writes no file. *)
Theorem input_errors_end_run (e : exn) (w w' : World) :
  load_json "stacks_addresses.json" w = (Raise e, w') ->
  e = FileNotFoundError \/ e = JSONDecodeError ->
  exists tr,
    main w = (Ok tt, w', tr)
    /\ tr = ELoad "stacks_addresses.json"
            :: (match e with
                | FileNotFoundError =>
                    [EPrint MsgFileNotFound; EPrint MsgCreateFile]
                | _ => [EPrint MsgInvalidJson]
                end)
    /\ requests tr = []
    /\ dumps tr = [].
Proof.
  intros Hload [-> | ->];
    unfold main, open_load; unfold_eff; rewrite Hload;
    eexists; (split; [reflexivity|]); repeat split.
Qed.

Lemma print_samples_run (items : list (string * pyval)) (w : World) :
  print_samples items w
  = (Ok tt, w, map (fun p => EPrint (MsgSample (fst p) (snd p))) items).
Proof.
  induction items as [|[n a] rest IH]; [reflexivity|].
  simpl. unfold bind, print, emit. now rewrite IH.
Qed.

Lemma print_qualifying_run (q : qdict) (w : World) :
  print_qualifying q w
  = (Ok tt, w,
     map (fun p => EPrint (MsgQualifying (fst p) (address (snd p))
                             (balance (snd p)))) q).
Proof.
  induction q as [|[n d] rest IH]; [reflexivity|].
  simpl. unfold bind, print, emit. now rewrite IH.
Qed.

(** When it is called on a readable input, [main] does the whole
    cycle: load, scan with threshold 5.0, dump with indent 2, report. *)
Lemma main_full_cycle (w w1 w2 w3 : World) (d : list (string * pyval))
      (q : qdict) (tr : list event) :
  load_json "stacks_addresses.json" w = (Ok (PyDict d), w1) ->
  check_stx_balances d five w1 = (Ok q, w2, tr) ->
  dump_json "qualifying_addresses.json" q 2 w2 = (Ok tt, w3) ->
  main w
  = (Ok tt, w3,
     [ELoad "stacks_addresses.json"; EPrint (MsgLoaded (List.length d));
      EPrint MsgSampleHeader]
       ++ map (fun p => EPrint (MsgSample (fst p) (snd p)))
            (if (3 <? List.length d)%nat then firstn 3 d else d)
       ++ tr
       ++ [EDump "qualifying_addresses.json" q 2; EPrint MsgSaved]
       ++ match q with
          | _ :: _ =>
              EPrint MsgQualifyingHeader
                :: map (fun p => EPrint (MsgQualifying (fst p)
                                           (address (snd p))
                                           (balance (snd p)))) q
          | [] => [EPrint MsgNoneFound]
          end).
Proof.
  intros Hload Hcheck Hdump.
  unfold main, open_load, open_dump, py_len, py_items.
  unfold bind, attempt, lift, print, emit.
  rewrite Hload, print_samples_run, Hcheck, Hdump.
  destruct q as [|x q'].
  - trace_eq.
  - rewrite print_qualifying_run. trace_eq.
Qed.

(** C9, at the last two lines of the file.  The guard reads the name
    [_name_], which is bound neither in the module nor among the
    builtins: running the file raises [NameError] before [main] is
    reached, and nothing is loaded, requested, written or printed. *)
Theorem script_raises_name_error (w : World) :
  existsb (String.eqb "_name_") builtins = false ->
  script w = (Raise NameError, w, []).
Proof.
  intros Hb. unfold script, bind, lift, load_name.
  assert (Hg : Dict.get "_name_" script_globals = None) by reflexivity.
  rewrite Hg, Hb. reflexivity.
Qed.

(** ** Counting what a run does *)

Lemma failures_app (t1 t2 : list event) :
  failures (t1 ++ t2) = failures t1 ++ failures t2.
Proof.
  induction t1 as [|[ |[]| | | ] t1 IH]; simpl; rewrite ?IH; reflexivity.
Qed.

Lemma founds_app (t1 t2 : list event) :
  founds (t1 ++ t2) = founds t1 ++ founds t2.
Proof.
  induction t1 as [|[ |[]| | | ] t1 IH]; simpl; rewrite ?IH; reflexivity.
Qed.

Lemma pause_events_silent (i : nat) :
  failures (pause_events i) = [] /\ founds (pause_events i) = [].
Proof.
  unfold pause_events.
  destruct ((0 <? i)%nat && (i mod 5 =? 0)%nat)%bool; simpl; auto.
Qed.

Lemma settle_tally (fb : bool) (t : float) (i : nat) (name c : string)
      (a : pyval) (w : World) (q : qdict) (d : outcome float)
      (pre : list event) :
  reports pre = [] -> errors pre = [] -> sleeps pre = [] ->
  failures pre = [] -> founds pre = [] ->
  (List.length (requests pre) <= 2)%nat ->
  exists s' tr,
    settle fb t i name c a w q d pre = (Ok tt, s', tr) /\ tally t i tr.
Proof.
  intros Hp He Hs Hf Hfo Hr.
  destruct (pause_events_quiet i) as (Hq1 & Hq2 & Hq3).
  destruct (pause_events_silent i) as (Hq5 & Hq6).
  pose proof (pause_events_sleeps i) as Hq4.
  unfold settle. destruct d as [b|e]; eexists _, _.
  - split; [reflexivity|]. split.
    + rewrite !requests_app, Hq1.
      destruct fb, (PyFloat.gt b t); simpl; rewrite ?app_nil_r; exact Hr.
    + rewrite !reports_app, !errors_app, !failures_app.
      rewrite Hp, He, Hf, Hq2, Hq3, Hq5.
      destruct fb, (PyFloat.gt b t); reflexivity.
    + rewrite !reports_app, !founds_app, Hp, Hfo, Hq2, Hq6.
      destruct fb, (PyFloat.gt b t) eqn:Hgt; simpl; rewrite ?Hgt; reflexivity.
    + unfold quiet. rewrite !errors_app, !sleeps_app, He, Hs, Hq3, Hq4.
      unfold pause_due.
      destruct fb, (PyFloat.gt b t); simpl; rewrite ?andb_true_r; reflexivity.
  - split; [reflexivity|]. split.
    + rewrite requests_app. simpl. rewrite app_nil_r. exact Hr.
    + rewrite reports_app, errors_app, failures_app, Hp, He, Hf. reflexivity.
    + rewrite reports_app, founds_app, Hp, Hfo. reflexivity.
    + unfold quiet. rewrite errors_app, sleeps_app, He, Hs. simpl.
      now rewrite andb_false_r.
Qed.

Lemma tally_error (t : float) (i : nat) (pre : list event) (name : string)
      (a : pyval) (e : exn) :
  reports pre = [] -> errors pre = [] -> sleeps pre = [] ->
  failures pre = [] -> founds pre = [] ->
  (List.length (requests pre) <= 2)%nat ->
  tally t i (pre ++ [EPrint (MsgError name a e)]).
Proof.
  intros Hp He Hs Hf Hfo Hr. split.
  - rewrite requests_app. simpl. rewrite app_nil_r. exact Hr.
  - rewrite reports_app, errors_app, failures_app, Hp, He, Hf. reflexivity.
  - rewrite reports_app, founds_app, Hp, Hfo. reflexivity.
  - unfold quiet. rewrite errors_app, sleeps_app, He, Hs. simpl.
    now rewrite andb_false_r.
Qed.

Lemma loop_body_tally (t : float) (i : nat) (name : string) (a : pyval)
      (s : frame) :
  exists s' tr,
    loop_body t i name a s = (Ok tt, s', tr)
    /\ tally t i tr
    /\ (forall e, clean a = Raise e -> requests tr = []).
Proof.
  rewrite loop_body_eq.
  destruct (clean a) as [c|e].
  2:{ eexists _, _. split; [reflexivity|]. split; [|reflexivity].
      apply (tally_error t i []); first [reflexivity|simpl; lia]. }
  assert (Hno : forall x : outcome unit * frame * list event,
             (exists s'' tr', x = (Ok tt, s'', tr') /\ tally t i tr') ->
             exists s'' tr',
               x = (Ok tt, s'', tr') /\ tally t i tr'
               /\ (forall e : exn, Ok c = Raise e -> requests tr' = [])).
  { intros x (s'' & tr' & E & Ht). exists s'', tr'.
    split; [exact E|]. split; [exact Ht|]. discriminate. }
  destruct (http_get (base_url ++ c) (world s)) as [[r|e] w1].
  2:{ apply Hno. eexists _, _. split; [reflexivity|].
      apply (tally_error t i [EGet (base_url ++ c)]);
        first [reflexivity|simpl; lia]. }
  destruct (status_code r =? 200).
  - destruct (settle_tally false t i name c a w1 (qualifying_addresses s)
                (decode_response r) [EGet (base_url ++ c)]
                eq_refl eq_refl eq_refl eq_refl eq_refl ltac:(simpl; lia))
      as (s' & tr & E & Ht).
    rewrite E. apply Hno. eauto.
  - destruct (http_get (fallback_base_url ++ c) w1) as [[r2|e] w2].
    2:{ apply Hno. eexists _, _. split; [reflexivity|].
        apply (tally_error t i
                 [EGet (base_url ++ c); EGet (fallback_base_url ++ c)]);
          first [reflexivity|simpl; lia]. }
    destruct (status_code r2 =? 200).
    + destruct (settle_tally true t i name c a w2 (qualifying_addresses s)
                  (decode_response r2)
                  [EGet (base_url ++ c); EGet (fallback_base_url ++ c)]
                  eq_refl eq_refl eq_refl eq_refl eq_refl ltac:(simpl; lia))
        as (s' & tr & E & Ht).
      rewrite E. apply Hno. eauto.
    + apply Hno. eexists _, _. split; [reflexivity|].
      destruct (pause_events_quiet i) as (Hq1 & Hq2 & Hq3).
      destruct (pause_events_silent i) as (Hq5 & Hq6).
      split.
      * rewrite requests_app, Hq1. simpl. lia.
      * rewrite reports_app, errors_app, failures_app, Hq2, Hq3, Hq5.
        reflexivity.
      * rewrite reports_app, founds_app, Hq2, Hq6. reflexivity.
      * unfold quiet. rewrite errors_app, sleeps_app, Hq3.
        rewrite pause_events_sleeps. unfold pause_due. simpl.
        now rewrite andb_true_r.
Qed.

Lemma clean_raises (a : pyval) (name : string) :
  has_str_address (name, a) = false -> exists e, clean a = Raise e.
Proof.
  unfold has_str_address. destruct a; simpl; intros H;
    first [discriminate|eexists; reflexivity].
Qed.

(** The tallies of the loop, entered at index [i]. *)
Lemma for_enumerate_tally (t : float) (items : list (string * pyval)) :
  forall (i : nat) (s : frame),
  exists s' tr,
    for_enumerate t i items s = (Ok tt, s', tr)
    /\ (List.length (requests tr)
        <= 2 * List.length (filter has_str_address items))%nat
    /\ (List.length (reports tr) + List.length (errors tr)
        + List.length (failures tr) = List.length items)%nat
    /\ founds tr = filter (fun r => PyFloat.gt (snd r) t) (reports tr)
    /\ (List.length (sleeps tr)
        <= List.length (filter pause_due (seq i (List.length items))))%nat
    /\ (errors tr = [] ->
        List.length (sleeps tr)
        = List.length (filter pause_due (seq i (List.length items))))
    /\ Forall (fun seconds => seconds = 1) (sleeps tr).
Proof.
  induction items as [|[name a] rest IH]; intros i s.
  - exists s, []. simpl. repeat split; auto.
  - destruct (loop_body_tally t i name a s)
      as (s1 & tr1 & E1 & [Hr1 Hl1 Hf1 Hs1] & Hc1).
    destruct (IH (S i) s1) as (s' & tr2 & E2 & Hr2 & Hl2 & Hf2 & Hs2 & Hq2 & Ha2).
    exists s', (tr1 ++ tr2).
    split; [simpl; unfold bind; now rewrite E1, E2|].
    split; [|split; [|split; [|split; [|split]]]].
    + rewrite requests_app, length_app. cbn [filter].
      destruct (has_str_address (name, a)) eqn:Hstr.
      * simpl List.length. lia.
      * destruct (clean_raises a name Hstr) as [e He].
        rewrite (Hc1 e He). simpl. lia.
    + rewrite reports_app, errors_app, failures_app, !length_app.
      simpl List.length. lia.
    + rewrite reports_app, founds_app, filter_app, Hf1, Hf2. reflexivity.
    + rewrite sleeps_app, length_app, Hs1. cbn [List.length seq filter].
      destruct (pause_due i); [|simpl; lia].
      destruct (quiet tr1); simpl; lia.
    + intros He. rewrite errors_app in He.
      apply app_eq_nil in He. destruct He as [He1 He2].
      rewrite sleeps_app, length_app, Hs1, (Hq2 He2).
      unfold quiet. rewrite He1. cbn [List.length seq filter].
      rewrite andb_true_r. destruct (pause_due i); reflexivity.
    + rewrite sleeps_app, Hs1. apply Forall_app. split; [|exact Ha2].
      destruct (pause_due i && quiet tr1); auto.
Qed.

Lemma pause_due_count (n : nat) :
  List.length (filter pause_due (seq 0 n)) = ((n - 1) / 5)%nat.
Proof.
  induction n as [|n IH]; [reflexivity|].
  rewrite seq_S, filter_app, length_app, IH. cbn [filter Nat.add].
  unfold pause_due.
  replace (S n - 1)%nat with n by lia.
  pose proof (Nat.div_mod_eq n 5) as H1.
  pose proof (Nat.div_mod_eq (n - 1) 5) as H2.
  pose proof (Nat.mod_upper_bound n 5 ltac:(lia)) as H3.
  pose proof (Nat.mod_upper_bound (n - 1) 5 ltac:(lia)) as H4.
  destruct (Nat.ltb_spec 0 n) as [H|H];
    destruct (Nat.eqb_spec (n mod 5) 0) as [E|E];
    cbn [andb List.length]; lia.
Qed.

(** The trace of a run is the trace of its loop between two lines of
    output that are neither a request, a balance, an error, a failure,
    a found line nor a pause. *)
Lemma run_trace (n m : nat) (t : float) (tr : list event) :
  let tr' := EPrint (MsgChecking n t) :: tr ++ [EPrint (MsgFoundCount m t)] in
  requests tr' = requests tr /\ reports tr' = reports tr
  /\ errors tr' = errors tr /\ failures tr' = failures tr
  /\ founds tr' = founds tr /\ sleeps tr' = sleeps tr.
Proof.
  simpl.
  rewrite requests_app, reports_app, errors_app, failures_app, founds_app,
    sleeps_app.
  simpl. now rewrite !app_nil_r.
Qed.

(** X1. A run makes at most two requests for each entry whose address
    is a string, and none for the other entries. *)
Theorem requests_bounded (address_dict : Dict.t pyval) (min_balance : float)
        (w : World) :
  exists result w' tr,
    check_stx_balances address_dict min_balance w = (Ok result, w', tr)
    /\ (List.length (requests tr)
        <= 2 * List.length (filter has_str_address address_dict))%nat
    /\ (List.length (requests tr) <= 2 * List.length address_dict)%nat.
Proof.
  destruct (for_enumerate_tally min_balance address_dict O
              {| world := w; qualifying_addresses := [] |})
    as (s' & tr & E & Hr & _).
  eexists _, _, _. split; [apply check_stx_balances_run; exact E|].
  destruct (run_trace (List.length address_dict)
              (List.length (qualifying_addresses s')) min_balance tr)
    as (-> & _).
  split; [exact Hr|].
  pose proof (filter_length_le has_str_address address_dict). lia.
Qed.

(** X2. Every entry leaves exactly one line of its own on the console:
    the balance decoded, the exception caught, or the failure of both
    endpoints. *)
Theorem every_entry_accounted (address_dict : Dict.t pyval)
        (min_balance : float) (w : World) :
  exists result w' tr,
    check_stx_balances address_dict min_balance w = (Ok result, w', tr)
    /\ (List.length (reports tr) + List.length (errors tr)
        + List.length (failures tr) = List.length address_dict)%nat.
Proof.
  destruct (for_enumerate_tally min_balance address_dict O
              {| world := w; qualifying_addresses := [] |})
    as (s' & tr & E & _ & Hl & _).
  eexists _, _, _. split; [apply check_stx_balances_run; exact E|].
  destruct (run_trace (List.length address_dict)
              (List.length (qualifying_addresses s')) min_balance tr)
    as (_ & -> & -> & -> & _).
  exact Hl.
Qed.

(** X3. A run over [n] entries pauses at most [(n - 1) / 5] times, for
    one second each time, and exactly that often when no exception was
    caught; a run over at most five entries never pauses. *)
Theorem pauses_bounded (address_dict : Dict.t pyval) (min_balance : float)
        (w : World) :
  exists result w' tr,
    check_stx_balances address_dict min_balance w = (Ok result, w', tr)
    /\ (List.length (sleeps tr) <= (List.length address_dict - 1) / 5)%nat
    /\ (errors tr = [] ->
        List.length (sleeps tr) = ((List.length address_dict - 1) / 5)%nat)
    /\ Forall (fun seconds => seconds = 1) (sleeps tr)
    /\ ((List.length address_dict <= 5)%nat -> sleeps tr = []).
Proof.
  destruct (for_enumerate_tally min_balance address_dict O
              {| world := w; qualifying_addresses := [] |})
    as (s' & tr & E & _ & _ & _ & Hs & Hq & Ha).
  eexists _, _, _. split; [apply check_stx_balances_run; exact E|].
  destruct (run_trace (List.length address_dict)
              (List.length (qualifying_addresses s')) min_balance tr)
    as (_ & _ & -> & _ & _ & ->).
  rewrite pause_due_count in Hs, Hq.
  split; [exact Hs|]. split; [exact Hq|]. split; [exact Ha|].
  intros Hn.
  assert (H0 : ((List.length address_dict - 1) / 5 = 0)%nat)
    by (apply Nat.div_small; lia).
  rewrite H0 in Hs. destruct (sleeps tr); [reflexivity|simpl in Hs; lia].
Qed.

(** ** The result, entry by entry *)

Lemma get_app {V} (k : string) (d1 d2 : Dict.t V) :
  Dict.get k (d1 ++ d2)
  = match Dict.get k d1 with
    | Some v => Some v
    | None => Dict.get k d2
    end.
Proof.
  induction d1 as [|[k' v'] d1 IH]; simpl; [reflexivity|].
  destruct (String.eqb k k'); [reflexivity|exact IH].
Qed.

Lemma set_fresh {V} (k : string) (v : V) (d : Dict.t V) :
  Dict.get k d = None -> Dict.set k v d = d ++ [(k, v)].
Proof.
  induction d as [|[k' v'] d IH]; simpl; [reflexivity|].
  destruct (String.eqb k k'); [discriminate|].
  intros H. now rewrite IH.
Qed.

Lemma get_entries_other (k : string) (f : list (string * string * float)) :
  (forall r, In r f -> fst (fst r) <> k) ->
  Dict.get k (map entry_of f) = None.
Proof.
  induction f as [|r f IH]; intros H; simpl; [reflexivity|].
  destruct (String.eqb_spec k (fst (fst r))) as [->|_].
  - exfalso. apply (H r); [now left|reflexivity].
  - apply IH. intros r' Hr'. apply H. now right.
Qed.

(** What one iteration stores is what its found line says. *)
Lemma loop_body_store (t : float) (i : nat) (name : string) (a : pyval)
      (s : frame) :
  exists s' tr,
    loop_body t i name a s = (Ok tt, s', tr)
    /\ ((founds tr = []
         /\ qualifying_addresses s' = qualifying_addresses s)
        \/ (exists c b,
              founds tr = [(name, c, b)]
              /\ qualifying_addresses s'
                 = Dict.set name {| address := c; balance := b |}
                     (qualifying_addresses s))).
Proof.
  destruct (loop_body_summary t i name a s) as (s' & tr & E & Hcase).
  destruct (loop_body_tally t i name a s) as (s2 & tr2 & E2 & [_ _ Hf _] & _).
  rewrite E in E2. injection E2 as <- <-.
  exists s', tr. split; [exact E|].
  destruct Hcase as [[Hr Hq]|(c & b & _ & Hr & _ & Hq)]; rewrite Hr in Hf.
  - left. auto.
  - simpl in Hf. destruct (PyFloat.gt b t).
    + right. exists c, b. auto.
    + left. auto.
Qed.

(** With distinct names that are not yet keys, the loop appends to the
    dictionary the entries of its found lines, in order, and these are
    the names of [items] that end up as keys. *)
Lemma for_enumerate_appends (t : float) (items : list (string * pyval)) :
  forall (i : nat) (s : frame),
    NoDup (Dict.keys items) ->
    (forall n, In n (Dict.keys items) ->
               Dict.get n (qualifying_addresses s) = None) ->
    exists s' tr,
      for_enumerate t i items s = (Ok tt, s', tr)
      /\ qualifying_addresses s'
         = qualifying_addresses s ++ map entry_of (founds tr)
      /\ (forall r, In r (founds tr) -> In (fst (fst r)) (Dict.keys items))
      /\ map (fun r => fst (fst r)) (founds tr)
         = filter (fun n => Dict.mem n (qualifying_addresses s'))
             (Dict.keys items).
Proof.
  induction items as [|[name a] rest IH]; intros i s Hnd Hfresh.
  - exists s, []. simpl. rewrite app_nil_r. repeat split. intros r [].
  - simpl in Hnd. inversion Hnd as [|? ? Hname Hnd']; subst.
    destruct (loop_body_store t i name a s) as (s1 & tr1 & E1 & Hcase).
    assert (Hq1 : exists f1,
               founds tr1 = f1
               /\ qualifying_addresses s1
                  = qualifying_addresses s ++ map entry_of f1
               /\ (f1 = [] \/ exists c b, f1 = [(name, c, b)])).
    { destruct Hcase as [[Hf Hq]|(c & b & Hf & Hq)].
      - exists []. rewrite Hq, app_nil_r. auto.
      - exists [(name, c, b)]. rewrite Hq.
        rewrite set_fresh by (apply Hfresh; now left).
        split; [exact Hf|]. split; [reflexivity|]. right. eauto. }
    destruct Hq1 as (f1 & Hf1 & Hq1 & Hshape).
    assert (Hfresh1 : forall n, In n (Dict.keys rest) ->
                                Dict.get n (qualifying_addresses s1) = None).
    { intros n Hn. rewrite Hq1, get_app.
      rewrite (Hfresh n) by (now right).
      apply get_entries_other. intros r Hr.
      destruct Hshape as [->|(c & b & ->)]; [destruct Hr|].
      destruct Hr as [<-|[]]. simpl. intros ->. contradiction. }
    destruct (IH (S i) s1 Hnd' Hfresh1) as (s' & tr2 & E2 & Hq2 & Hin2 & Hk2).
    exists s', (tr1 ++ tr2).
    split; [simpl; unfold bind; now rewrite E1, E2|].
    rewrite founds_app, Hf1. split; [|split].
    + rewrite Hq2, Hq1, map_app. now rewrite app_assoc.
    + intros r Hr. apply in_app_or in Hr. simpl.
      destruct Hr as [Hr|Hr]; [|right; now apply Hin2].
      destruct Hshape as [->|(c & b & ->)]; [destruct Hr|].
      destruct Hr as [<-|[]]. now left.
    + rewrite map_app, Hk2. cbn [Dict.keys map fst filter].
      assert (Hmem : Dict.mem name (qualifying_addresses s')
                     = match f1 with [] => false | _ :: _ => true end).
      { unfold Dict.mem. rewrite Hq2, Hq1, !get_app.
        rewrite (Hfresh name) by (now left).
        destruct Hshape as [->|(c & b & ->)]; simpl.
        - rewrite get_entries_other; [reflexivity|].
          intros r Hr Heq. apply Hname. rewrite <- Heq. now apply Hin2.
        - now rewrite String.eqb_refl. }
      fold (Dict.keys rest). rewrite Hmem.
      destruct Hshape as [->|(c & b & ->)]; reflexivity.
Qed.

(** X4. With distinct names, the dictionary returned holds exactly the
    entries of the found lines of the run, in the order they were
    printed, and the closing line counts them. *)
Theorem result_is_found_lines (address_dict : Dict.t pyval)
        (min_balance : float) (w : World) :
  NoDup (Dict.keys address_dict) ->
  exists result w' tr,
    check_stx_balances address_dict min_balance w = (Ok result, w', tr)
    /\ result = map entry_of (founds tr)
    /\ (forall n c b,
          In (n, c, b) (founds tr)
          <-> In (n, {| address := c; balance := b |}) result)
    /\ last tr (ESleep 0)
       = EPrint (MsgFoundCount (List.length (founds tr)) min_balance).
Proof.
  intros Hnd.
  destruct (for_enumerate_appends min_balance address_dict O
              {| world := w; qualifying_addresses := [] |} Hnd
              ltac:(reflexivity))
    as (s' & tr & E & Hq & _).
  cbn [qualifying_addresses app] in Hq.
  eexists _, _, _. split; [apply check_stx_balances_run; exact E|].
  destruct (run_trace (List.length address_dict)
              (List.length (qualifying_addresses s')) min_balance tr)
    as (_ & _ & _ & _ & -> & _).
  split; [exact Hq|]. split.
  - intros n c b. rewrite Hq. split.
    + intros H. apply (in_map entry_of) in H. exact H.
    + intros H. apply in_map_iff in H. destruct H as ([[n' c'] b'] & He & H).
      unfold entry_of in He. simpl in He. inversion He; subst. exact H.
  - rewrite Hq, length_map.
    change (EPrint (MsgChecking (List.length address_dict) min_balance)
              :: tr ++ [EPrint (MsgFoundCount (List.length (founds tr))
                                  min_balance)])
      with ((EPrint (MsgChecking (List.length address_dict) min_balance)
               :: tr)
              ++ [EPrint (MsgFoundCount (List.length (founds tr))
                            min_balance)]).
    apply last_last.
Qed.

(** X5. With distinct names, the keys of the result are the names of
    the input that qualified, in the order of the input; they are
    distinct, and there are at most as many as entries in the input. *)
Theorem result_in_input_order (address_dict : Dict.t pyval)
        (min_balance : float) (w : World) :
  NoDup (Dict.keys address_dict) ->
  exists result w' tr,
    check_stx_balances address_dict min_balance w = (Ok result, w', tr)
    /\ Dict.keys result
       = filter (fun n => Dict.mem n result) (Dict.keys address_dict)
    /\ NoDup (Dict.keys result)
    /\ (List.length result <= List.length address_dict)%nat.
Proof.
  intros Hnd.
  destruct (for_enumerate_appends min_balance address_dict O
              {| world := w; qualifying_addresses := [] |} Hnd
              ltac:(reflexivity))
    as (s' & tr & E & Hq & _ & Hk).
  cbn [qualifying_addresses app] in Hq.
  eexists _, _, _. split; [apply check_stx_balances_run; exact E|].
  assert (Hkeys : Dict.keys (qualifying_addresses s')
                  = filter (fun n => Dict.mem n (qualifying_addresses s'))
                      (Dict.keys address_dict)).
  { rewrite <- Hk. rewrite Hq at 1. unfold Dict.keys.
    rewrite map_map. reflexivity. }
  split; [exact Hkeys|]. split.
  - rewrite Hkeys. now apply NoDup_filter.
  - replace (List.length (qualifying_addresses s'))
      with (List.length (Dict.keys (qualifying_addresses s')))
      by (unfold Dict.keys; apply length_map).
    rewrite Hkeys.
    replace (List.length address_dict)
      with (List.length (Dict.keys address_dict))
      by (unfold Dict.keys; apply length_map).
    apply filter_length_le.
Qed.

(** ** Changing the threshold *)

Ltac float_cmp H1 H2 :=
  repeat match goal with
  | |- context [Z.compare ?a ?b] => destruct (Z.compare_spec a b)
  | _ : context [Z.compare ?a ?b] |- _ => destruct (Z.compare_spec a b)
  | |- context [Pos.compare_cont Eq ?a ?b] =>
      change (Pos.compare_cont Eq a b) with (Pos.compare a b) in H1, H2 |- *;
      destruct (Pos.compare_spec a b)
  | _ : context [Pos.compare_cont Eq ?a ?b] |- _ =>
      change (Pos.compare_cont Eq a b) with (Pos.compare a b) in H1, H2 |- *;
      destruct (Pos.compare_spec a b)
  end;
  cbn [CompOpp] in H1, H2 |- *;
  first [reflexivity | discriminate | lia | (subst; lia)].

(** A balance above a threshold is above every lower threshold. *)
Lemma gt_le_trans (b t1 t2 : float) :
  PyFloat.gt b t2 = true -> PyFloat.le t1 t2 = true ->
  PyFloat.gt b t1 = true.
Proof.
  unfold PyFloat.gt, PyFloat.le, SFltb, SFleb.
  destruct b as [sb|sb| |sb mb eb], t1 as [s1|s1| |s1 m1 e1],
    t2 as [s2|s2| |s2 m2 e2];
    try destruct sb; try destruct s1; try destruct s2;
    cbn [SFcompare]; intros H1 H2;
    try discriminate; try reflexivity;
    float_cmp H1 H2.
Qed.

(** The threshold decides what is stored and nothing else: the
    requests, the world and the balances announced are the same for
    any two thresholds. *)
Lemma loop_body_any_threshold (t1 t2 : float) (i : nat) (name : string)
      (a : pyval) (s1 s2 : frame) :
  world s1 = world s2 ->
  exists s1' tr1 s2' tr2,
    loop_body t1 i name a s1 = (Ok tt, s1', tr1)
    /\ loop_body t2 i name a s2 = (Ok tt, s2', tr2)
    /\ world s1' = world s2'
    /\ requests tr1 = requests tr2
    /\ reports tr1 = reports tr2
    /\ errors tr1 = errors tr2
    /\ sleeps tr1 = sleeps tr2.
Proof.
  intros Hw. rewrite !loop_body_eq, Hw.
  assert (Hsettle : forall fb c w d pre,
             reports pre = [] -> errors pre = [] -> sleeps pre = [] ->
             exists s1' tr1 s2' tr2,
               settle fb t1 i name c a w (qualifying_addresses s1) d pre
               = (Ok tt, s1', tr1)
               /\ settle fb t2 i name c a w (qualifying_addresses s2) d pre
                  = (Ok tt, s2', tr2)
               /\ world s1' = world s2'
               /\ requests tr1 = requests tr2
               /\ reports tr1 = reports tr2
               /\ errors tr1 = errors tr2
               /\ sleeps tr1 = sleeps tr2).
  { intros fb c w d pre Hp He Hs.
    destruct (settle_spec fb t1 i name c a w (qualifying_addresses s1) d pre
                Hp He Hs) as (x1 & tr1 & E1 & Ha1 & Hr1 & Hw1 & _ & Hs1).
    destruct (settle_spec fb t2 i name c a w (qualifying_addresses s2) d pre
                Hp He Hs) as (x2 & tr2 & E2 & Ha2 & Hr2 & Hw2 & _ & Hs2).
    exists x1, tr1, x2, tr2. rewrite Hw1, Hw2, Hr1, Hr2, Hs1, Hs2.
    unfold announces in Ha1, Ha2.
    destruct d; destruct Ha1 as [-> ->]; destruct Ha2 as [-> ->];
      repeat split; assumption. }
  destruct (clean a) as [c|e].
  2:{ eexists _, _, _, _. repeat split; first [reflexivity|exact Hw]. }
  destruct (http_get (base_url ++ c) (world s2)) as [[r|e] w1].
  2:{ eexists _, _, _, _. repeat split; reflexivity. }
  destruct (status_code r =? 200).
  - apply Hsettle; reflexivity.
  - destruct (http_get (fallback_base_url ++ c) w1) as [[r2|e] w2].
    2:{ eexists _, _, _, _. repeat split; reflexivity. }
    destruct (status_code r2 =? 200).
    + apply Hsettle; reflexivity.
    + eexists _, _, _, _. repeat split; reflexivity.
Qed.

Lemma for_enumerate_any_threshold (t1 t2 : float)
      (items : list (string * pyval)) :
  forall (i : nat) (s1 s2 : frame),
    world s1 = world s2 ->
    exists s1' tr1 s2' tr2,
      for_enumerate t1 i items s1 = (Ok tt, s1', tr1)
      /\ for_enumerate t2 i items s2 = (Ok tt, s2', tr2)
      /\ world s1' = world s2'
      /\ requests tr1 = requests tr2
      /\ reports tr1 = reports tr2
      /\ errors tr1 = errors tr2
      /\ sleeps tr1 = sleeps tr2.
Proof.
  induction items as [|[name a] rest IH]; intros i s1 s2 Hw.
  - exists s1, [], s2, []. simpl. repeat split; auto.
  - destruct (loop_body_any_threshold t1 t2 i name a s1 s2 Hw)
      as (x1 & u1 & x2 & u2 & E1 & E2 & Hw' & Hr & Hp & He & Hs).
    destruct (IH (S i) x1 x2 Hw')
      as (y1 & v1 & y2 & v2 & F1 & F2 & Hw'' & Hr' & Hp' & He' & Hs').
    exists y1, (u1 ++ v1), y2, (u2 ++ v2).
    split; [simpl; unfold bind; now rewrite E1, F1|].
    split; [simpl; unfold bind; now rewrite E2, F2|].
    rewrite !requests_app, !reports_app, !errors_app, !sleeps_app.
    rewrite Hr, Hr', Hp, Hp', He, He', Hs, Hs'. repeat split. exact Hw''.
Qed.

(** X6. Raising the threshold changes neither the requests made nor
    the balances announced nor the world the run leaves behind, and,
    with distinct names, it only removes entries from the result: an
    entry of the run with the higher threshold is an entry of the run
    with the lower one. *)
Theorem threshold_monotone (address_dict : Dict.t pyval) (t1 t2 : float)
        (w : World) :
  NoDup (Dict.keys address_dict) ->
  PyFloat.le t1 t2 = true ->
  exists r1 r2 w' tr1 tr2,
    check_stx_balances address_dict t1 w = (Ok r1, w', tr1)
    /\ check_stx_balances address_dict t2 w = (Ok r2, w', tr2)
    /\ requests tr1 = requests tr2
    /\ reports tr1 = reports tr2
    /\ (forall n rec, Dict.get n r2 = Some rec -> Dict.get n r1 = Some rec)
    /\ incl (Dict.keys r2) (Dict.keys r1).
Proof.
  intros Hnd Hle.
  destruct (for_enumerate_any_threshold t1 t2 address_dict O
              {| world := w; qualifying_addresses := [] |}
              {| world := w; qualifying_addresses := [] |} eq_refl)
    as (s1 & tr1 & s2 & tr2 & E1 & E2 & Hw & Hr & Hp & _).
  destruct (for_enumerate_settled t1 address_dict O
              {| world := w; qualifying_addresses := [] |})
    as (x1 & u1 & F1 & _ & _ & _ & Hdec1 & _).
  destruct (for_enumerate_settled t2 address_dict O
              {| world := w; qualifying_addresses := [] |})
    as (x2 & u2 & F2 & _ & _ & _ & _ & Hin2).
  rewrite E1 in F1. injection F1 as <- <-.
  rewrite E2 in F2. injection F2 as <- <-.
  specialize (Hdec1 Hnd). cbn [qualifying_addresses] in Hdec1, Hin2.
  assert (Hsub : forall n rec,
             Dict.get n (qualifying_addresses s2) = Some rec ->
             Dict.get n (qualifying_addresses s1) = Some rec).
  { intros n rec Hrec.
    destruct (Hin2 n rec Hrec) as [H|[H Hgt]]; [discriminate|].
    rewrite <- Hp in H. rewrite (Hdec1 _ _ _ H).
    rewrite (gt_le_trans _ _ _ Hgt Hle). now destruct rec. }
  exists (qualifying_addresses s1), (qualifying_addresses s2), (world s1).
  eexists _, _.
  split; [apply check_stx_balances_run; exact E1|].
  split; [rewrite Hw; apply check_stx_balances_run; exact E2|].
  destruct (run_trace (List.length address_dict)
              (List.length (qualifying_addresses s1)) t1 tr1)
    as (-> & -> & _).
  destruct (run_trace (List.length address_dict)
              (List.length (qualifying_addresses s2)) t2 tr2)
    as (-> & -> & _).
  split; [exact Hr|]. split; [exact Hp|]. split; [exact Hsub|].
  intros n. rewrite !in_keys_get. intros [rec Hrec]. eauto.
Qed.

(** ** The requests of a run *)

Lemma prefix_append (s1 s2 : string) : String.prefix s1 (s1 ++ s2) = true.
Proof.
  induction s1 as [|a s1 IH]; simpl.
  - destruct s2; reflexivity.
  - destruct (ascii_dec a a) as [_|Hne]; [exact IH|now elim Hne].
Qed.

Lemma fallback_is_not_primary (c : string) :
  String.prefix base_url (fallback_base_url ++ c) = false.
Proof. reflexivity. Qed.

(** The requests of one iteration: the primary URL of the cleaned
    address, followed or not by the fallback URL. *)
Lemma loop_body_requests (t : float) (i : nat) (name : string) (a : pyval)
      (s : frame) :
  exists s' tr,
    loop_body t i name a s = (Ok tt, s', tr)
    /\ match clean a with
       | Ok c =>
           requests tr = [(base_url ++ c)%string]
           \/ requests tr = [(base_url ++ c)%string;
                             (fallback_base_url ++ c)%string]
       | Raise _ => requests tr = []
       end.
Proof.
  rewrite loop_body_eq.
  destruct (clean a) as [c|e].
  2:{ eexists _, _. split; reflexivity. }
  destruct (http_get (base_url ++ c) (world s)) as [[r|e] w1].
  2:{ eexists _, _. split; [reflexivity|now left]. }
  destruct (status_code r =? 200).
  - destruct (settle_spec false t i name c a w1 (qualifying_addresses s)
                (decode_response r) [EGet (base_url ++ c)]
                eq_refl eq_refl eq_refl) as (s' & tr & E & _ & Hreq & _).
    exists s', tr. split; [exact E|now left].
  - destruct (http_get (fallback_base_url ++ c) w1) as [[r2|e] w2].
    2:{ eexists _, _. split; [reflexivity|now right]. }
    destruct (status_code r2 =? 200).
    + destruct (settle_spec true t i name c a w2 (qualifying_addresses s)
                  (decode_response r2)
                  [EGet (base_url ++ c); EGet (fallback_base_url ++ c)]
                  eq_refl eq_refl eq_refl) as (s' & tr & E & _ & Hreq & _).
      exists s', tr. split; [exact E|now right].
    + eexists _, _. split; [reflexivity|]. right.
      rewrite requests_app.
      destruct (pause_events_quiet i) as (-> & _). reflexivity.
Qed.

Lemma for_enumerate_requests (t : float) (items : list (string * pyval)) :
  forall (i : nat) (s : frame),
  exists s' tr,
    for_enumerate t i items s = (Ok tt, s', tr)
    /\ filter (String.prefix base_url) (requests tr)
       = map (append base_url) (cleaned items)
    /\ (forall url, In url (requests tr) ->
          exists c, In c (cleaned items)
                    /\ (url = (base_url ++ c)%string
                        \/ url = (fallback_base_url ++ c)%string)).
Proof.
  induction items as [|[name a] rest IH]; intros i s.
  - exists s, []. repeat split. intros url [].
  - destruct (loop_body_requests t i name a s) as (s1 & tr1 & E1 & Hreq).
    destruct (IH (S i) s1) as (s' & tr2 & E2 & Hf & Hin).
    exists s', (tr1 ++ tr2).
    split; [simpl; unfold bind; now rewrite E1, E2|].
    rewrite requests_app, filter_app, Hf. cbn [cleaned].
    destruct (clean a) as [c|e].
    + assert (H1 : filter (String.prefix base_url) (requests tr1)
                   = [(base_url ++ c)%string]).
      { destruct Hreq as [-> | ->]; cbn [filter];
          rewrite prefix_append, ?fallback_is_not_primary; reflexivity. }
      rewrite H1. split; [reflexivity|].
      intros url Hu. apply in_app_or in Hu. destruct Hu as [Hu|Hu].
      * exists c. split; [now left|].
        destruct Hreq as [Hr|Hr]; rewrite Hr in Hu.
        -- destruct Hu as [<-|[]]. now left.
        -- destruct Hu as [<-|[<-|[]]]; [now left|now right].
      * destruct (Hin url Hu) as (c' & Hc' & Hurl).
        exists c'. split; [now right|exact Hurl].
    + rewrite Hreq. split; [reflexivity|].
      intros url Hu. simpl in Hu. exact (Hin url Hu).
Qed.

(** X15. A run looks up every entry whose address is a string exactly
    once on the primary endpoint, in the order of the input and with
    the cleaned address; every other request of the run is the fallback
    URL of one of these addresses.  No other URL is requested. *)
Theorem lookups_in_input_order (address_dict : Dict.t pyval)
        (min_balance : float) (w : World) :
  exists result w' tr,
    check_stx_balances address_dict min_balance w = (Ok result, w', tr)
    /\ filter (String.prefix base_url) (requests tr)
       = map (append base_url) (cleaned address_dict)
    /\ (forall url, In url (requests tr) ->
          exists c, In c (cleaned address_dict)
                    /\ (url = (base_url ++ c)%string
                        \/ url = (fallback_base_url ++ c)%string)).
Proof.
  destruct (for_enumerate_requests min_balance address_dict O
              {| world := w; qualifying_addresses := [] |})
    as (s' & tr & E & Hf & Hin).
  eexists _, _, _. split; [apply check_stx_balances_run; exact E|].
  destruct (run_trace (List.length address_dict)
              (List.length (qualifying_addresses s')) min_balance tr)
    as (-> & _).
  split; assumption.
Qed.

(** ** More on cleaning *)

Lemma contains_append (c : ascii) (s1 s2 : string) :
  Str.contains c (s1 ++ s2) = Str.contains c s1 || Str.contains c s2.
Proof.
  induction s1 as [|a s1 IH]; simpl; [reflexivity|].
  now rewrite IH, orb_assoc.
Qed.

Lemma contains_remove_same (c : ascii) (s : string) :
  Str.contains c (Str.remove_char c s) = false.
Proof.
  induction s as [|a s IH]; simpl; [reflexivity|].
  destruct (Ascii.eqb a c) eqn:E; simpl; [exact IH|now rewrite E].
Qed.

Lemma contains_remove_other (c d : ascii) (s : string) :
  Str.contains c s = false -> Str.contains c (Str.remove_char d s) = false.
Proof.
  induction s as [|a s IH]; simpl; [reflexivity|].
  intros H. apply orb_false_elim in H. destruct H as [Ha Hs].
  destruct (Ascii.eqb a d); simpl; [auto|rewrite Ha; auto].
Qed.

Lemma remove_absent (c : ascii) (s : string) :
  Str.contains c s = false -> Str.remove_char c s = s.
Proof.
  induction s as [|a s IH]; simpl; [reflexivity|].
  intros H. apply orb_false_elim in H. destruct H as [Ha Hs].
  now rewrite Ha, IH.
Qed.

Lemma remove_char_length (c : ascii) (s : string) :
  (String.length (Str.remove_char c s) <= String.length s)%nat.
Proof.
  induction s as [|a s IH]; simpl; [lia|].
  destruct (Ascii.eqb a c); simpl; lia.
Qed.

Lemma append_length (s1 s2 : string) :
  String.length (s1 ++ s2) = (String.length s1 + String.length s2)%nat.
Proof.
  induction s1 as [|a s1 IH]; simpl; [reflexivity|now rewrite IH].
Qed.

(** X7. A cleaned address holds neither quote character and is no
    longer than the address; for an address without quote characters,
    cleaning is [strip], and the result neither begins nor ends with
    white space.  Since the quotes are removed after the stripping,
    white space that stood inside the quotes stays: a cleaned address
    can begin with white space. *)
Theorem cleaned_address (str : string) :
  exists c,
    clean (PyStr str) = Ok c
    /\ Str.contains Str.quote c = false
    /\ Str.contains Str.apostrophe c = false
    /\ (String.length c <= String.length str)%nat
    /\ (Str.contains Str.quote str = false ->
        Str.contains Str.apostrophe str = false ->
        c = Str.strip str
        /\ Str.head_space c = false /\ Str.last_space c = false)
    /\ exists str' c',
        clean (PyStr str') = Ok c' /\ Str.head_space c' = true.
Proof.
  eexists. split; [apply clean_spec|].
  destruct (strip_spec str) as (l & r & Hs & _ & _ & Hh & Hl).
  split; [|split; [|split; [|split]]].
  - apply contains_remove_other, contains_remove_same.
  - apply contains_remove_same.
  - apply (f_equal String.length) in Hs.
    rewrite !append_length in Hs.
    pose proof (remove_char_length Str.apostrophe
                  (Str.remove_char Str.quote (Str.strip str))).
    pose proof (remove_char_length Str.quote (Str.strip str)).
    lia.
  - intros Hq Ha.
    assert (Hq' : Str.contains Str.quote (Str.strip str) = false).
    { rewrite Hs, !contains_append in Hq.
      apply orb_false_elim in Hq. destruct Hq as [_ Hq].
      apply orb_false_elim in Hq. destruct Hq as [Hq _]. exact Hq. }
    assert (Ha' : Str.contains Str.apostrophe (Str.strip str) = false).
    { rewrite Hs, !contains_append in Ha.
      apply orb_false_elim in Ha. destruct Ha as [_ Ha].
      apply orb_false_elim in Ha. destruct Ha as [Ha _]. exact Ha. }
    rewrite (remove_absent _ _ Hq'), (remove_absent _ _ Ha'). auto.
  - exists "' SP1'", " SP1". split; reflexivity.
Qed.

(** ** More on decoding *)

(** X8. A balance string that begins with [0X], in upper case, is not
    read in base 16: it goes to [int(balance_str)], which raises
    [ValueError]; the entry is logged as an error and not stored. *)
Theorem upper_case_prefix_rejected (rest : string) (fb : bool) (t : float)
        (i : nat) (name : string) (a : pyval) (c : string) (s : frame)
        (r : response) (w' : World) (d : list (string * pyval)) :
  clean a = Ok c ->
  answered fb c s r w' ->
  body r = Some (PyDict d) ->
  Dict.get "balance" d = Some (PyStr ("0X" ++ rest)) ->
  decode_balance (PyStr ("0X" ++ rest)) = Raise ValueError
  /\ exists s' tr,
      loop_body t i name a s = (Ok tt, s', tr)
      /\ errors tr = [(name, ValueError)]
      /\ reports tr = []
      /\ qualifying_addresses s' = qualifying_addresses s.
Proof.
  intros Hc Ha Hb Hd.
  assert (Hdec : decode_balance (PyStr ("0X" ++ rest)) = Raise ValueError).
  { unfold decode_balance.
    replace (String.prefix "0x" ("0X" ++ rest)) with false by reflexivity.
    unfold PyInt.of_str. cbn [append PyInt.skip_spaces].
    replace (PyInt.isspace "0") with false by reflexivity.
    replace (PyInt.has_prefix 10 (String "0" (String "X" rest)))
      with false by reflexivity.
    cbv beta iota.
    replace (PyInt.scan 10 false 0 0 (String "0" (String "X" rest)))
      with (Some (0, 1%nat, String "X" rest)) by reflexivity.
    replace (Ascii.eqb "0" Str.underscore) with false by reflexivity.
    cbn [Nat.eqb PyInt.skip_spaces].
    replace (PyInt.isspace "X") with false by reflexivity.
    destruct (PyInt.over_limit int_max_str_digits 10 1); reflexivity. }
  split; [exact Hdec|].
  rewrite (loop_body_answered fb t i name a c s r w' Hc Ha).
  rewrite (decode_response_field r d _ Hb Hd), Hdec.
  unfold settle. eexists _, _. split; [reflexivity|].
  rewrite errors_app, reports_app. destruct fb; repeat split.
Qed.

(** The quotient that rounding returns keeps the sign it is given. *)
Lemma binary_round_aux_sign (sx : bool) (mx ex : Z) (lx : location) :
  let r := binary_round_aux PyFloat.prec PyFloat.emax sx mx ex lx in
  r = S754_nan \/ r = S754_zero sx \/ r = S754_infinity sx
  \/ exists m e, r = S754_finite sx m e.
Proof.
  unfold binary_round_aux.
  destruct (shr_fexp PyFloat.prec PyFloat.emax mx ex lx) as [mrs' e'].
  destruct (shr_fexp PyFloat.prec PyFloat.emax
              (round_nearest_even (shr_m mrs') (loc_of_shr_record mrs'))
              e' loc_Exact) as [mrs'' e''].
  destruct (shr_m mrs'') as [|m|m]; auto.
  destruct (e'' <=? PyFloat.emax - PyFloat.prec); eauto 6.
Qed.

Lemma not_above_when_negative (b t : float) :
  (b = S754_nan \/ b = S754_zero true \/ b = S754_infinity true
   \/ exists m e, b = S754_finite true m e) ->
  PyFloat.le zero t = true -> PyFloat.gt b t = false.
Proof.
  unfold PyFloat.le, PyFloat.gt, SFleb, SFltb, zero.
  intros [->|[->|[->|(m & e & ->)]]];
    destruct t as [[]|[]| |[] m' e']; simpl; intros H;
    first [reflexivity|discriminate].
Qed.

(** X9. A JSON integer balance of zero micro-STX or less is never
    stored when the threshold is at least zero.  The division by
    1,000,000 yields 0.0, or raises [OverflowError], or yields a float
    of one of the shapes listed (negative, a negative zero or NaN);
    a float it yields does not exceed the threshold: it is announced on
    the balance line, with no error and no found line.  When the
    division raises, the exception is what is logged, and no balance
    is announced. *)
Theorem non_positive_never_qualifies (n : Z) (fb : bool) (t : float)
        (i : nat) (name : string) (a : pyval) (c : string) (s : frame)
        (r : response) (w' : World) (d : list (string * pyval)) :
  n <= 0 ->
  PyFloat.le zero t = true ->
  clean a = Ok c ->
  answered fb c s r w' ->
  body r = Some (PyDict d) ->
  Dict.get "balance" d = Some (PyInt n) ->
  (forall b, PyFloat.int_true_divide n 1000000 = Ok b ->
             PyFloat.gt b t = false)
  /\ (PyFloat.int_true_divide n 1000000 = Ok zero
      \/ PyFloat.int_true_divide n 1000000 = Raise OverflowError
      \/ exists b,
          PyFloat.int_true_divide n 1000000 = Ok b
          /\ (b = S754_nan \/ b = S754_zero true
              \/ exists m e, b = S754_finite true m e))
  /\ exists s' tr,
      loop_body t i name a s = (Ok tt, s', tr)
      /\ announces name c (PyFloat.int_true_divide n 1000000) tr
      /\ founds tr = []
      /\ qualifying_addresses s' = qualifying_addresses s.
Proof.
  intros Hn Ht Hc Ha Hb Hd.
  assert (Hshape : PyFloat.int_true_divide n 1000000 = Ok zero
                   \/ PyFloat.int_true_divide n 1000000 = Raise OverflowError
                   \/ exists b,
                       PyFloat.int_true_divide n 1000000 = Ok b
                       /\ (b = S754_nan \/ b = S754_zero true
                           \/ exists m e, b = S754_finite true m e)).
  { destruct n as [|p|p]; [now left| lia |].
    unfold PyFloat.int_true_divide, SFdiv.
    destruct (SFdiv_core_binary PyFloat.prec PyFloat.emax
                (Z.pos p) 0 1000000 0) as [[mz ez] lz].
    pose proof (binary_round_aux_sign (xorb true false) mz ez lz) as Hs.
    cbv zeta in Hs. cbn [xorb] in Hs |- *.
    destruct (binary_round_aux PyFloat.prec PyFloat.emax true mz ez lz)
      as [sz|sz| |sz m e].
    - right. right. eexists. split; [reflexivity|].
      destruct Hs as [H|[H|[H|(m & e & H)]]]; try discriminate.
      injection H as ->. auto.
    - right. now left.
    - right. right. eexists. split; [reflexivity|]. now left.
    - right. right. eexists. split; [reflexivity|].
      destruct Hs as [H|[H|[H|(m' & e' & H)]]]; try discriminate.
      injection H as -> _ _. eauto. }
  assert (Hgt : forall b, PyFloat.int_true_divide n 1000000 = Ok b ->
                          PyFloat.gt b t = false).
  { intros b Hdiv.
    destruct Hshape as [H|[H|(b' & H & Hb')]]; rewrite H in Hdiv.
    - injection Hdiv as <-. now apply not_below_zero.
    - discriminate.
    - injection Hdiv as <-. apply not_above_when_negative; [|exact Ht].
      destruct Hb' as [->|[->|H']]; auto. }
  split; [exact Hgt|]. split; [exact Hshape|].
  rewrite (loop_body_answered fb t i name a c s r w' Hc Ha).
  rewrite (decode_response_field r d _ Hb Hd).
  assert (Hdb : decode_balance (PyInt n) = PyFloat.int_true_divide n 1000000)
    by reflexivity.
  rewrite Hdb. unfold settle, announces.
  destruct (pause_events_silent i) as (_ & Hq).
  destruct (pause_events_quiet i) as (_ & Hq2 & Hq3).
  destruct (PyFloat.int_true_divide n 1000000) as [b|e] eqn:Hdiv.
  - rewrite (Hgt b eq_refl). eexists _, _. split; [reflexivity|].
    rewrite !founds_app, !reports_app, !errors_app, Hq, Hq2, Hq3.
    destruct fb; repeat split.
  - eexists _, _. split; [reflexivity|].
    rewrite founds_app, reports_app, errors_app. destruct fb; repeat split.
Qed.

(** X10. A response with status 200 that cannot be decoded is caught
    and skipped: a body that is no JSON raises [JSONDecodeError], a JSON
    body that is no object [AttributeError], and a [balance] that is
    null, a list or an object [TypeError]. *)
Theorem malformed_response_skipped (fb : bool) (t : float) (i : nat)
        (name : string) (a : pyval) (c : string) (s : frame)
        (r : response) (w' : World) (e : exn) :
  clean a = Ok c ->
  answered fb c s r w' ->
  match body r with
  | None => e = JSONDecodeError
  | Some (PyDict d) =>
      match Dict.get "balance" d with
      | Some (PyNone | PyList _ | PyDict _) => e = TypeError
      | _ => False
      end
  | Some _ => e = AttributeError
  end ->
  exists s' tr,
    loop_body t i name a s = (Ok tt, s', tr)
    /\ errors tr = [(name, e)]
    /\ reports tr = []
    /\ sleeps tr = []
    /\ qualifying_addresses s' = qualifying_addresses s.
Proof.
  intros Hc Ha He.
  rewrite (loop_body_answered fb t i name a c s r w' Hc Ha).
  assert (Hdec : decode_response r = Raise e).
  { unfold decode_response, balance_field.
    destruct (body r) as [[| | | | | |d]|]; subst; try reflexivity.
    destruct (Dict.get "balance" d) as [[]|]; subst;
      first [reflexivity|contradiction]. }
  rewrite Hdec. unfold settle. eexists _, _. split; [reflexivity|].
  rewrite errors_app, reports_app, sleeps_app. destruct fb; repeat split.
Qed.

(** ** More on the driver *)

Lemma pause_events_scan (i : nat) : forallb scan_event (pause_events i) = true.
Proof.
  unfold pause_events.
  destruct ((0 <? i)%nat && (i mod 5 =? 0)%nat)%bool; reflexivity.
Qed.

Lemma loop_body_scan (t : float) (i : nat) (name : string) (a : pyval)
      (s : frame) :
  exists s' tr,
    loop_body t i name a s = (Ok tt, s', tr)
    /\ forallb scan_event tr = true.
Proof.
  rewrite loop_body_eq.
  assert (Hsettle : forall fb c w d pre,
             forallb scan_event pre = true ->
             exists s' tr,
               settle fb t i name c a w (qualifying_addresses s) d pre
               = (Ok tt, s', tr)
               /\ forallb scan_event tr = true).
  { intros fb c w d pre Hpre. unfold settle.
    destruct d as [b|e]; eexists _, _; (split; [reflexivity|]).
    - rewrite !forallb_app, Hpre, pause_events_scan.
      destruct fb, (PyFloat.gt b t); reflexivity.
    - rewrite forallb_app, Hpre. reflexivity. }
  destruct (clean a) as [c|e].
  2:{ eexists _, _. split; reflexivity. }
  destruct (http_get (base_url ++ c) (world s)) as [[r|e] w1].
  2:{ eexists _, _. split; reflexivity. }
  destruct (status_code r =? 200).
  - apply Hsettle. reflexivity.
  - destruct (http_get (fallback_base_url ++ c) w1) as [[r2|e] w2].
    2:{ eexists _, _. split; reflexivity. }
    destruct (status_code r2 =? 200).
    + apply Hsettle. reflexivity.
    + eexists _, _. split; [reflexivity|].
      rewrite forallb_app, pause_events_scan. reflexivity.
Qed.

Lemma for_enumerate_scan (t : float) (items : list (string * pyval)) :
  forall (i : nat) (s : frame),
  exists s' tr,
    for_enumerate t i items s = (Ok tt, s', tr)
    /\ forallb scan_event tr = true.
Proof.
  induction items as [|[name a] rest IH]; intros i s.
  - exists s, []. split; reflexivity.
  - destruct (loop_body_scan t i name a s) as (s1 & tr1 & E1 & H1).
    destruct (IH (S i) s1) as (s' & tr2 & E2 & H2).
    exists s', (tr1 ++ tr2).
    split; [simpl; unfold bind; now rewrite E1, E2|].
    now rewrite forallb_app, H1, H2.
Qed.

Lemma check_stx_balances_scan (address_dict : Dict.t pyval) (t : float)
      (w : World) (r : outcome qdict) (w' : World) (tr : list event) :
  check_stx_balances address_dict t w = (r, w', tr) ->
  forallb scan_event tr = true.
Proof.
  destruct (for_enumerate_scan t address_dict O
              {| world := w; qualifying_addresses := [] |})
    as (s' & tr0 & E & H).
  rewrite (check_stx_balances_run address_dict t w s' tr0 E).
  intros Heq. injection Heq as _ _ <-.
  cbn [forallb scan_event]. rewrite forallb_app, H. reflexivity.
Qed.

(** The scan prints no sample and no summary line, writes no file and
    never says that the results were saved. *)
Lemma scan_trace (tr : list event) :
  forallb scan_event tr = true ->
  samples tr = [] /\ summary tr = [] /\ dumps tr = []
  /\ ~ In (EPrint MsgSaved) tr /\ ~ In (EPrint MsgNoneFound) tr.
Proof.
  induction tr as [|ev tr IH]; intros H.
  - repeat split; intros [].
  - cbn [forallb] in H. apply andb_prop in H. destruct H as [Hev Htr].
    destruct (IH Htr) as (H1 & H2 & H3 & H4 & H5).
    destruct ev as [u|m|n|p|p d n]; try discriminate;
      [| destruct m; try discriminate |];
      cbn [samples summary dumps];
      (split; [exact H1|]); (split; [exact H2|]); (split; [exact H3|]);
      split; intros [Heq|Hin]; first [discriminate|contradiction].
Qed.

Lemma samples_app (t1 t2 : list event) :
  samples (t1 ++ t2) = samples t1 ++ samples t2.
Proof.
  induction t1 as [|[ |[]| | | ] t1 IH]; simpl; rewrite ?IH; reflexivity.
Qed.

Lemma summary_app (t1 t2 : list event) :
  summary (t1 ++ t2) = summary t1 ++ summary t2.
Proof.
  induction t1 as [|[ |[]| | | ] t1 IH]; simpl; rewrite ?IH; reflexivity.
Qed.

Lemma dumps_app (t1 t2 : list event) :
  dumps (t1 ++ t2) = dumps t1 ++ dumps t2.
Proof.
  induction t1 as [|[] t1 IH]; simpl; rewrite ?IH; reflexivity.
Qed.

Lemma sample_lines (items : list (string * pyval)) :
  let tr := map (fun p => EPrint (MsgSample (fst p) (snd p))) items in
  samples tr = items /\ requests tr = [] /\ summary tr = []
  /\ dumps tr = [] /\ ~ In (EPrint MsgSaved) tr.
Proof.
  induction items as [|[n a] items (H1 & H2 & H3 & H4 & H5)]; simpl.
  - repeat split. intros [].
  - rewrite H1. repeat split; auto.
    intros [H|H]; [discriminate|contradiction].
Qed.

Lemma summary_lines (q : qdict) :
  let tr := map (fun p => EPrint (MsgQualifying (fst p) (address (snd p))
                                    (balance (snd p)))) q in
  summary tr = map (fun p => (fst p, address (snd p), balance (snd p))) q
  /\ samples tr = [] /\ requests tr = [] /\ dumps tr = []
  /\ ~ In (EPrint MsgNoneFound) tr.
Proof.
  induction q as [|[n d] q (H1 & H2 & H3 & H4 & H5)]; simpl.
  - repeat split. intros [].
  - rewrite H1. repeat split; auto.
    intros [H|H]; [discriminate|contradiction].
Qed.

(** X11. An input file whose JSON is no object ends [main] with an
    exception that nothing catches: [TypeError] from [len] for null, a
    boolean or a number, [AttributeError] from [items] for a string or
    a list, after the count and the sample header were printed.  No
    request is made and no file is written. *)
Theorem main_rejects_non_mapping (v : pyval) (w w1 : World) :
  load_json "stacks_addresses.json" w = (Ok v, w1) ->
  (forall d, v <> PyDict d) ->
  exists e tr,
    main w = (Raise e, w1, tr)
    /\ match py_len v with
       | Ok n =>
           e = AttributeError
           /\ tr = [ELoad "stacks_addresses.json"; EPrint (MsgLoaded n);
                    EPrint MsgSampleHeader]
       | Raise _ =>
           e = TypeError /\ tr = [ELoad "stacks_addresses.json"]
       end
    /\ requests tr = [] /\ dumps tr = [].
Proof.
  intros Hload Hv.
  unfold main, open_load, bind, attempt, lift, print, emit.
  rewrite Hload.
  destruct v; try (eexists _, _; repeat split; reflexivity).
  exfalso. now apply (Hv d).
Qed.

(** X12. An exception on loading the input other than
    [FileNotFoundError] and [JSONDecodeError] is not caught: [main]
    ends with it, having printed nothing. *)
Theorem main_load_error_propagates (e : exn) (w w' : World) :
  load_json "stacks_addresses.json" w = (Raise e, w') ->
  e <> FileNotFoundError -> e <> JSONDecodeError ->
  main w = (Raise e, w', [ELoad "stacks_addresses.json"]).
Proof.
  intros Hload H1 H2.
  unfold main, open_load, bind, attempt, raise.
  rewrite Hload.
  destruct e; first [contradiction|reflexivity].
Qed.

(** X13. When the result file cannot be written, [main] ends with the
    exception of the write, after the whole scan: the requests of the
    scan were made, the write was attempted once, and neither the
    saved line nor the summary is printed. *)
Theorem main_dump_error_propagates (e : exn) (w w1 w2 w3 : World)
        (d : list (string * pyval)) (q : qdict) (tr : list event) :
  load_json "stacks_addresses.json" w = (Ok (PyDict d), w1) ->
  check_stx_balances d five w1 = (Ok q, w2, tr) ->
  dump_json "qualifying_addresses.json" q 2 w2 = (Raise e, w3) ->
  exists tr',
    main w = (Raise e, w3, tr')
    /\ requests tr' = requests tr
    /\ dumps tr' = [("qualifying_addresses.json", q, 2%nat)]
    /\ ~ In (EPrint MsgSaved) tr'
    /\ summary tr' = [].
Proof.
  intros Hload Hcheck Hdump.
  destruct (scan_trace tr (check_stx_balances_scan _ _ _ _ _ _ Hcheck))
    as (_ & Hsum & Hd & Hsaved & _).
  destruct (sample_lines (if (3 <? List.length d)%nat then firstn 3 d else d))
    as (_ & Hr1 & Hs1 & Hd1 & Hsv1).
  exists ([ELoad "stacks_addresses.json"; EPrint (MsgLoaded (List.length d));
           EPrint MsgSampleHeader]
            ++ map (fun p => EPrint (MsgSample (fst p) (snd p)))
                 (if (3 <? List.length d)%nat then firstn 3 d else d)
            ++ tr ++ [EDump "qualifying_addresses.json" q 2]).
  split; [|split; [|split; [|split]]].
  - unfold main, open_load, open_dump, py_len, py_items.
    unfold bind, attempt, lift, print, emit.
    rewrite Hload, print_samples_run, Hcheck, Hdump. trace_eq.
  - rewrite !requests_app, Hr1. simpl. now rewrite app_nil_r.
  - rewrite !dumps_app, Hd1, Hd. reflexivity.
  - intros Hin. apply in_app_or in Hin.
    destruct Hin as [[H|[H|[H|[]]]]|Hin]; try discriminate.
    apply in_app_or in Hin. destruct Hin as [Hin|Hin]; [now apply Hsv1|].
    apply in_app_or in Hin. destruct Hin as [Hin|[H|[]]];
      [now apply Hsaved|discriminate].
  - rewrite !summary_app, Hs1, Hsum. reflexivity.
Qed.

(** X14. When the input is read and the result is written, [main]
    shows the first three entries of the input as the sample (all of
    them when there are fewer), makes the requests of the scan and no
    other, writes the dictionary that the scan returned, once, with
    indent 2, and its summary lists the entries of that dictionary in
    order; the line that none was found is printed exactly when the
    dictionary is empty. *)
Theorem main_reports_the_scan (w w1 w2 w3 : World)
        (d : list (string * pyval)) (q : qdict) (tr : list event) :
  load_json "stacks_addresses.json" w = (Ok (PyDict d), w1) ->
  check_stx_balances d five w1 = (Ok q, w2, tr) ->
  dump_json "qualifying_addresses.json" q 2 w2 = (Ok tt, w3) ->
  exists tr',
    main w = (Ok tt, w3, tr')
    /\ samples tr' = firstn 3 d
    /\ requests tr' = requests tr
    /\ dumps tr' = [("qualifying_addresses.json", q, 2%nat)]
    /\ summary tr'
       = map (fun p => (fst p, address (snd p), balance (snd p))) q
    /\ (In (EPrint MsgNoneFound) tr' <-> q = []).
Proof.
  intros Hload Hcheck Hdump.
  destruct (scan_trace tr (check_stx_balances_scan _ _ _ _ _ _ Hcheck))
    as (Hsam & Hsum & Hd & _ & Hnone).
  eexists. split; [apply (main_full_cycle w w1 w2 w3 d q tr); assumption|].
  assert (Hfirst : (if (3 <? List.length d)%nat then firstn 3 d else d)
                   = firstn 3 d).
  { destruct (Nat.ltb_spec 3 (List.length d)); [reflexivity|].
    symmetry. apply firstn_all2. lia. }
  rewrite Hfirst.
  destruct (sample_lines (firstn 3 d)) as (Hs1 & Hr1 & Hsu1 & Hd1 & _).
  destruct (summary_lines q) as (Hsu2 & Hs2 & Hr2 & Hd2 & Hn2).
  cbv zeta in Hs1, Hr1, Hsu1, Hd1, Hsu2, Hs2, Hr2, Hd2, Hn2.
  split; [|split; [|split; [|split]]].
  - rewrite !samples_app, Hs1, Hsam. cbn [samples app].
    destruct q; cbn [samples]; rewrite ?Hs2; now rewrite !app_nil_r.
  - rewrite !requests_app, Hr1. cbn [requests app].
    destruct q; cbn [requests]; rewrite ?Hr2; now rewrite !app_nil_r.
  - rewrite !dumps_app, Hd1, Hd. cbn [dumps app].
    destruct q; cbn [dumps]; rewrite ?Hd2; reflexivity.
  - rewrite !summary_app, Hsu1, Hsum. cbn [summary app].
    destruct q; cbn [summary]; rewrite ?Hsu2; reflexivity.
  - split.
    + intros Hin. apply in_app_or in Hin.
      destruct Hin as [[H|[H|[H|[]]]]|Hin]; try discriminate.
      apply in_app_or in Hin. destruct Hin as [Hin|Hin].
      { exfalso. clear - Hin. induction (firstn 3 d) as [|x l IH];
          [destruct Hin|].
        destruct Hin as [H|H]; [discriminate|auto]. }
      apply in_app_or in Hin. destruct Hin as [Hin|Hin]; [contradiction|].
      apply in_app_or in Hin.
      destruct Hin as [[H|[H|[]]]|Hin]; try discriminate.
      destruct q as [|x q']; [reflexivity|].
      exfalso. destruct Hin as [H|Hin]; [discriminate|].
      now apply Hn2.
    + intros ->. apply in_or_app. right. apply in_or_app. right.
      apply in_or_app. right. apply in_or_app. right. now left.
Qed.

(** X16. On an input file that holds the empty object, [main] makes no
    request, writes the empty dictionary and reports that none was
    found. *)
Theorem main_on_empty_mapping (w w1 w2 : World) :
  load_json "stacks_addresses.json" w = (Ok (PyDict []), w1) ->
  dump_json "qualifying_addresses.json" [] 2 w1 = (Ok tt, w2) ->
  main w
  = (Ok tt, w2,
     [ELoad "stacks_addresses.json"; EPrint (MsgLoaded 0);
      EPrint MsgSampleHeader; EPrint (MsgChecking 0 five);
      EPrint (MsgFoundCount 0 five);
      EDump "qualifying_addresses.json" [] 2; EPrint MsgSaved;
      EPrint MsgNoneFound]).
Proof.
  intros Hload Hdump.
  unfold main, open_load, open_dump, py_len, py_items, check_stx_balances,
    check_body.
  unfold bind, attempt, lift, print, emit, gets, ret.
  rewrite Hload. cbn [List.length Nat.ltb Nat.leb for_enumerate print_samples
                      world qualifying_addresses].
  unfold ret. cbn [world qualifying_addresses List.length app].
  rewrite Hdump. reflexivity.
Qed.

(** ** The scan against the lookups of the specification *)

(** One iteration announces what the lookup of its cleaned address
    yields, and leaves the world that the lookup leaves. *)
Lemma loop_body_lookup (t : float) (i : nat) (name : string) (a : pyval)
      (s : frame) :
  exists s' tr,
    loop_body t i name a s = (Ok tt, s', tr)
    /\ match clean a with
       | Raise _ => reports tr = [] /\ world s' = world s
       | Ok c =>
           world s' = snd (lookup c (world s))
           /\ reports tr
              = match fst (lookup c (world s)) with
                | Ok (Some b) => [(name, c, b)]
                | _ => []
                end
       end.
Proof.
  rewrite loop_body_eq. unfold lookup.
  destruct (clean a) as [c|e].
  2:{ eexists _, _. split; [reflexivity|]. split; reflexivity. }
  assert (Hsettle : forall fb w d pre,
             reports pre = [] -> errors pre = [] -> sleeps pre = [] ->
             exists s' tr,
               settle fb t i name c a w (qualifying_addresses s) d pre
               = (Ok tt, s', tr)
               /\ world s' = w
               /\ reports tr
                  = match d with
                    | Ok b => [(name, c, b)]
                    | Raise _ => []
                    end).
  { intros fb w d pre Hp He Hs.
    destruct (settle_spec fb t i name c a w (qualifying_addresses s) d pre
                Hp He Hs) as (s' & tr & E & Ha & _ & Hw & _).
    exists s', tr. split; [exact E|]. split; [exact Hw|].
    unfold announces in Ha. destruct d; destruct Ha as [-> _]; reflexivity. }
  destruct (http_get (base_url ++ c) (world s)) as [[r|e] w1].
  2:{ eexists _, _. split; [reflexivity|]. split; reflexivity. }
  destruct (status_code r =? 200).
  - destruct (Hsettle false w1 (decode_response r) [EGet (base_url ++ c)]
                eq_refl eq_refl eq_refl) as (s' & tr & E & Hw & Hr).
    exists s', tr. split; [exact E|]. cbn [fst snd].
    split; [exact Hw|]. rewrite Hr. now destruct (decode_response r).
  - destruct (http_get (fallback_base_url ++ c) w1) as [[r2|e] w2].
    2:{ eexists _, _. split; [reflexivity|]. split; reflexivity. }
    destruct (status_code r2 =? 200).
    + destruct (Hsettle true w2 (decode_response r2)
                  [EGet (base_url ++ c); EGet (fallback_base_url ++ c)]
                  eq_refl eq_refl eq_refl) as (s' & tr & E & Hw & Hr).
      exists s', tr. split; [exact E|]. cbn [fst snd].
      split; [exact Hw|]. rewrite Hr. now destruct (decode_response r2).
    + eexists _, _. split; [reflexivity|]. cbn [fst snd world].
      split; [reflexivity|].
      rewrite reports_app.
      destruct (pause_events_quiet i) as (_ & -> & _). reflexivity.
Qed.

(** The balances that the loop announces are the lookups of its
    entries. *)
Lemma for_enumerate_lookups (t : float) (items : list (string * pyval)) :
  forall (i : nat) (s : frame),
  exists s' tr,
    for_enumerate t i items s = (Ok tt, s', tr)
    /\ reports tr = lookups items (world s).
Proof.
  induction items as [|[name a] rest IH]; intros i s.
  - exists s, []. split; reflexivity.
  - destruct (loop_body_lookup t i name a s) as (s1 & tr1 & E1 & H1).
    destruct (IH (S i) s1) as (s' & tr2 & E2 & H2).
    exists s', (tr1 ++ tr2).
    split; [simpl; unfold bind; now rewrite E1, E2|].
    rewrite reports_app, H2. cbn [lookups].
    destruct (clean a) as [c|e].
    + destruct H1 as [Hw Hr]. rewrite Hr, Hw.
      destruct (lookup c (world s)) as [[[b|]|e] w1]; reflexivity.
    + destruct H1 as [Hr Hw]. now rewrite Hr, Hw.
Qed.

(** C1. The balances announced by a run are the lookups of the input
    mapping: for each entry, the decoding of the response with status
    200 that the primary endpoint, or else the fallback endpoint, gives
    for its cleaned address.  Under distinct names (the input is a
    dictionary) the result holds exactly the lookups whose balance
    exceeds the threshold, in order: a name whose lookup yields the
    balance [b] is a key of the result if and only if
    [b > min_balance], strictly, and is then stored with its cleaned
    address and that balance; every key of the result is such a name;
    the keys of the result are names of the input, and every stored
    balance exceeds the threshold. *)
Theorem check_stx_balances_threshold (address_dict : Dict.t pyval)
        (min_balance : float) (w : World) :
  NoDup (Dict.keys address_dict) ->
  exists result w' tr,
    check_stx_balances address_dict min_balance w = (Ok result, w', tr)
    /\ reports tr = lookups address_dict w
    /\ result
       = map entry_of
           (filter (fun r => PyFloat.gt (snd r) min_balance)
              (lookups address_dict w))
    /\ (forall name c b,
          In (name, c, b) (lookups address_dict w) ->
          (In name (Dict.keys result) <-> PyFloat.gt b min_balance = true)
          /\ (PyFloat.gt b min_balance = true ->
              Dict.get name result = Some {| address := c; balance := b |}))
    /\ (forall name,
          In name (Dict.keys result) ->
          exists c b,
            In (name, c, b) (lookups address_dict w)
            /\ PyFloat.gt b min_balance = true)
    /\ (forall name c b,
          In (name, c, b) (reports tr) ->
          (In name (Dict.keys result) <-> PyFloat.gt b min_balance = true)
          /\ (PyFloat.gt b min_balance = true ->
              Dict.get name result = Some {| address := c; balance := b |}))
    /\ incl (Dict.keys result) (Dict.keys address_dict)
    /\ (forall name rec,
          Dict.get name result = Some rec ->
          PyFloat.gt (balance rec) min_balance = true).
Proof.
  intros Hnd.
  pose (s0 := {| world := w; qualifying_addresses := [] |}).
  destruct (for_enumerate_settled min_balance address_dict O s0)
    as (s' & tr & E & _ & Hout & Hnames & Hdec & Hin).
  destruct (for_enumerate_lookups min_balance address_dict O s0)
    as (x1 & u1 & F1 & Hlook).
  destruct (for_enumerate_appends min_balance address_dict O s0 Hnd
              ltac:(reflexivity)) as (x2 & u2 & F2 & Happ & _).
  destruct (for_enumerate_tally min_balance address_dict O s0)
    as (x3 & u3 & F3 & _ & _ & Hfounds & _).
  rewrite E in F1, F2, F3.
  injection F1 as <- <-. injection F2 as <- <-. injection F3 as <- <-.
  specialize (Hdec Hnd).
  cbn [qualifying_addresses world s0 app] in Hout, Hdec, Hin, Hlook, Happ.
  exists (qualifying_addresses s'), (world s'). eexists.
  split; [apply check_stx_balances_run; exact E|].
  rewrite reports_run.
  assert (Hiff : forall name c b,
             In (name, c, b) (reports tr) ->
             (In name (Dict.keys (qualifying_addresses s'))
              <-> PyFloat.gt b min_balance = true)
             /\ (PyFloat.gt b min_balance = true ->
                 Dict.get name (qualifying_addresses s')
                 = Some {| address := c; balance := b |})).
  { intros name c b Hrep.
    specialize (Hdec name c b Hrep). rewrite in_keys_get.
    destruct (PyFloat.gt b min_balance).
    - split; [split; eauto|auto].
    - simpl in Hdec. split; [|discriminate].
      split; [intros [v Hv]; rewrite Hv in Hdec; discriminate|discriminate]. }
  split; [exact Hlook|].
  split; [rewrite Happ, Hfounds, Hlook; reflexivity|].
  split; [rewrite <- Hlook; exact Hiff|].
  split; [|split; [exact Hiff|split]].
  - intros name. rewrite in_keys_get. intros [rec Hrec].
    destruct (Hin name rec Hrec) as [H|[H Hgt]]; [discriminate|].
    exists (address rec), (balance rec). rewrite <- Hlook. auto.
  - intros name. rewrite in_keys_get. intros [rec Hrec].
    destruct (Hin name rec Hrec) as [H|[H _]]; [discriminate|].
    eapply Hnames; eauto.
  - intros name rec Hrec.
    destruct (Hin name rec Hrec) as [H|[_ H]]; [discriminate|exact H].
Qed.

(** ** Responses without a balance, failed requests *)

(** C6, as the code has it.  With a threshold that is not below zero,
    an entry answered with status 200 by a JSON body without a
    [balance] field stays out of the result and a message is logged
    for it.  When the body is a JSON object the message is the line
    that announces its balance, 0.0, and no error; a threshold below
    zero stores such an entry.  When the body is no object the message
    is the [AttributeError] caught, at every threshold.  A failed
    request, to the primary or to the fallback endpoint, and an
    unparseable balance string are caught, logged and leave the
    dictionary alone, at every threshold.  None of these conditions
    leaves [check_stx_balances], which always returns a dictionary. *)
Theorem missing_balance_skipped (t : float) :
  PyFloat.gt zero t = false ->
  (forall fb i name a c s r w' v,
      clean a = Ok c ->
      answered fb c s r w' ->
      body r = Some v ->
      lacks_balance v ->
      exists s' tr,
        loop_body t i name a s = (Ok tt, s', tr)
        /\ qualifying_addresses s' = qualifying_addresses s
        /\ founds tr = []
        /\ ((reports tr = [(name, c, zero)] /\ errors tr = [])
            \/ (reports tr = [] /\ errors tr = [(name, AttributeError)])))
  /\ (forall fb i name a c s r w' d,
        clean a = Ok c ->
        answered fb c s r w' ->
        body r = Some (PyDict d) ->
        Dict.get "balance" d = None ->
        exists s' tr,
          loop_body t i name a s = (Ok tt, s', tr)
          /\ qualifying_addresses s' = qualifying_addresses s
          /\ In (EPrint ((if fb then MsgBalanceFallback else MsgBalance)
                           name c zero)) tr
          /\ errors tr = [])
  /\ (forall t' fb i name a c s r w' d,
        PyFloat.gt zero t' = true ->
        clean a = Ok c ->
        answered fb c s r w' ->
        body r = Some (PyDict d) ->
        Dict.get "balance" d = None ->
        exists s' tr,
          loop_body t' i name a s = (Ok tt, s', tr)
          /\ qualifying_addresses s'
             = Dict.set name {| address := c; balance := zero |}
                 (qualifying_addresses s)
          /\ errors tr = [])
  /\ (forall t' fb i name a c s r w' v,
        clean a = Ok c ->
        answered fb c s r w' ->
        body r = Some v ->
        (forall d, v <> PyDict d) ->
        exists s' tr,
          loop_body t' i name a s = (Ok tt, s', tr)
          /\ qualifying_addresses s' = qualifying_addresses s
          /\ In (EPrint (MsgError name a AttributeError)) tr
          /\ errors tr = [(name, AttributeError)]
          /\ reports tr = [])
  /\ (forall t' i name a c s e w1,
        clean a = Ok c ->
        http_get (base_url ++ c) (world s) = (Raise e, w1) ->
        loop_body t' i name a s
        = (Ok tt,
           {| world := w1; qualifying_addresses := qualifying_addresses s |},
           [EGet (base_url ++ c); EPrint (MsgError name a e)]))
  /\ (forall t' i name a c s r w1 e w2,
        clean a = Ok c ->
        http_get (base_url ++ c) (world s) = (Ok r, w1) ->
        status_code r <> 200 ->
        http_get (fallback_base_url ++ c) w1 = (Raise e, w2) ->
        loop_body t' i name a s
        = (Ok tt,
           {| world := w2; qualifying_addresses := qualifying_addresses s |},
           [EGet (base_url ++ c); EGet (fallback_base_url ++ c);
            EPrint (MsgError name a e)]))
  /\ (forall t' fb i name a c s r w' d str e,
        clean a = Ok c ->
        answered fb c s r w' ->
        body r = Some (PyDict d) ->
        Dict.get "balance" d = Some (PyStr str) ->
        decode_balance (PyStr str) = Raise e ->
        exists s' tr,
          loop_body t' i name a s = (Ok tt, s', tr)
          /\ qualifying_addresses s' = qualifying_addresses s
          /\ In (EPrint (MsgError name a e)) tr
          /\ errors tr = [(name, e)])
  /\ (forall t' address_dict w,
        exists result w' tr,
          check_stx_balances address_dict t' w = (Ok result, w', tr)).
Proof.
  intros Ht.
  assert (Hobject : forall fb i name a c s r w' d,
             clean a = Ok c ->
             answered fb c s r w' ->
             body r = Some (PyDict d) ->
             Dict.get "balance" d = None ->
             exists s' tr,
               loop_body t i name a s = (Ok tt, s', tr)
               /\ qualifying_addresses s' = qualifying_addresses s
               /\ In (EPrint ((if fb then MsgBalanceFallback else MsgBalance)
                                name c zero)) tr
               /\ errors tr = []
               /\ reports tr = [(name, c, zero)]
               /\ founds tr = []).
  { intros fb i name a c s r w' d Hc Ha Hb Hd.
    destruct (decode_response_missing r d Hb Hd) as [_ Hz].
    rewrite (loop_body_answered fb t i name a c s r w' Hc Ha), Hz.
    unfold settle. rewrite Ht. eexists _, _.
    split; [reflexivity|]. split; [reflexivity|].
    destruct (pause_events_quiet i) as (_ & Hq2 & Hq3).
    destruct (pause_events_silent i) as (_ & Hq6).
    split; [apply in_or_app; right; now left|].
    rewrite !errors_app, !reports_app, !founds_app, Hq2, Hq3, Hq6.
    destruct fb; repeat split. }
  assert (Hother : forall t' fb i name a c s r w' v,
             clean a = Ok c ->
             answered fb c s r w' ->
             body r = Some v ->
             (forall d, v <> PyDict d) ->
             exists s' tr,
               loop_body t' i name a s = (Ok tt, s', tr)
               /\ qualifying_addresses s' = qualifying_addresses s
               /\ In (EPrint (MsgError name a AttributeError)) tr
               /\ errors tr = [(name, AttributeError)]
               /\ reports tr = []
               /\ founds tr = []).
  { intros t' fb i name a c s r w' v Hc Ha Hb Hv.
    rewrite (loop_body_answered fb t' i name a c s r w' Hc Ha).
    assert (Hdec : decode_response r = Raise AttributeError).
    { unfold decode_response, balance_field. rewrite Hb.
      destruct v; try reflexivity. exfalso. now apply (Hv d). }
    rewrite Hdec. unfold settle. eexists _, _.
    split; [reflexivity|]. split; [reflexivity|].
    split; [apply in_or_app; right; now left|].
    rewrite errors_app, reports_app, founds_app. destruct fb; repeat split. }
  split; [|split; [|split; [|split; [|split; [|split; [|split]]]]]].
  - intros fb i name a c s r w' v Hc Ha Hb Hl.
    destruct v as [| | | | | |d];
      try (destruct (Hother t fb i name a c s r w' _ Hc Ha Hb
                       ltac:(intros d; discriminate))
            as (s' & tr & E & Hq & _ & He & Hr & Hf);
           exists s', tr; repeat split; auto).
    destruct (Hobject fb i name a c s r w' d Hc Ha Hb Hl)
      as (s' & tr & E & Hq & _ & He & Hr & Hf).
    exists s', tr. repeat split; auto.
  - intros fb i name a c s r w' d Hc Ha Hb Hd.
    destruct (Hobject fb i name a c s r w' d Hc Ha Hb Hd)
      as (s' & tr & E & Hq & Hin & He & _).
    exists s', tr. repeat split; assumption.
  - intros t' fb i name a c s r w' d Ht' Hc Ha Hb Hd.
    destruct (decode_response_missing r d Hb Hd) as [_ Hz].
    rewrite (loop_body_answered fb t' i name a c s r w' Hc Ha), Hz.
    unfold settle. rewrite Ht'. eexists _, _.
    split; [reflexivity|]. split; [reflexivity|].
    destruct (pause_events_quiet i) as (_ & _ & Hq3).
    rewrite !errors_app, Hq3. destruct fb; reflexivity.
  - intros t' fb i name a c s r w' v Hc Ha Hb Hv.
    destruct (Hother t' fb i name a c s r w' v Hc Ha Hb Hv)
      as (s' & tr & E & Hq & Hin & He & Hr & _).
    exists s', tr. repeat split; assumption.
  - intros t' i name a c s e w1 Hc Hget.
    now rewrite loop_body_eq, Hc, Hget.
  - intros t' i name a c s r w1 e w2 Hc Hget Hn Hget2.
    apply Z.eqb_neq in Hn.
    now rewrite loop_body_eq, Hc, Hget, Hn, Hget2.
  - intros t' fb i name a c s r w' d str e Hc Ha Hb Hd He.
    rewrite (loop_body_answered fb t' i name a c s r w' Hc Ha).
    rewrite (decode_response_field r d _ Hb Hd), He.
    unfold settle. eexists _, _.
    split; [reflexivity|]. split; [reflexivity|].
    split; [apply in_or_app; right; now left|].
    rewrite errors_app. destruct fb; reflexivity.
  - intros t' address_dict w.
    destruct (for_enumerate_settled t' address_dict O
                {| world := w; qualifying_addresses := [] |})
      as (s' & tr & E & _).
    eexists _, _, _. apply check_stx_balances_run. exact E.
Qed.

End Program.

(** ** The theorems at work in the small world *)

Ltac distinct_names :=
  repeat (apply NoDup_cons; [simpl; intuition discriminate|]);
  apply NoDup_nil.

Lemma check_stx_balances_threshold_witness :
  NoDup (Dict.keys Demo.alice_bob)
  /\ exists result w' tr,
      check_stx_balances 4300 Demo.World Demo.http_get Demo.alice_bob five O
      = (Ok result, w', tr)
      /\ reports tr = lookups 4300 Demo.World Demo.http_get Demo.alice_bob O
      /\ result
         = map entry_of
             (filter (fun r => PyFloat.gt (snd r) five)
                (lookups 4300 Demo.World Demo.http_get Demo.alice_bob O))
      /\ (forall name c b,
            In (name, c, b)
              (lookups 4300 Demo.World Demo.http_get Demo.alice_bob O) ->
            (In name (Dict.keys result) <-> PyFloat.gt b five = true)
            /\ (PyFloat.gt b five = true ->
                Dict.get name result
                = Some {| address := c; balance := b |}))
      /\ (forall name,
            In name (Dict.keys result) ->
            exists c b,
              In (name, c, b)
                (lookups 4300 Demo.World Demo.http_get Demo.alice_bob O)
              /\ PyFloat.gt b five = true)
      /\ (forall name c b,
            In (name, c, b) (reports tr) ->
            (In name (Dict.keys result) <-> PyFloat.gt b five = true)
            /\ (PyFloat.gt b five = true ->
                Dict.get name result
                = Some {| address := c; balance := b |}))
      /\ incl (Dict.keys result) (Dict.keys Demo.alice_bob)
      /\ (forall name rec,
            Dict.get name result = Some rec ->
            PyFloat.gt (balance rec) five = true).
Proof.
  assert (H : NoDup (Dict.keys Demo.alice_bob)) by distinct_names.
  split; [exact H|].
  exact (check_stx_balances_threshold 4300 Demo.World Demo.http_get
           Demo.alice_bob five O H).
Defined.

Lemma balance_decoding_witness :
  (4300 = 0 \/ 640 <= 4300)%nat
  /\ (exists s' tr,
        loop_body 4300 Demo.World Demo.http_get five O "alice"
          (PyStr "SP000...1") {| world := O; qualifying_addresses := [] |} = (Ok tt, s', tr)
        /\ announces "alice" "SP000...1"
             (decode_balance 4300 (PyStr "0x7A1200")) tr)
  /\ decode_balance 4300 (PyStr "0x4c4b40") = Ok five.
Proof.
  assert (H : (4300 = 0 \/ 640 <= 4300)%nat) by (right; lia).
  split; [exact H|].
  destruct (balance_decoding 4300 Demo.World Demo.http_get H)
    as (Hprimary & _ & _ & _ & _ & Hhex & _).
  split; [|exact Hhex].
  apply (Hprimary five O "alice" (PyStr "SP000...1") "SP000...1" {| world := O; qualifying_addresses := [] |}
           (Demo.json_balance (PyStr "0x7A1200")) 1%nat
           [("balance", PyStr "0x7A1200")] (PyStr "0x7A1200"));
    reflexivity.
Defined.

Lemma fallback_once_witness :
  clean (PyStr "SP3") = Ok "SP3"
  /\ Demo.http_get (base_url ++ "SP3") O
     = (Ok Demo.not_found, 1%nat)
  /\ status_code Demo.not_found <> 200
  /\ exists s' tr,
      loop_body 4300 Demo.World Demo.http_get five 2 "carol" (PyStr "SP3") {| world := O; qualifying_addresses := [] |}
      = (Ok tt, s', tr)
      /\ requests tr = [(base_url ++ "SP3")%string;
                        (fallback_base_url ++ "SP3")%string].
Proof.
  assert (Hc : clean (PyStr "SP3") = Ok "SP3") by reflexivity.
  assert (Hg : Demo.http_get (base_url ++ "SP3") O
               = (Ok Demo.not_found, 1%nat)) by reflexivity.
  assert (Hn : status_code Demo.not_found <> 200) by discriminate.
  split; [exact Hc|]. split; [exact Hg|]. split; [exact Hn|].
  destruct (fallback_once 4300 Demo.World Demo.http_get five 2 "carol"
              (PyStr "SP3") "SP3" {| world := O; qualifying_addresses := [] |} Demo.not_found 1%nat Hc Hg Hn)
    as ((s' & tr & E & Hreq & _) & _).
  exists s', tr. split; assumption.
Defined.


Lemma missing_balance_skipped_witness :
  PyFloat.gt zero five = false
  /\ (exists s' tr,
        loop_body 4300 Demo.World Demo.http_get five 4 "erin" (PyStr "SP5")
          {| world := O; qualifying_addresses := [] |}
        = (Ok tt, s', tr)
        /\ qualifying_addresses Demo.World s' = []
        /\ In (EPrint (MsgBalance "erin" "SP5" zero)) tr
        /\ errors tr = [])
  /\ (exists s' tr,
        loop_body 4300 unit (Demo2.always Demo2.json_list) five 4 "erin"
          (PyStr "SP5") {| world := tt; qualifying_addresses := [] |}
        = (Ok tt, s', tr)
        /\ qualifying_addresses unit s' = []
        /\ errors tr = [("erin", AttributeError)])
  /\ loop_body 4300 unit Demo2.fallback_down five O "alice" (PyStr "SP1")
       {| world := tt; qualifying_addresses := [] |}
     = (Ok tt, {| world := tt; qualifying_addresses := [] |},
        [EGet (base_url ++ "SP1"); EGet (fallback_base_url ++ "SP1");
         EPrint (MsgError "alice" (PyStr "SP1") RequestException)]).
Proof.
  assert (H : PyFloat.gt zero five = false) by reflexivity.
  split; [exact H|].
  destruct (missing_balance_skipped 4300 Demo.World Demo.http_get five H)
    as (_ & Hobject & _).
  destruct (missing_balance_skipped 4300 unit (Demo2.always Demo2.json_list)
              five H) as (Hmissing & _).
  destruct (missing_balance_skipped 4300 unit Demo2.fallback_down five H)
    as (_ & _ & _ & _ & _ & Hfallback & _).
  split; [|split].
  - apply (Hobject false 4%nat "erin" (PyStr "SP5") "SP5"
             {| world := O; qualifying_addresses := [] |}
             {| status_code := 200; body := Some (PyDict []) |} 1%nat []).
    + reflexivity.
    + split; reflexivity.
    + reflexivity.
    + reflexivity.
  - destruct (Hmissing false 4%nat "erin" (PyStr "SP5") "SP5"
                {| world := tt; qualifying_addresses := [] |}
                Demo2.json_list tt (PyList []) eq_refl
                (conj eq_refl eq_refl) eq_refl I)
      as (s' & tr & E & Hq & _ & [[Hr _]|[_ He]]).
    + exfalso.
      assert (Hrun : reports (snd (loop_body 4300 unit
                                     (Demo2.always Demo2.json_list) five 4
                                     "erin" (PyStr "SP5")
                                     {| world := tt;
                                        qualifying_addresses := [] |}))
                     = []) by reflexivity.
      rewrite E in Hrun. simpl in Hrun. rewrite Hr in Hrun. discriminate.
    + exists s', tr. repeat split; assumption.
  - apply (Hfallback five O "alice" (PyStr "SP1") "SP1"
             {| world := tt; qualifying_addresses := [] |}
             Demo.not_found tt RequestException tt).
    + reflexivity.
    + reflexivity.
    + discriminate.
    + reflexivity.
Defined.

Lemma missing_balance_defaults_witness :
  (clean (PyStr "SP5") = Ok "SP5"
   /\ answered Demo.World Demo.http_get false "SP5"
        {| world := O; qualifying_addresses := [] |}
        {| status_code := 200; body := Some (PyDict []) |} 1%nat
   /\ lacks_balance (PyDict [])
   /\ decode_response 4300 {| status_code := 200; body := Some (PyDict []) |}
      = Ok zero
   /\ exists s' tr,
       loop_body 4300 Demo.World Demo.http_get minus_one 4 "erin"
         (PyStr "SP5") {| world := O; qualifying_addresses := [] |}
       = (Ok tt, s', tr)
       /\ errors tr = []
       /\ qualifying_addresses Demo.World s'
          = [("erin", {| address := "SP5"; balance := zero |})])
  /\ (answered unit (Demo2.always Demo2.json_list) false "SP5"
        {| world := tt; qualifying_addresses := [] |} Demo2.json_list tt
      /\ lacks_balance (PyList [])
      /\ exists s' tr,
          loop_body 4300 unit (Demo2.always Demo2.json_list) minus_one 4
            "erin" (PyStr "SP5") {| world := tt; qualifying_addresses := [] |}
          = (Ok tt, s', tr ++ [EPrint (MsgError "erin" (PyStr "SP5")
                                         AttributeError)])
          /\ reports (tr ++ [EPrint (MsgError "erin" (PyStr "SP5")
                                       AttributeError)]) = []
          /\ qualifying_addresses unit s' = []).
Proof.
  assert (Hc : clean (PyStr "SP5") = Ok "SP5") by reflexivity.
  assert (Ha : answered Demo.World Demo.http_get false "SP5"
                 {| world := O; qualifying_addresses := [] |}
                 {| status_code := 200; body := Some (PyDict []) |} 1%nat)
    by (split; reflexivity).
  assert (Hl : lacks_balance (PyDict [])) by reflexivity.
  assert (Ha2 : answered unit (Demo2.always Demo2.json_list) false "SP5"
                  {| world := tt; qualifying_addresses := [] |}
                  Demo2.json_list tt) by (split; reflexivity).
  assert (Hl2 : lacks_balance (PyList [])) by exact I.
  split.
  - split; [exact Hc|]. split; [exact Ha|]. split; [exact Hl|].
    destruct (proj1 (missing_balance_defaults 4300 Demo.World Demo.http_get
                       false minus_one 4%nat "erin" (PyStr "SP5") "SP5"
                       {| world := O; qualifying_addresses := [] |}
                       {| status_code := 200; body := Some (PyDict []) |}
                       1%nat (PyDict []) Hc Ha eq_refl Hl))
      as (_ & Hz & s' & tr & _ & E & _ & He & _ & Hq).
    split; [exact Hz|]. exists s', tr.
    split; [exact E|]. split; [exact He|]. exact (Hq eq_refl).
  - split; [exact Ha2|]. split; [exact Hl2|].
    destruct (proj1 (missing_balance_defaults 4300 unit
                       (Demo2.always Demo2.json_list)
                       false minus_one 4%nat "erin" (PyStr "SP5") "SP5"
                       {| world := tt; qualifying_addresses := [] |}
                       Demo2.json_list tt (PyList []) Hc Ha2 eq_refl Hl2))
      as (_ & _ & s' & tr & _ & E & _ & _ & Hr & Hq).
    exists s', tr. split; [exact E|]. split; [exact Hr|]. exact Hq.
Defined.

Lemma pause_after_fifth_witness :
  (5 < List.length Demo.six_answered)%nat
  /\ sleeps (nth 5 (iterations 4300 Demo.World Demo.http_get five O
                      Demo.six_answered {| world := O; qualifying_addresses := [] |}) [])
     = (if (0 <? 5)%nat && (5 mod 5 =? 0)%nat
           && quiet (nth 5 (iterations 4300 Demo.World Demo.http_get five O
                              Demo.six_answered {| world := O; qualifying_addresses := [] |}) [])
        then [1] else []).
Proof.
  assert (H : (5 < List.length Demo.six_answered)%nat) by (simpl; lia).
  split; [exact H|].
  exact (proj1 (proj2 (pause_after_fifth 4300 Demo.World Demo.http_get five
                         Demo.six_answered {| world := O; qualifying_addresses := [] |} 5%nat H))).
Defined.

Lemma input_errors_end_run_witness :
  Demo.no_file "stacks_addresses.json" O = (Raise FileNotFoundError, O)
  /\ (FileNotFoundError = FileNotFoundError
      \/ FileNotFoundError = JSONDecodeError)
  /\ exists tr,
      main 4300 Demo.World Demo.http_get Demo.no_file Demo.dump_json O
      = (Ok tt, O, tr)
      /\ requests tr = [] /\ dumps tr = [].
Proof.
  assert (H1 : Demo.no_file "stacks_addresses.json" O
               = (Raise FileNotFoundError, O)) by reflexivity.
  assert (H2 : FileNotFoundError = FileNotFoundError
               \/ FileNotFoundError = JSONDecodeError) by (left; reflexivity).
  split; [exact H1|]. split; [exact H2|].
  destruct (input_errors_end_run 4300 Demo.World Demo.http_get Demo.no_file
              Demo.dump_json FileNotFoundError O O H1 H2)
    as (tr & E & _ & Hreq & Hdump).
  exists tr. repeat split; assumption.
Defined.

Lemma script_raises_name_error_witness :
  existsb (String.eqb "_name_") Demo.builtins = false
  /\ script 4300 Demo.World Demo.http_get Demo.good_file Demo.dump_json
       Demo.builtins O
     = (Raise NameError, O, []).
Proof.
  assert (H : existsb (String.eqb "_name_") Demo.builtins = false)
    by reflexivity.
  split; [exact H|].
  exact (script_raises_name_error 4300 Demo.World Demo.http_get Demo.good_file
           Demo.dump_json Demo.builtins O H).
Defined.

(** C6 as the specification words it fails: with the threshold -1.0, the
    entry answered with status 200 and the JSON object without a
    [balance] field is not skipped, it is stored with balance 0.0. *)
Lemma missing_balance_not_skipped :
  let run := check_stx_balances 4300 Demo.World Demo.http_get Demo.erin
               minus_one O in
  Demo.http_get (base_url ++ "SP5") O
  = (Ok {| status_code := 200; body := Some (PyDict []) |}, 1%nat)
  /\ fst (fst run) = Ok [("erin", {| address := "SP5"; balance := zero |})]
  /\ ~ skipped Demo.World "erin" run.
Proof.
  split; [reflexivity|]. split; [vm_compute; reflexivity|].
  vm_compute. discriminate.
Qed.

(** C7 as the specification words it fails: index 5 is a positive
    multiple of 5, the request of the entry at index 5 raises, and the
    iteration does not pause. *)
Lemma no_pause_after_exception :
  ~ pauses_every_fifth 4300 Demo.World Demo.http_get five Demo.six {| world := O; qualifying_addresses := [] |}.
Proof.
  intros H.
  destruct (H 5%nat) as [_ H5]; [simpl; lia|].
  assert (Hin : In (ESleep 1)
                  (nth 5 (iterations 4300 Demo.World Demo.http_get five O
                            Demo.six {| world := O; qualifying_addresses := [] |}) []))
    by (apply H5; split; [lia|reflexivity]).
  vm_compute in Hin.
  repeat (destruct Hin as [Hin|Hin]; [discriminate|]).
  exact Hin.
Qed.

(** ** The further theorems at work *)

Lemma result_is_found_lines_witness :
  NoDup (Dict.keys Demo.six)
  /\ exists result w' tr,
      check_stx_balances 4300 Demo.World Demo.http_get Demo.six five O
      = (Ok result, w', tr)
      /\ result = map entry_of (founds tr).
Proof.
  assert (H : NoDup (Dict.keys Demo.six)) by distinct_names.
  split; [exact H|].
  destruct (result_is_found_lines 4300 Demo.World Demo.http_get Demo.six five
              O H) as (result & w' & tr & E & Hres & _).
  exists result, w', tr. split; assumption.
Defined.

Lemma result_in_input_order_witness :
  NoDup (Dict.keys Demo.six)
  /\ exists result w' tr,
      check_stx_balances 4300 Demo.World Demo.http_get Demo.six five O
      = (Ok result, w', tr)
      /\ Dict.keys result
         = filter (fun n => Dict.mem n result) (Dict.keys Demo.six).
Proof.
  assert (H : NoDup (Dict.keys Demo.six)) by distinct_names.
  split; [exact H|].
  destruct (result_in_input_order 4300 Demo.World Demo.http_get Demo.six five
              O H) as (result & w' & tr & E & Hkeys & _).
  exists result, w', tr. split; assumption.
Defined.

Lemma threshold_monotone_witness :
  NoDup (Dict.keys Demo.six)
  /\ PyFloat.le zero five = true
  /\ exists r1 r2 w' tr1 tr2,
      check_stx_balances 4300 Demo.World Demo.http_get Demo.six zero O
      = (Ok r1, w', tr1)
      /\ check_stx_balances 4300 Demo.World Demo.http_get Demo.six five O
         = (Ok r2, w', tr2)
      /\ incl (Dict.keys r2) (Dict.keys r1).
Proof.
  assert (H : NoDup (Dict.keys Demo.six)) by distinct_names.
  assert (Hle : PyFloat.le zero five = true) by reflexivity.
  split; [exact H|]. split; [exact Hle|].
  destruct (threshold_monotone 4300 Demo.World Demo.http_get Demo.six zero
              five O H Hle)
    as (r1 & r2 & w' & tr1 & tr2 & E1 & E2 & _ & _ & _ & Hincl).
  exists r1, r2, w', tr1, tr2. repeat split; assumption.
Defined.

Lemma upper_case_prefix_rejected_witness :
  clean (PyStr "SP1") = Ok "SP1"
  /\ answered unit (Demo2.always Demo2.upper_case) false "SP1"
       {| world := tt; qualifying_addresses := [] |} Demo2.upper_case tt
  /\ decode_balance 4300 (PyStr ("0X" ++ "4c4b40")) = Raise ValueError.
Proof.
  assert (Hc : clean (PyStr "SP1") = Ok "SP1") by reflexivity.
  assert (Ha : answered unit (Demo2.always Demo2.upper_case) false "SP1"
                 {| world := tt; qualifying_addresses := [] |}
                 Demo2.upper_case tt) by (split; reflexivity).
  split; [exact Hc|]. split; [exact Ha|].
  exact (proj1 (upper_case_prefix_rejected 4300 unit
                  (Demo2.always Demo2.upper_case) "4c4b40" false five O
                  "alice" (PyStr "SP1") "SP1"
                  {| world := tt; qualifying_addresses := [] |}
                  Demo2.upper_case tt [("balance", PyStr "0X4c4b40")]
                  Hc Ha eq_refl eq_refl)).
Defined.

Lemma non_positive_never_qualifies_witness :
  -7 <= 0
  /\ PyFloat.le zero five = true
  /\ answered unit (Demo2.always Demo2.overdrawn) false "SP1"
       {| world := tt; qualifying_addresses := [] |} Demo2.overdrawn tt
  /\ exists s' tr,
      loop_body 4300 unit (Demo2.always Demo2.overdrawn) five O "alice"
        (PyStr "SP1") {| world := tt; qualifying_addresses := [] |}
      = (Ok tt, s', tr)
      /\ announces "alice" "SP1" (PyFloat.int_true_divide (-7) 1000000) tr
      /\ founds tr = []
      /\ qualifying_addresses unit s' = [].
Proof.
  assert (Hn : -7 <= 0) by lia.
  assert (Ht : PyFloat.le zero five = true) by reflexivity.
  assert (Ha : answered unit (Demo2.always Demo2.overdrawn) false "SP1"
                 {| world := tt; qualifying_addresses := [] |}
                 Demo2.overdrawn tt) by (split; reflexivity).
  split; [exact Hn|]. split; [exact Ht|]. split; [exact Ha|].
  exact (proj2 (proj2 (non_positive_never_qualifies 4300 unit
                  (Demo2.always Demo2.overdrawn) (-7) false five O "alice"
                  (PyStr "SP1") "SP1"
                  {| world := tt; qualifying_addresses := [] |}
                  Demo2.overdrawn tt [("balance", PyInt (-7))]
                  Hn Ht eq_refl Ha eq_refl eq_refl))).
Defined.

Lemma malformed_response_skipped_witness :
  answered unit (Demo2.always Demo2.no_json) false "SP1"
    {| world := tt; qualifying_addresses := [] |} Demo2.no_json tt
  /\ exists s' tr,
      loop_body 4300 unit (Demo2.always Demo2.no_json) five O "alice"
        (PyStr "SP1") {| world := tt; qualifying_addresses := [] |}
      = (Ok tt, s', tr)
      /\ errors tr = [("alice", JSONDecodeError)].
Proof.
  assert (Ha : answered unit (Demo2.always Demo2.no_json) false "SP1"
                 {| world := tt; qualifying_addresses := [] |}
                 Demo2.no_json tt) by (split; reflexivity).
  split; [exact Ha|].
  destruct (malformed_response_skipped 4300 unit (Demo2.always Demo2.no_json)
              false five O "alice" (PyStr "SP1") "SP1"
              {| world := tt; qualifying_addresses := [] |}
              Demo2.no_json tt JSONDecodeError eq_refl Ha eq_refl)
    as (s' & tr & E & He & _).
  exists s', tr. split; assumption.
Defined.

Lemma main_rejects_non_mapping_witness :
  Demo2.list_file "stacks_addresses.json" O
  = (Ok (PyList [PyStr "SP000...1"]), O)
  /\ (forall d, PyList [PyStr "SP000...1"] <> PyDict d)
  /\ exists e tr,
      main 4300 Demo.World Demo.http_get Demo2.list_file Demo.dump_json O
      = (Raise e, O, tr)
      /\ requests tr = [] /\ dumps tr = [].
Proof.
  assert (H1 : Demo2.list_file "stacks_addresses.json" O
               = (Ok (PyList [PyStr "SP000...1"]), O)) by reflexivity.
  assert (H2 : forall d, PyList [PyStr "SP000...1"] <> PyDict d)
    by (intros d; discriminate).
  split; [exact H1|]. split; [exact H2|].
  destruct (main_rejects_non_mapping 4300 Demo.World Demo.http_get
              Demo2.list_file Demo.dump_json (PyList [PyStr "SP000...1"])
              O O H1 H2) as (e & tr & E & _ & Hr & Hd).
  exists e, tr. repeat split; assumption.
Defined.

Lemma main_load_error_propagates_witness :
  Demo2.locked_file "stacks_addresses.json" O = (Raise OSError, O)
  /\ OSError <> FileNotFoundError /\ OSError <> JSONDecodeError
  /\ main 4300 Demo.World Demo.http_get Demo2.locked_file Demo.dump_json O
     = (Raise OSError, O, [ELoad "stacks_addresses.json"]).
Proof.
  assert (H1 : Demo2.locked_file "stacks_addresses.json" O
               = (Raise OSError, O)) by reflexivity.
  assert (H2 : OSError <> FileNotFoundError) by discriminate.
  assert (H3 : OSError <> JSONDecodeError) by discriminate.
  split; [exact H1|]. split; [exact H2|]. split; [exact H3|].
  exact (main_load_error_propagates 4300 Demo.World Demo.http_get
           Demo2.locked_file Demo.dump_json OSError O O H1 H2 H3).
Defined.

Ltac run_scan E :=
  let v := eval vm_compute in
    (check_stx_balances 4300 Demo.World Demo.http_get Demo.alice_bob five O) in
  assert (E : check_stx_balances 4300 Demo.World Demo.http_get Demo.alice_bob
                five O = v) by (vm_compute; reflexivity).

Lemma main_dump_error_propagates_witness :
  Demo.good_file "stacks_addresses.json" O = (Ok (PyDict Demo.alice_bob), O)
  /\ exists q w2 tr,
      check_stx_balances 4300 Demo.World Demo.http_get Demo.alice_bob five O
      = (Ok q, w2, tr)
      /\ Demo2.read_only "qualifying_addresses.json" q 2 w2
         = (Raise OSError, w2)
      /\ exists tr',
          main 4300 Demo.World Demo.http_get Demo.good_file Demo2.read_only O
          = (Raise OSError, w2, tr')
          /\ ~ In (EPrint MsgSaved) tr'.
Proof.
  split; [reflexivity|].
  run_scan E.
  match type of E with
  | _ = (Ok ?q, ?w2, ?tr) =>
      exists q, w2, tr; split; [exact E|]; split; [reflexivity|];
      destruct (main_dump_error_propagates 4300 Demo.World Demo.http_get
                  Demo.good_file Demo2.read_only OSError O O w2 w2
                  Demo.alice_bob q tr eq_refl E eq_refl)
        as (tr' & Em & _ & _ & Hs & _);
      exists tr'; split; assumption
  end.
Defined.

Lemma main_reports_the_scan_witness :
  Demo.good_file "stacks_addresses.json" O = (Ok (PyDict Demo.alice_bob), O)
  /\ exists q w2 tr,
      check_stx_balances 4300 Demo.World Demo.http_get Demo.alice_bob five O
      = (Ok q, w2, tr)
      /\ Demo.dump_json "qualifying_addresses.json" q 2 w2 = (Ok tt, w2)
      /\ exists tr',
          main 4300 Demo.World Demo.http_get Demo.good_file Demo.dump_json O
          = (Ok tt, w2, tr')
          /\ samples tr' = firstn 3 Demo.alice_bob
          /\ dumps tr' = [("qualifying_addresses.json", q, 2%nat)].
Proof.
  split; [reflexivity|].
  run_scan E.
  match type of E with
  | _ = (Ok ?q, ?w2, ?tr) =>
      exists q, w2, tr; split; [exact E|]; split; [reflexivity|];
      destruct (main_reports_the_scan 4300 Demo.World Demo.http_get
                  Demo.good_file Demo.dump_json O O w2 w2
                  Demo.alice_bob q tr eq_refl E eq_refl)
        as (tr' & Em & Hs & _ & Hd & _);
      exists tr'; repeat split; assumption
  end.
Defined.

Lemma main_on_empty_mapping_witness :
  Demo.dump_json "qualifying_addresses.json" [] 2 O = (Ok tt, O)
  /\ exists tr,
      main 4300 Demo.World Demo.http_get
        (fun _ w => (Ok (PyDict []), w)) Demo.dump_json O
      = (Ok tt, O, tr)
      /\ requests tr = [].
Proof.
  assert (H : Demo.dump_json "qualifying_addresses.json" [] 2 O = (Ok tt, O))
    by reflexivity.
  split; [exact H|]. eexists. split.
  - exact (main_on_empty_mapping 4300 Demo.World Demo.http_get
             (fun _ w => (Ok (PyDict []), w)) Demo.dump_json O O O eq_refl H).
  - reflexivity.
Defined.

(** C10 as the specification words it fails: the body [[]] is JSON and
    has no [balance] field, the response has status 200 and the
    threshold -1.0 is negative; the field does not default, the
    [AttributeError] is logged, no balance is announced and the entry
    does not qualify. *)
Lemma non_object_body_does_not_default :
  let run := check_stx_balances 4300 unit (Demo2.always Demo2.json_list)
               Demo.erin minus_one tt in
  Demo2.always Demo2.json_list (base_url ++ "SP5") tt
  = (Ok {| status_code := 200; body := Some (PyList []) |}, tt)
  /\ lacks_balance (PyList [])
  /\ PyFloat.lt minus_one zero = true
  /\ balance_field Demo2.json_list = Raise AttributeError
  /\ errors (snd run) = [("erin", AttributeError)]
  /\ reports (snd run) = []
  /\ fst (fst run) = Ok []
  /\ ~ (exists result,
          fst (fst run) = Ok result /\ In "erin" (Dict.keys result)).
Proof.
  repeat split; try reflexivity.
  intros (result & Hrun & Hin).
  vm_compute in Hrun. injection Hrun as <-. destruct Hin.
Qed.

(** The end-to-end scenario of the specification: alice holds 8.0 STX,
    bob 1.048576 STX, the threshold is 5.0. *)
Lemma alice_and_bob :
  lookups 4300 Demo.World Demo.http_get Demo.alice_bob O
  = [("alice", "SP000...1", S754_finite false 4503599627370496 (-49));
     ("bob", "SP000...2", S754_finite false 4722366482869645 (-52))]
  /\ fst (fst (check_stx_balances 4300 Demo.World Demo.http_get
                 Demo.alice_bob five O))
     = Ok [("alice",
            {| address := "SP000...1";
               balance := S754_finite false 4503599627370496 (-49) |})]
  /\ (PyFloat.to_Q (S754_finite false 4503599627370496 (-49)) == 8)%Q
  /\ (PyFloat.to_Q (S754_finite false 4722366482869645 (-52))
      == 4722366482869645 # 4503599627370496)%Q.
Proof.
  repeat split; vm_compute; reflexivity.
Qed.
